(** * ATM: the account store and the session service of [ATM.py]

    A shallow embedding of the two classes that carry the program's state,
    [User] (with its [load_users] / [save] file round trip) and
    [BankService] (authenticate, change_password, withdraw, transfer,
    get_balance), followed by the properties the specification states about
    them.

    Python values are modelled as follows.
    - [int] is unbounded: [Z].
    - [str] is a sequence of Unicode code points: [list N].
    - The [User] objects of [BankService._users] are created one per line by
      [User.load_users], so they are pairwise distinct and an object is
      identified by its position in the list.  [_current_user] is a reference
      to one of them: [option nat], [None] for Python's [None].  A mutation
      through the reference is an update of the list at that position, which
      is what makes it visible to the later [User.save].
    - [int], [str] and [{...:,}] raise [ValueError] on an integer of more
      digits than the interpreter allows, 4300 unless that was set. The
      conversions of [Py] come with the limit off and, as [int_limit],
      [str_limit] and [format_comma_limit], under a limit [max_str_digits];
      [load_users_limit] and the transfer page, whose amount field takes any
      text, are stated under a limit. A balance that was read under a limit
      stays within it whatever is called, so the conversions with the limit
      off are the ones of the program for the balances it holds. *)

From Stdlib Require Import ZArith NArith List Bool Lia Ascii String Decimal
  DecimalPos.
From stdpp Require Import base numbers list option gmap.

Import ListNotations.

Abbreviation codepoint := N (only parsing).
Abbreviation str := (list N) (only parsing).

(** ** The Python built-ins the code calls *)

Module Py.

Definition LF : codepoint := 10%N.
Definition CR : codepoint := 13%N.
Definition SPACE : codepoint := 32%N.
Definition DQUOTE : codepoint := 34%N.
Definition PLUS : codepoint := 43%N.
Definition COMMA : codepoint := 44%N.
Definition MINUS : codepoint := 45%N.
Definition ZERO : codepoint := 48%N.
Definition NINE : codepoint := 57%N.
Definition QUESTION : codepoint := 63%N.
Definition UNDERSCORE : codepoint := 95%N.

(** A text literal: the code points of an ASCII string. *)
Definition lit (s : string) : str :=
  map N_of_ascii (list_ascii_of_string s).

(** [a == b] on [str]. *)
Definition str_eq (a b : str) : bool := bool_decide (a = b).

Definition in_ranges (tbl : list (N * N)) (c : codepoint) : bool :=
  existsb (fun r => (fst r <=? c)%N && (c <=? snd r)%N) tbl.

(** The Unicode character database of the interpreter (CPython 3.11,
    Unicode 14.0.0), as the three character tests below read it. *)

(** White_Space / bidirectional type WS, B or S. *)
Definition whitespace_ranges : list (N * N) :=
  [ (0x9, 0xD); (0x1C, 0x20); (0x85, 0x85); (0xA0, 0xA0);
    (0x1680, 0x1680); (0x2000, 0x200A); (0x2028, 0x2029); (0x202F, 0x202F);
    (0x205F, 0x205F); (0x3000, 0x3000) ]%N.

(** The code point of digit zero of every run of ten decimal digits
    (Numeric_Type=Decimal). *)
Definition decimal_zeros : list N :=
  [ 0x30; 0x660; 0x6F0; 0x7C0; 0x966; 0x9E6; 0xA66; 0xAE6;
    0xB66; 0xBE6; 0xC66; 0xCE6; 0xD66; 0xDE6; 0xE50; 0xED0;
    0xF20; 0x1040; 0x1090; 0x17E0; 0x1810; 0x1946; 0x19D0; 0x1A80;
    0x1A90; 0x1B50; 0x1BB0; 0x1C40; 0x1C50; 0xA620; 0xA8D0; 0xA900;
    0xA9D0; 0xA9F0; 0xAA50; 0xABF0; 0xFF10; 0x104A0; 0x10D30; 0x11066;
    0x110F0; 0x11136; 0x111D0; 0x112F0; 0x11450; 0x114D0; 0x11650; 0x116C0;
    0x11730; 0x118E0; 0x11950; 0x11C50; 0x11D50; 0x11DA0; 0x16A60; 0x16AC0;
    0x16B50; 0x1D7CE; 0x1D7D8; 0x1D7E2; 0x1D7EC; 0x1D7F6; 0x1E140; 0x1E2F0;
    0x1E950; 0x1FBF0 ]%N.

(** Numeric_Type=Digit: superscripts, subscripts, circled digits ... *)
Definition other_digit_ranges : list (N * N) :=
  [ (0xB2, 0xB3); (0xB9, 0xB9); (0x1369, 0x1371); (0x19DA, 0x19DA);
    (0x2070, 0x2070); (0x2074, 0x2079); (0x2080, 0x2089); (0x2460, 0x2468);
    (0x2474, 0x247C); (0x2488, 0x2490); (0x24EA, 0x24EA); (0x24F5, 0x24FD);
    (0x24FF, 0x24FF); (0x2776, 0x277E); (0x2780, 0x2788); (0x278A, 0x2792);
    (0x10A40, 0x10A43); (0x10E60, 0x10E68); (0x11052, 0x1105A);
    (0x1F100, 0x1F10A) ]%N.

Definition Py_UNICODE_ISSPACE (c : codepoint) : bool :=
  in_ranges whitespace_ranges c.

(** The decimal value of [c], [None] where CPython returns -1. *)
Definition Py_UNICODE_TODECIMAL (c : codepoint) : option N :=
  match List.find (fun z => (z <=? c)%N && (c <? z + 10)%N) decimal_zeros with
  | Some z => Some (c - z)%N
  | None => None
  end.

Definition Py_UNICODE_ISDIGIT (c : codepoint) : bool :=
  match Py_UNICODE_TODECIMAL c with
  | Some _ => true
  | None => in_ranges other_digit_ranges c
  end.

(** [s.isdigit()]: every character is a digit and there is at least one
    character. *)
Definition isdigit (s : str) : bool :=
  match s with
  | [] => false
  | _ :: _ => forallb Py_UNICODE_ISDIGIT s
  end.

(** [s.split(sep)] for a one-character separator: never an empty list. *)
Fixpoint split (sep : codepoint) (s : str) : list str :=
  match s with
  | [] => [[]]
  | c :: r =>
      if (c =? sep)%N then [] :: split sep r
      else match split sep r with
           | f :: fs => (c :: f) :: fs
           | [] => [[c]]
           end
  end.

(** *** [int(s)] *)

(** The ASCII tests of [pyctype.h]. *)
Definition Py_ISSPACE (c : codepoint) : bool :=
  ((9 <=? c)%N && (c <=? 13)%N) || (c =? SPACE)%N.

Definition Py_ISDIGIT (c : codepoint) : bool :=
  (ZERO <=? c)%N && (c <=? NINE)%N.

(** [_PyUnicode_TransformDecimalAndSpaceToASCII], character by character:
    characters below 127 are kept, other white space becomes a space, other
    decimal digits become their ASCII digit, and anything else becomes
    ['?'] (CPython also cuts the buffer after the first ['?'], which
    changes nothing: no integer literal contains one). *)
Definition transform_char (c : codepoint) : codepoint :=
  if (c <? 127)%N then c
  else if Py_UNICODE_ISSPACE c then SPACE
  else match Py_UNICODE_TODECIMAL c with
       | Some d => (ZERO + d)%N
       | None => QUESTION
       end.

Fixpoint skip_spaces (s : str) : str :=
  match s with
  | c :: r => if Py_ISSPACE c then skip_spaces r else s
  | [] => []
  end.

(** The scan of [PyLong_FromString] in base 10: the longest run of digits
    and underscores, rejected when a run of underscores is longer than one
    or ends the run. [prev] is the previous character being an underscore,
    [acc] the value so far. Returns the value and the rest of the text. *)
Fixpoint scan_digits (prev : bool) (acc : Z) (s : str) : option (Z * str) :=
  match s with
  | c :: r =>
      if Py_ISDIGIT c then
        scan_digits false (10 * acc + Z.of_N (c - ZERO)) r
      else if (c =? UNDERSCORE)%N then
        if prev then None else scan_digits true acc r
      else if prev then None else Some (acc, s)
  | [] => if prev then None else Some (acc, [])
  end.

(** [PyLong_FromString(buffer, &end, 10)] followed by the test that the
    whole buffer was read: leading white space, one optional sign, a
    digit first, then the scan, then trailing white space only. *)
Definition long_from_string (s : str) : option Z :=
  let s1 := skip_spaces s in
  let '(negative, s2) :=
    match s1 with
    | c :: r => if (c =? MINUS)%N then (true, r)
                else if (c =? PLUS)%N then (false, r)
                else (false, s1)
    | [] => (false, s1)
    end in
  match s2 with
  | c :: _ =>
      if Py_ISDIGIT c then
        match scan_digits false 0 s2 with
        | Some (n, rest) =>
            match skip_spaces rest with
            | [] => Some (if negative then - n else n)%Z
            | _ :: _ => None
            end
        | None => None
        end
      else None
  | [] => None
  end.

(** [int(s)] with the limit on the number of digits off
    ([sys.set_int_max_str_digits(0)]), [None] for [ValueError]; [int_limit]
    below is [int(s)] under a limit. *)
Definition int (s : str) : option Z :=
  long_from_string (map transform_char s).

(** *** [str(n)]

    With the limit on the number of digits off; [str_limit] below is
    [str(n)] under a limit. *)

Fixpoint uint_digits (u : Decimal.uint) : str :=
  match u with
  | Nil => []
  | D0 u => 48%N :: uint_digits u
  | D1 u => 49%N :: uint_digits u
  | D2 u => 50%N :: uint_digits u
  | D3 u => 51%N :: uint_digits u
  | D4 u => 52%N :: uint_digits u
  | D5 u => 53%N :: uint_digits u
  | D6 u => 54%N :: uint_digits u
  | D7 u => 55%N :: uint_digits u
  | D8 u => 56%N :: uint_digits u
  | D9 u => 57%N :: uint_digits u
  end.

Definition str_of_int (n : Z) : str :=
  match Z.to_int n with
  | Decimal.Pos u => uint_digits u
  | Decimal.Neg u => MINUS :: uint_digits u
  end.

(** *** Text files *)

(** Reading in text mode with the default [newline=None]: CR LF and a
    lone CR both arrive as LF. *)
Fixpoint universal_newlines (s : str) : str :=
  match s with
  | [] => []
  | c :: r =>
      if (c =? CR)%N then
        LF :: match r with
              | d :: r' => if (d =? LF)%N then universal_newlines r'
                           else universal_newlines r
              | [] => []
              end
      else c :: universal_newlines r
  end.

(** [for line in f]: the lines of the text, each with its LF; a last
    line without one is kept, an empty rest is not a line. *)
Fixpoint lines (s : str) : list str :=
  match s with
  | [] => []
  | c :: r =>
      if (c =? LF)%N then [c] :: lines r
      else match lines r with
           | l :: ls => (c :: l) :: ls
           | [] => [[c]]
           end
  end.

(** *** [csv.writer(f)], dialect [excel]

    The delimiter is the comma, the quote character the double quote,
    with [doublequote] and [QUOTE_MINIMAL]; the line terminator is CR LF. *)

Definition csv_special (c : codepoint) : bool :=
  (c =? COMMA)%N || (c =? DQUOTE)%N || (c =? CR)%N || (c =? LF)%N.

(** One field: a quote character is doubled, and the field is put in
    quotes when it holds a delimiter, a quote or a line terminator
    character. *)
Definition csv_field (f : str) : str :=
  let body := flat_map (fun c => if (c =? DQUOTE)%N then [DQUOTE; DQUOTE]
                                 else [c]) f in
  if existsb csv_special f then DQUOTE :: body ++ [DQUOTE] else body.

Fixpoint csv_join (fields : list str) : str :=
  match fields with
  | [] => []
  | [f] => csv_field f
  | f :: fs => csv_field f ++ COMMA :: csv_join fs
  end.

(** [writer.writerow(fields)]: the text written. A record of one empty
    field is written as two quotes. *)
Definition writerow (fields : list str) : str :=
  match fields with
  | [[]] => [DQUOTE; DQUOTE; CR; LF]
  | _ => csv_join fields ++ [CR; LF]
  end.

(** *** [s.replace(old, new)], [format(n, ',')] and dict literals *)

(** [s.replace(old, new)] for a one-character [old]. *)
Definition replace (old : codepoint) (new : str) (s : str) : str :=
  flat_map (fun c => if (c =? old)%N then new else [c]) s.

(** A comma before every digit that is followed by a multiple of three
    digits, the first digit apart. *)
Fixpoint group_thousands (digits : str) : str :=
  match digits with
  | [] => []
  | d :: r =>
      d :: (if negb (Nat.eqb (length r) 0) && Nat.eqb (length r mod 3) 0
            then COMMA :: group_thousands r
            else group_thousands r)
  end.

(** [format(n, ',')], the [{n:,}] of an f-string, for an [int], with the
    limit on the number of digits off; [format_comma_limit] below is the
    same under a limit. *)
Definition format_comma (n : Z) : str :=
  match Z.to_int n with
  | Decimal.Pos u => group_thousands (uint_digits u)
  | Decimal.Neg u => MINUS :: group_thousands (uint_digits u)
  end.

(** [d.get(key)] on a dict written as a literal with distinct keys, [None]
    for a key that is not in it. *)
Fixpoint dict_get {V : Type} (d : list (str * V)) (key : str) : option V :=
  match d with
  | [] => None
  | (k, v) :: rest => if str_eq k key then Some v else dict_get rest key
  end.

(** *** The limit on the number of digits

    [int], [str] and [format] raise [ValueError] for an integer of more
    digits than [sys.get_int_max_str_digits()], which is 4300 unless it was
    set. The setting is 0, for no limit, or at least 640, and an integer of
    at most 640 digits is never checked. [int], [str_of_int] and
    [format_comma] above are the conversions as they are with the limit off;
    the functions below take the setting as [max_str_digits]. *)

Definition default_max_str_digits : nat := 4300.

Definition _PY_LONG_MAX_STR_DIGITS_THRESHOLD : nat := 640.

Definition exceeds_limit (max_str_digits digits : nat) : bool :=
  Nat.ltb _PY_LONG_MAX_STR_DIGITS_THRESHOLD digits
  && Nat.ltb 0 max_str_digits && Nat.ltb max_str_digits digits.

(** The digits the scan of [PyLong_FromString] counts: the digit characters
    of the run of digits and underscores, leading zeros included. *)
Fixpoint run_digits (s : str) : nat :=
  match s with
  | c :: r =>
      if Py_ISDIGIT c then S (run_digits r)
      else if (c =? UNDERSCORE)%N then run_digits r
      else 0
  | [] => 0
  end.

(** The same count for the text given to [int]: after the white space and
    the sign. *)
Definition int_digits (s : str) : nat :=
  match skip_spaces (map transform_char s) with
  | c :: r => if (c =? MINUS)%N then run_digits r
              else if (c =? PLUS)%N then run_digits r
              else run_digits (c :: r)
  | [] => 0
  end.

(** [int(s)] under the limit, [None] for [ValueError]. *)
Definition int_limit (max_str_digits : nat) (s : str) : option Z :=
  match int s with
  | Some n => if exceeds_limit max_str_digits (int_digits s) then None
              else Some n
  | None => None
  end.

(** The number of decimal digits of [n], the sign apart. *)
Definition digits_of_int (n : Z) : nat :=
  match Z.to_int n with
  | Decimal.Pos u => length (uint_digits u)
  | Decimal.Neg u => length (uint_digits u)
  end.

(** [str(n)] and [format(n, ',')] under the limit, [None] for
    [ValueError]. *)
Definition str_limit (max_str_digits : nat) (n : Z) : option str :=
  if exceeds_limit max_str_digits (digits_of_int n) then None
  else Some (str_of_int n).

Definition format_comma_limit (max_str_digits : nat) (n : Z) : option str :=
  if exceeds_limit max_str_digits (digits_of_int n) then None
  else Some (format_comma n).

End Py.

(** ** [class User] *)

Record User := mkUser {
  card_number : str;
  password : str;
  balance : Z
}.

Definition set_password (user : User) (p : str) : User :=
  mkUser (card_number user) p (balance user).

Definition set_balance (user : User) (b : Z) : User :=
  mkUser (card_number user) (password user) b.

(** [user.balance -= amount]. *)
Definition debit (amount : Z) (user : User) : User :=
  set_balance user (balance user - amount).

(** The exceptions [load_users] lets escape. *)
Inductive exn := FileNotFoundError | ValueError.

Inductive result (A : Type) :=
| Return (a : A)
| Raise (e : exn).
Arguments Return {A} a.
Arguments Raise {A} e.

(** The files of the machine, by name; a name without an entry does not
    exist. A file is its text, decoded; permissions and decoding errors are
    outside the model. *)
Abbreviation filesystem := (gmap (list N) (list N)) (only parsing).

(** The body of the loop of [load_users] for one line:
    [card, passwd, balance = line.split(',')] and
    [User(card, passwd, int(balance))]. Unpacking anything but three fields
    and [int] on a text that is not an integer both raise [ValueError]. *)
Definition parse_line (line : str) : result User :=
  match Py.split Py.COMMA line with
  | [card; passwd; balance] =>
      match Py.int balance with
      | Some b => Return (mkUser card passwd b)
      | None => Raise ValueError
      end
  | _ => Raise ValueError
  end.

(** [for line in f: ... users.append(...)]. *)
Fixpoint load_loop (ls : list str) (users : list User) : result (list User) :=
  match ls with
  | [] => Return users
  | line :: rest =>
      match parse_line line with
      | Return user => load_loop rest (users ++ [user])
      | Raise e => Raise e
      end
  end.

(** [load_users] with the limit on the number of digits off;
    [load_users_limit] below is the same under a limit. *)
Definition load_users (fs : filesystem) (file_name : str) : result (list User) :=
  match fs !! file_name with
  | None => Raise FileNotFoundError
  | Some text => load_loop (Py.lines (Py.universal_newlines text)) []
  end.

(** The text [save] writes: one row per user. *)
Definition rows (users : list User) : str :=
  concat (map (fun user => Py.writerow [card_number user; password user;
                                        Py.str_of_int (balance user)])
              users).

(** [open(file_name, 'w', newline='')] replaces the file; the rows are
    written as they are. *)
Definition save (fs : filesystem) (file_name : str) (users : list User)
  : filesystem :=
  <[file_name := rows users]> fs.

(** *** [load_users] under the limit on the number of digits

    The same loop with [int] as the interpreter has it under the setting
    [max_str_digits]; with the setting 0 it is [load_users]. *)

Definition parse_line_limit (max_str_digits : nat) (line : str)
  : result User :=
  match Py.split Py.COMMA line with
  | [card; passwd; balance] =>
      match Py.int_limit max_str_digits balance with
      | Some b => Return (mkUser card passwd b)
      | None => Raise ValueError
      end
  | _ => Raise ValueError
  end.

Fixpoint load_loop_limit (max_str_digits : nat) (ls : list str)
         (users : list User) : result (list User) :=
  match ls with
  | [] => Return users
  | line :: rest =>
      match parse_line_limit max_str_digits line with
      | Return user => load_loop_limit max_str_digits rest (users ++ [user])
      | Raise e => Raise e
      end
  end.

Definition load_users_limit (max_str_digits : nat) (fs : filesystem)
           (file_name : str) : result (list User) :=
  match fs !! file_name with
  | None => Raise FileNotFoundError
  | Some text =>
      load_loop_limit max_str_digits
                      (Py.lines (Py.universal_newlines text)) []
  end.

(** A balance of 4301 digits, and an accounts file of one line that
    holds it. *)
Definition long_balance : str := repeat 57%N 4301.

Definition long_balance_file : str :=
  Py.lit "1111,pass1," ++ long_balance ++ [Py.LF].

(** ** [class BankService] *)

Record BankService := mkBank {
  _users : list User;
  _current_user : option nat
}.

Definition __init__ (users : list User) : BankService := mkBank users None.

(** The object [self._current_user] refers to; a reference to nothing is
    falsy like [None]. *)
Definition current_user (self : BankService) : option User :=
  match _current_user self with
  | Some i => _users self !! i
  | None => None
  end.

(** An assignment to a field of [self._current_user]. *)
Definition update_current_user (f : User -> User) (self : BankService)
  : BankService :=
  match _current_user self with
  | Some i => mkBank (alter f i (_users self)) (Some i)
  | None => self
  end.

(** The loop of [authenticate] from position [i] on: the position and the
    object of the first user whose password is [passwd]. *)
Fixpoint first_match (passwd : str) (users : list User) (i : nat)
  : option (nat * User) :=
  match users with
  | [] => None
  | user :: rest =>
      if Py.str_eq (password user) passwd then Some (i, user)
      else first_match passwd rest (S i)
  end.

Definition authenticate (passwd : str) (self : BankService)
  : option User * BankService :=
  match first_match passwd (_users self) 0 with
  | Some (i, user) => (Some user, mkBank (_users self) (Some i))
  | None => (None, self)
  end.

Definition change_password (current_pass new_pass : str) (self : BankService)
  : bool * BankService :=
  match current_user self with
  | None => (false, self)
  | Some user =>
      if negb (Py.str_eq (password user) current_pass) then (false, self)
      else (true, update_current_user (fun u => set_password u new_pass) self)
  end.

Definition withdraw (amount : Z) (self : BankService) : bool * BankService :=
  match current_user self with
  | None => (false, self)
  | Some user =>
      if (amount <=? 0)%Z || (balance user <? amount)%Z then (false, self)
      else (true, update_current_user (debit amount) self)
  end.

Definition transfer (amount : Z) (dest_card : str) (self : BankService)
  : bool * BankService :=
  match current_user self with
  | None => (false, self)
  | Some user =>
      if (amount <=? 0)%Z || negb (Py.isdigit dest_card)
         || (balance user <? amount)%Z
      then (false, self)
      else (true, update_current_user (debit amount) self)
  end.

Definition get_balance (self : BankService) : Z :=
  match current_user self with
  | Some user => balance user
  | None => 0
  end.

(** The calls a client can make, and what a call returns. *)
Inductive call :=
| Authenticate (passwd : str)
| ChangePassword (current_pass new_pass : str)
| Withdraw (amount : Z)
| Transfer (amount : Z) (dest_card : str)
| GetBalance.

Inductive value :=
| VUser (u : option User)
| VBool (b : bool)
| VInt (n : Z).

Definition run (c : call) (self : BankService) : value * BankService :=
  match c with
  | Authenticate p =>
      let '(r, s) := authenticate p self in (VUser r, s)
  | ChangePassword cur new =>
      let '(r, s) := change_password cur new self in (VBool r, s)
  | Withdraw a =>
      let '(r, s) := withdraw a self in (VBool r, s)
  | Transfer a card =>
      let '(r, s) := transfer a card self in (VBool r, s)
  | GetBalance => (VInt (get_balance self), self)
  end.

(** A sequence of [withdraw] calls. *)
Fixpoint withdraw_all (amounts : list Z) (self : BankService) : BankService :=
  match amounts with
  | [] => self
  | a :: rest => withdraw_all rest (snd (withdraw a self))
  end.

(** A sequence of calls of any kind. *)
Fixpoint run_all (cs : list call) (self : BankService) : BankService :=
  match cs with
  | [] => self
  | c :: rest => run_all rest (snd (run c self))
  end.

(** ** The accounts of the specification's scenarios

    The file holds the lines [1111,pass1,1000000] and [2222,pass2,500000]. *)

Definition scenario_users : list User :=
  [ mkUser (Py.lit "1111") (Py.lit "pass1") 1000000;
    mkUser (Py.lit "2222") (Py.lit "pass2") 500000 ].

(** The session after [authenticate("pass2")]. *)
Definition scenario_session : BankService := mkBank scenario_users (Some 1).

(** The name of the accounts file, as [ATMApp] passes it. *)
Definition users_csv : str := Py.lit "users.csv".

(** An accounts file of one line, [1111,pa?ss,100] with a double quote in
    the place of the question mark. *)
Definition quote_file : str :=
  Py.lit "1111,pa" ++ [Py.DQUOTE] ++ Py.lit "ss,100" ++ [Py.LF].

(** The password of that line, and what comes back for it after [save]:
    the same in quotes, with its quote doubled. *)
Definition quote_password : str :=
  Py.lit "pa" ++ [Py.DQUOTE] ++ Py.lit "ss".

Definition quote_password_reloaded : str :=
  [Py.DQUOTE] ++ Py.lit "pa" ++ [Py.DQUOTE; Py.DQUOTE] ++ Py.lit "ss"
  ++ [Py.DQUOTE].

(** The accounts file of the scenarios. *)
Definition scenario_file : str :=
  Py.lit "1111,pass1,1000000" ++ [Py.LF] ++
  Py.lit "2222,pass2,500000" ++ [Py.LF].

(** ** [class LanguageManager] *)

Module LanguageManager.

Definition PERSIAN : str := Py.lit "fa".
Definition ENGLISH : str := Py.lit "en".

Record t := mk { current_language : str }.

(** The two tables of [_translations], in the order of the source. The
    Persian texts are given by their code points. *)
Definition translations_fa : list (str * str) :=
  [
    (Py.lit "language_selection",
     [
      0x632; 0x628; 0x627; 0x646; 0x20; 0x62E; 0x648; 0x62F; 0x20; 0x631;
      0x627; 0x20; 0x627; 0x646; 0x62A; 0x62E; 0x627; 0x628; 0x20; 0x6A9;
      0x646; 0x6CC; 0x62F ]%N);
    (Py.lit "enter_password",
     [
      0x644; 0x637; 0x641; 0x627; 0x64B; 0x20; 0x631; 0x645; 0x632; 0x20;
      0x62E; 0x648; 0x62F; 0x20; 0x631; 0x627; 0x20; 0x648; 0x627; 0x631;
      0x62F; 0x20; 0x6A9; 0x646; 0x6CC; 0x62F ]%N);
    (Py.lit "password_placeholder",
     [
      0x631; 0x645; 0x632; 0x20; 0x639; 0x628; 0x648; 0x631 ]%N);
    (Py.lit "submit",
     [
      0x62A; 0x627; 0x6CC; 0x6CC; 0x62F ]%N);
    (Py.lit "wrong_password",
     [
      0x631; 0x645; 0x632; 0x20; 0x639; 0x628; 0x648; 0x631; 0x20; 0x627;
      0x634; 0x62A; 0x628; 0x627; 0x647; 0x20; 0x627; 0x633; 0x62A ]%N);
    (Py.lit "withdraw",
     [
      0x628; 0x631; 0x62F; 0x627; 0x634; 0x62A; 0x20; 0x648; 0x62C; 0x647 ]%N);
    (Py.lit "transfer",
     [
      0x627; 0x646; 0x62A; 0x642; 0x627; 0x644; 0x20; 0x648; 0x62C; 0x647 ]%N);
    (Py.lit "balance",
     [
      0x627; 0x639; 0x644; 0x627; 0x645; 0x20; 0x645; 0x648; 0x62C; 0x648;
      0x62F; 0x6CC ]%N);
    (Py.lit "change_password",
     [
      0x62A; 0x63A; 0x6CC; 0x6CC; 0x631; 0x20; 0x631; 0x645; 0x632 ]%N);
    (Py.lit "exit",
     [
      0x62E; 0x631; 0x648; 0x62C ]%N);
    (Py.lit "select_amount",
     [
      0x645; 0x628; 0x644; 0x63A; 0x20; 0x645; 0x648; 0x631; 0x62F; 0x20;
      0x646; 0x638; 0x631; 0x20; 0x631; 0x627; 0x20; 0x627; 0x646; 0x62A;
      0x62E; 0x627; 0x628; 0x20; 0x6A9; 0x646; 0x6CC; 0x62F ]%N);
    (Py.lit "custom_amount",
     [
      0x645; 0x628; 0x644; 0x63A; 0x20; 0x62F; 0x644; 0x62E; 0x648; 0x627;
      0x647 ]%N);
    (Py.lit "back",
     [
      0x628; 0x627; 0x632; 0x6AF; 0x634; 0x62A ]%N);
    (Py.lit "enter_amount",
     [
      0x645; 0x628; 0x644; 0x63A; 0x20; 0x645; 0x648; 0x631; 0x62F; 0x20;
      0x646; 0x638; 0x631; 0x20; 0x631; 0x627; 0x20; 0x648; 0x627; 0x631;
      0x62F; 0x20; 0x6A9; 0x646; 0x6CC; 0x62F; 0x3A ]%N);
    (Py.lit "enter_dest_card",
     [
      0x634; 0x645; 0x627; 0x631; 0x647; 0x20; 0x6A9; 0x627; 0x631; 0x62A;
      0x20; 0x645; 0x642; 0x635; 0x62F; 0x20; 0x631; 0x627; 0x20; 0x648;
      0x627; 0x631; 0x62F; 0x20; 0x6A9; 0x646; 0x6CC; 0x62F; 0x3A ]%N);
    (Py.lit "confirm",
     [
      0x62A; 0x627; 0x6CC; 0x6CC; 0x62F ]%N);
    (Py.lit "current_password",
     [
      0x631; 0x645; 0x632; 0x20; 0x641; 0x639; 0x644; 0x6CC; 0x20; 0x631;
      0x627; 0x20; 0x648; 0x627; 0x631; 0x62F; 0x20; 0x6A9; 0x646; 0x6CC;
      0x62F; 0x3A ]%N);
    (Py.lit "new_password",
     [
      0x631; 0x645; 0x632; 0x20; 0x62C; 0x62F; 0x6CC; 0x62F; 0x20; 0x631;
      0x627; 0x20; 0x648; 0x627; 0x631; 0x62F; 0x20; 0x6A9; 0x646; 0x6CC;
      0x62F; 0x3A ]%N);
    (Py.lit "operation_success",
     [
      0x639; 0x645; 0x644; 0x6CC; 0x627; 0x62A; 0x20; 0x628; 0x627; 0x20;
      0x645; 0x648; 0x641; 0x642; 0x6CC; 0x62A; 0x20; 0x627; 0x646; 0x62C;
      0x627; 0x645; 0x20; 0x634; 0x62F ]%N);
    (Py.lit "new_operation",
     [
      0x639; 0x645; 0x644; 0x6CC; 0x627; 0x62A; 0x20; 0x62C; 0x62F; 0x6CC;
      0x62F ]%N);
    (Py.lit "insufficient_balance",
     [
      0x645; 0x648; 0x62C; 0x648; 0x62F; 0x6CC; 0x20; 0x6A9; 0x627; 0x641;
      0x6CC; 0x20; 0x646; 0x6CC; 0x633; 0x62A ]%N);
    (Py.lit "invalid_amount",
     [
      0x645; 0x628; 0x644; 0x63A; 0x20; 0x646; 0x627; 0x645; 0x639; 0x62A;
      0x628; 0x631; 0x20; 0x627; 0x633; 0x62A ]%N);
    (Py.lit "invalid_card",
     [
      0x634; 0x645; 0x627; 0x631; 0x647; 0x20; 0x6A9; 0x627; 0x631; 0x62A;
      0x20; 0x646; 0x627; 0x645; 0x639; 0x62A; 0x628; 0x631; 0x20; 0x627;
      0x633; 0x62A ]%N);
    (Py.lit "password_changed",
     [
      0x631; 0x645; 0x632; 0x20; 0x639; 0x628; 0x648; 0x631; 0x20; 0x628;
      0x627; 0x20; 0x645; 0x648; 0x641; 0x642; 0x6CC; 0x62A; 0x20; 0x62A;
      0x63A; 0x6CC; 0x6CC; 0x631; 0x20; 0x6CC; 0x627; 0x641; 0x62A ]%N);
    (Py.lit "password_change_failed",
     [
      0x62A; 0x63A; 0x6CC; 0x6CC; 0x631; 0x20; 0x631; 0x645; 0x632; 0x20;
      0x646; 0x627; 0x645; 0x648; 0x641; 0x642; 0x20; 0x628; 0x648; 0x62F ]%N);
    (Py.lit "your_balance",
     [
      0x645; 0x648; 0x62C; 0x648; 0x62F; 0x6CC; 0x20; 0x634; 0x645; 0x627;
      0x3A ]%N) ].

Definition translations_en : list (str * str) :=
  [
    (Py.lit "language_selection", Py.lit "Choose your language");
    (Py.lit "enter_password", Py.lit "Please enter your password");
    (Py.lit "password_placeholder", Py.lit "Password");
    (Py.lit "submit", Py.lit "Submit");
    (Py.lit "wrong_password", Py.lit "Wrong password");
    (Py.lit "withdraw", Py.lit "Withdraw Cash");
    (Py.lit "transfer", Py.lit "Money Transfer");
    (Py.lit "balance", Py.lit "Account Balance");
    (Py.lit "change_password", Py.lit "Change Password");
    (Py.lit "exit", Py.lit "Exit");
    (Py.lit "select_amount", Py.lit "Select amount");
    (Py.lit "custom_amount", Py.lit "Custom Amount");
    (Py.lit "back", Py.lit "Back");
    (Py.lit "enter_amount", Py.lit "Enter the desired amount:");
    (Py.lit "enter_dest_card", Py.lit "Enter destination card number:");
    (Py.lit "confirm", Py.lit "Confirm");
    (Py.lit "current_password", Py.lit "Enter current password:");
    (Py.lit "new_password", Py.lit "Enter new password:");
    (Py.lit "operation_success", Py.lit "Operation completed successfully");
    (Py.lit "new_operation", Py.lit "New Operation");
    (Py.lit "insufficient_balance", Py.lit "Insufficient balance");
    (Py.lit "invalid_amount", Py.lit "Invalid amount");
    (Py.lit "invalid_card", Py.lit "Invalid card number");
    (Py.lit "password_changed", Py.lit "Password changed successfully");
    (Py.lit "password_change_failed", Py.lit "Password change failed");
    (Py.lit "your_balance", Py.lit "Your balance:") ].

Definition _translations : list (str * list (str * str)) :=
  [ (PERSIAN, translations_fa); (ENGLISH, translations_en) ].

Definition __init__ : t := mk PERSIAN.

Definition set_language (language : str) (self : t) : t :=
  if Py.str_eq language PERSIAN || Py.str_eq language ENGLISH
  then mk language
  else self.

(** [self._translations[self.current_language].get(key, key)]; [None] is
    the [KeyError] of the subscript. *)
Definition get_text (key : str) (self : t) : option str :=
  match Py.dict_get _translations (current_language self) with
  | Some table =>
      Some (match Py.dict_get table key with
            | Some text => text
            | None => key
            end)
  | None => None
  end.

Definition get_current_language (self : t) : str := current_language self.

End LanguageManager.

(** ** The pages

    A page method is modelled by what it does to the bank and to the page's
    input fields, and by the list of what it shows or emits. *)

Inductive effect :=
| operation_completed (payload : str)
| show_message (title message : str).

(** What a method lets escape: the [KeyError] of [get_text], or an
    exception of the kind [load_users] raises. *)
Inductive raised := KeyError | Exn (e : exn).

Inductive outcome (A : Type) :=
| Done (a : A)
| Raised (e : raised).
Arguments Done {A} a.
Arguments Raised {A} e.

(** [self.show_message("Error", self.lang.get_text(key))]. *)
Definition show_error (key : str) (lang : LanguageManager.t)
  : outcome (list effect) :=
  match LanguageManager.get_text key lang with
  | Some text => Done [show_message (Py.lit "Error") text]
  | None => Raised KeyError
  end.

(** The constant parts of the f-strings of the success messages, in the
    order of the source; between them go the amount, the card and the new
    balance. *)

Definition withdrawal_fa_1 : str :=
  [
    0x628; 0x631; 0x62F; 0x627; 0x634; 0x62A; 0x20; 0x648; 0x62C; 0x647;
    0x20; 0x628; 0x627; 0x20; 0x645; 0x648; 0x641; 0x642; 0x6CC; 0x62A;
    0x20; 0x627; 0x646; 0x62C; 0x627; 0x645; 0x20; 0x634; 0x62F; 0xA;
    0x645; 0x628; 0x644; 0x63A; 0x3A; 0x20 ]%N.

Definition withdrawal_fa_2 : str :=
  [
    0xA; 0x645; 0x648; 0x62C; 0x648; 0x62F; 0x6CC; 0x20; 0x62C; 0x62F;
    0x6CC; 0x62F; 0x3A; 0x20 ]%N.

Definition withdrawal_en_1 : str :=
  Py.lit "Withdrawal successful" ++ [Py.LF] ++ Py.lit "Amount: ".

Definition withdrawal_en_2 : str :=
  [Py.LF] ++ Py.lit "New balance: ".

Definition transfer_fa_1 : str :=
  [
    0x627; 0x646; 0x62A; 0x642; 0x627; 0x644; 0x20; 0x648; 0x62C; 0x647;
    0x20; 0x628; 0x627; 0x20; 0x645; 0x648; 0x641; 0x642; 0x6CC; 0x62A;
    0x20; 0x627; 0x646; 0x62C; 0x627; 0x645; 0x20; 0x634; 0x62F; 0xA;
    0x645; 0x628; 0x644; 0x63A; 0x3A; 0x20 ]%N.

Definition transfer_fa_2 : str :=
  [
    0xA; 0x628; 0x647; 0x20; 0x6A9; 0x627; 0x631; 0x62A; 0x3A; 0x20 ]%N.

Definition transfer_fa_3 : str :=
  [
    0xA; 0x645; 0x648; 0x62C; 0x648; 0x62F; 0x6CC; 0x20; 0x62C; 0x62F;
    0x6CC; 0x62F; 0x3A; 0x20 ]%N.

Definition transfer_en_1 : str :=
  Py.lit "Transfer successful" ++ [Py.LF] ++ Py.lit "Amount: ".

Definition transfer_en_2 : str :=
  [Py.LF] ++ Py.lit "To card: ".

Definition transfer_en_3 : str :=
  [Py.LF] ++ Py.lit "New balance: ".

Module LanguageSelectionPage.

Definition select_language (language : str) (lang : LanguageManager.t)
  : list effect * LanguageManager.t :=
  ([operation_completed language], LanguageManager.set_language language lang).

End LanguageSelectionPage.

Module LoginPage.

Record t := mk { password_input : str }.

Definition authenticate (self : t) (lang : LanguageManager.t)
           (bank : BankService) : outcome (list effect * t * BankService) :=
  let password := password_input self in
  let '(user, bank') := authenticate password bank in
  match user with
  | Some _ =>
      Done ([operation_completed (Py.lit "login_success")], mk [], bank')
  | None =>
      match show_error (Py.lit "wrong_password") lang with
      | Done shown => Done (shown, mk [], bank')
      | Raised e => Raised e
      end
  end.

End LoginPage.

Module WithdrawPage.

(** The labels of the four buttons. *)
Definition amounts : list str :=
  [ Py.lit "500,000"; Py.lit "1,000,000"; Py.lit "1,500,000";
    Py.lit "2,000,000" ].


(** The message of a successful withdrawal, in the language of the
    session. *)
Definition message (lang : LanguageManager.t) (amount_str : str)
           (new_balance : Z) : str :=
  if Py.str_eq (LanguageManager.get_current_language lang)
               LanguageManager.PERSIAN
  then withdrawal_fa_1 ++ amount_str ++ withdrawal_fa_2
       ++ Py.format_comma new_balance
  else withdrawal_en_1 ++ amount_str ++ withdrawal_en_2
       ++ Py.format_comma new_balance.

(** [if self.bank.withdraw(amount): ... else: ...], shared by the two
    methods below. *)
Definition withdraw_and_report (amount : Z) (amount_str : str)
           (lang : LanguageManager.t) (bank : BankService)
  : outcome (list effect * BankService) :=
  let '(ok, bank') := withdraw amount bank in
  if ok then
    Done ([operation_completed (message lang amount_str (get_balance bank'))],
          bank')
  else
    match show_error (Py.lit "insufficient_balance") lang with
    | Done shown => Done (shown, bank')
    | Raised e => Raised e
    end.

Definition process_withdrawal (amount_str : str) (lang : LanguageManager.t)
           (bank : BankService) : outcome (list effect * BankService) :=
  match Py.int (Py.replace Py.COMMA [] amount_str) with
  | None => Raised (Exn ValueError)
  | Some amount => withdraw_and_report amount amount_str lang bank
  end.

(** [dialog] is what [QInputDialog.getInt] returns: the number and whether
    the dialog was confirmed. *)
Definition request_custom_amount (dialog : Z * bool)
           (lang : LanguageManager.t) (bank : BankService)
  : outcome (list effect * BankService) :=
  match LanguageManager.get_text (Py.lit "custom_amount") lang,
        LanguageManager.get_text (Py.lit "enter_amount") lang with
  | Some title, Some prompt =>
      let '(amount, ok) := dialog in
      if ok then
        withdraw_and_report amount (Py.format_comma amount) lang bank
      else Done ([], bank)
  | _, _ => Raised KeyError
  end.

End WithdrawPage.

Module TransferPage.

Record t := mk { amount_input : str; card_input : str }.

Definition message (lang : LanguageManager.t)
           (amount_str dest_card balance_str : str) : str :=
  if Py.str_eq (LanguageManager.get_current_language lang)
               LanguageManager.PERSIAN
  then transfer_fa_1 ++ amount_str ++ transfer_fa_2 ++ dest_card
       ++ transfer_fa_3 ++ balance_str
  else transfer_en_1 ++ amount_str ++ transfer_en_2 ++ dest_card
       ++ transfer_en_3 ++ balance_str.

(** [max_str_digits] is the limit of the interpreter on the number of
    digits, 4300 unless it was set. The amount field takes any text, so
    [int] is the [int] under the limit here. A [ValueError] of [int] or of
    one of the two [{...:,}] is raised inside the [try] and ends in the
    [except] branch; the second and the third come after the transfer was
    made, and before the message is emitted and the fields are cleared. *)
Definition process_transfer (max_str_digits : nat) (self : t)
           (lang : LanguageManager.t) (bank : BankService)
  : outcome (list effect * t * BankService) :=
  match Py.int_limit max_str_digits (amount_input self) with
  | None =>
      (* except ValueError *)
      match show_error (Py.lit "invalid_amount") lang with
      | Done shown => Done (shown, self, bank)
      | Raised e => Raised e
      end
  | Some amount =>
      let dest_card := card_input self in
      let '(ok, bank') := transfer amount dest_card bank in
      if ok then
        match Py.format_comma_limit max_str_digits amount,
              Py.format_comma_limit max_str_digits (get_balance bank') with
        | Some amount_str, Some balance_str =>
            Done ([operation_completed
                     (message lang amount_str dest_card balance_str)],
                  mk [] [], bank')
        | _, _ =>
            (* except ValueError *)
            match show_error (Py.lit "invalid_amount") lang with
            | Done shown => Done (shown, self, bank')
            | Raised e => Raised e
            end
        end
      else
        match show_error
                (if (amount <=? 0)%Z then Py.lit "invalid_amount"
                 else if negb (Py.isdigit dest_card) then Py.lit "invalid_card"
                 else Py.lit "insufficient_balance") lang with
        | Done shown => Done (shown, self, bank')
        | Raised e => Raised e
        end
  end.

End TransferPage.

Module BalancePage.

(** The text [update_balance] puts on the label. *)
Definition update_balance (lang : LanguageManager.t) (bank : BankService)
  : option str :=
  match LanguageManager.get_text (Py.lit "your_balance") lang with
  | Some text => Some (text ++ Py.lit " " ++ Py.format_comma (get_balance bank))
  | None => None
  end.

End BalancePage.

Module ChangePasswordPage.

Record t := mk { current_pass_input : str; new_pass_input : str }.

Definition change_password (self : t) (lang : LanguageManager.t)
           (bank : BankService) : outcome (list effect * t * BankService) :=
  let current_pass := current_pass_input self in
  let new_pass := new_pass_input self in
  let '(ok, bank') := change_password current_pass new_pass bank in
  if ok then
    match LanguageManager.get_text (Py.lit "password_changed") lang with
    | Some text => Done ([operation_completed text], mk [] [], bank')
    | None => Raised KeyError
    end
  else
    match show_error (Py.lit "password_change_failed") lang with
    | Done shown => Done (shown, self, bank')
    | Raised e => Raised e
    end.

End ChangePasswordPage.

(** ** [class ATMApp] *)

Module ATMApp.

(** The keys of [self.pages]. *)
Inductive page :=
| language_page | login_page | menu_page | withdraw_page | transfer_page
| balance_page | change_password_page | result_page.

(** [users] of the bank is the list [self.users]: [BankService] was given
    that very list. [balance_label] and [result_label] are the texts of the
    labels of the balance page and of the result page. *)
Record t := mk {
  bank : BankService;
  lang : LanguageManager.t;
  current_widget : page;
  balance_label : str;
  result_label : str
}.

Inductive signal :=
| completed (payload : str)
| back.

(** [create_pages]: every page is made anew. The pages ask [get_text] for
    their texts, the balance page shows the balance of the moment and the
    result page is empty. *)
Definition create_pages (self : t) : outcome t :=
  match BalancePage.update_balance (lang self) (bank self) with
  | Some label =>
      Done (mk (bank self) (lang self) (current_widget self) label [])
  | None => Raised KeyError
  end.

Definition __init__ (fs : filesystem) : outcome t :=
  match load_users fs users_csv with
  | Raise e => Raised (Exn e)
  | Return users =>
      match create_pages (mk (__init__ users) LanguageManager.__init__
                             language_page [] []) with
      | Done self =>
          Done (mk (bank self) (lang self) language_page
                   (balance_label self) (result_label self))
      | Raised e => Raised e
      end
  end.

Definition show (p : page) (self : t) : t :=
  mk (bank self) (lang self) p (balance_label self) (result_label self).

Definition handle_menu_selection (action : str) (self : t) : outcome t :=
  if Py.str_eq action (Py.lit "withdraw") then Done (show withdraw_page self)
  else if Py.str_eq action (Py.lit "transfer") then
    Done (show transfer_page self)
  else if Py.str_eq action (Py.lit "balance") then
    match BalancePage.update_balance (lang self) (bank self) with
    | Some label =>
        Done (mk (bank self) (lang self) balance_page label
                 (result_label self))
    | None => Raised KeyError
    end
  else if Py.str_eq action (Py.lit "change_password") then
    Done (show change_password_page self)
  else if Py.str_eq action (Py.lit "exit") then Done (show language_page self)
  else Done self.

Definition show_result (message : str) (self : t) : t :=
  mk (bank self) (lang self) result_page (balance_label self) message.

Definition handle_result_action (action : str) (fs : filesystem) (self : t)
  : filesystem * t :=
  if Py.str_eq action (Py.lit "new_operation") then
    (fs, show menu_page self)
  else if Py.str_eq action (Py.lit "exit") then
    (save fs users_csv (_users (bank self)), show language_page self)
  else (fs, self).

Definition handle_language (language : str) (self : t) : outcome t :=
  match create_pages (mk (bank self) (LanguageManager.mk language)
                         (current_widget self) (balance_label self)
                         (result_label self)) with
  | Done self' => Done (show login_page self')
  | Raised e => Raised e
  end.

(** [connect_signals]: what the application does when the page [sender]
    emits [s]. A signal nothing is connected to does nothing. *)
Definition dispatch (sender : page) (s : signal) (fs : filesystem) (self : t)
  : outcome (filesystem * t) :=
  match sender, s with
  | language_page, completed language =>
      match handle_language language self with
      | Done self' => Done (fs, self')
      | Raised e => Raised e
      end
  | login_page, completed _ => Done (fs, show menu_page self)
  | menu_page, completed action =>
      match handle_menu_selection action self with
      | Done self' => Done (fs, self')
      | Raised e => Raised e
      end
  | (withdraw_page | transfer_page | balance_page | change_password_page),
    back => Done (fs, show menu_page self)
  | (withdraw_page | transfer_page | change_password_page),
    completed msg => Done (fs, show_result msg self)
  | result_page, completed action =>
      Done (handle_result_action action fs self)
  | _, _ => Done (fs, self)
  end.

End ATMApp.

(** ** Predicates of the proofs *)

(** The money held by all accounts together. *)
Definition total_balance (self : BankService) : Z :=
  foldr (fun u acc => (balance u + acc)%Z) 0%Z (_users self).

(** A user as [load_users] reads it back from what [save] wrote: the card
    number and the password as the writer quoted them. *)
Definition reloaded (user : User) : User :=
  mkUser (Py.csv_field (card_number user)) (Py.csv_field (password user))
         (balance user).

(** A text without the characters that end a line. *)
Definition one_line (f : str) : Prop := (Py.CR ∉ f) /\ (Py.LF ∉ f).


(** Where the scan of digits stops: at the end or at a character that is
    neither a digit nor an underscore. *)
Definition scan_stop (rest : str) : Prop :=
  match rest with
  | [] => True
  | c :: _ => Py.Py_ISDIGIT c = false /\ (c =? Py.UNDERSCORE)%N = false
  end.

(** A field the writer leaves as it is. *)
Definition plain (f : str) : Prop :=
  Forall (fun c => Py.csv_special c = false) f.

(** ** Properties of [BankService] *)

Lemma str_eq_true (a b : str) : Py.str_eq a b = true <-> a = b.
Proof. unfold Py.str_eq. apply bool_decide_eq_true. Qed.

Lemma str_eq_false (a b : str) : Py.str_eq a b = false <-> a <> b.
Proof. unfold Py.str_eq. apply bool_decide_eq_false. Qed.

Lemma str_eq_refl (a : str) : Py.str_eq a a = true.
Proof. by apply str_eq_true. Qed.

(** What the loop of [authenticate] finds is the first match, counted from
    the position the loop started at. *)
Lemma first_match_Some (p : str) (users : list User) (k i : nat) (u : User) :
  first_match p users k = Some (i, u) ->
  exists j, i = k + j /\ users !! j = Some u /\ password u = p /\
            forall j' v, j' < j -> users !! j' = Some v -> password v <> p.
Proof.
  revert k. induction users as [|x rest IH]; intros k H; simpl in H.
  - discriminate.
  - destruct (Py.str_eq (password x) p) eqn:E.
    + injection H as <- <-. exists 0. repeat split.
      * lia.
      * by apply str_eq_true.
      * intros j' v Hj. lia.
    + apply IH in H as (j & -> & Hl & Hp & Hmin).
      exists (S j). repeat split; [lia | done | done |].
      intros [|j'] v Hj Hv; simpl in Hv.
      * injection Hv as <-. by apply str_eq_false.
      * apply (Hmin j' v); [lia | done].
Qed.

Lemma first_match_None (p : str) (users : list User) (k : nat) :
  first_match p users k = None <->
  forall v, v ∈ users -> password v <> p.
Proof.
  revert k. induction users as [|x rest IH]; intros k; simpl.
  - split; [|done]. intros _ v Hv. by apply elem_of_nil in Hv.
  - destruct (Py.str_eq (password x) p) eqn:E.
    + split; [done|]. intros H. apply str_eq_true in E.
      exfalso. apply (H x); [left | done].
    + rewrite IH. apply str_eq_false in E. split.
      * intros H v Hv. apply elem_of_cons in Hv as [->|Hv]; auto.
      * intros H v Hv. apply H. by right.
Qed.

Lemma first_match_is_Some (p : str) (users : list User) (k : nat) (v : User) :
  v ∈ users -> password v = p -> is_Some (first_match p users k).
Proof.
  intros Hv Hp. destruct (first_match p users k) eqn:E; [done|].
  exfalso. by apply (proj1 (first_match_None p users k) E v).
Qed.

(** The two results of [authenticate], in terms of the first match. *)
Lemma authenticate_Some (p : str) (self : BankService) (i : nat) (u : User) :
  first_match p (_users self) 0 = Some (i, u) ->
  authenticate p self = (Some u, mkBank (_users self) (Some i)).
Proof. intros H. unfold authenticate. by rewrite H. Qed.

Lemma authenticate_None (p : str) (self : BankService) :
  first_match p (_users self) 0 = None ->
  authenticate p self = (None, self).
Proof. intros H. unfold authenticate. by rewrite H. Qed.

(** C4. [authenticate(p)] returns the first account in store order whose
    password is exactly [p] and binds the session to it: the account found
    sits at a position [i] before which no password equals [p], so of two
    accounts with password [p] the later one is never the one bound.
    If some account has password [p] the call succeeds; if none has, the
    call returns [None] and the whole state, the session's binding included,
    is as before. *)
Theorem authenticate_first_match (self : BankService) (p : str) :
  (forall user self',
      authenticate p self = (Some user, self') ->
      exists i, _users self !! i = Some user /\ password user = p /\
                (forall j v, j < i -> _users self !! j = Some v ->
                             password v <> p) /\
                self' = mkBank (_users self) (Some i) /\
                current_user self' = Some user) /\
  (forall i j u v,
      i < j -> _users self !! i = Some u -> _users self !! j = Some v ->
      password u = p -> password v = p ->
      is_Some (fst (authenticate p self)) /\
      _current_user (snd (authenticate p self)) <> Some j) /\
  ((exists v, v ∈ _users self /\ password v = p) ->
      is_Some (fst (authenticate p self))) /\
  ((forall v, v ∈ _users self -> password v <> p) ->
      authenticate p self = (None, self)).
Proof.
  repeat split.
  - intros user self' H. unfold authenticate in H.
    destruct (first_match p (_users self) 0) as [[i u]|] eqn:E; [|done].
    injection H as <- <-.
    apply first_match_Some in E as (j & -> & Hl & Hp & Hmin).
    exists j. simpl. repeat split; try done.
  - destruct (first_match p (_users self) 0) as [[k w]|] eqn:E.
    + rewrite (authenticate_Some _ _ _ _ E). done.
    + exfalso. apply (proj1 (first_match_None _ _ _) E u); [|done].
      apply list_elem_of_lookup. eauto.
  - destruct (first_match p (_users self) 0) as [[k w]|] eqn:E.
    + rewrite (authenticate_Some _ _ _ _ E). simpl. intros [= ->].
      apply first_match_Some in E as (j' & -> & Hl & Hp & Hmin).
      simpl in *. by apply (Hmin i u).
    + exfalso. apply (proj1 (first_match_None _ _ _) E u); [|done].
      apply list_elem_of_lookup. eauto.
  - intros (v & Hv & Hp).
    destruct (first_match_is_Some p (_users self) 0 v Hv Hp) as [[k w] E].
    rewrite (authenticate_Some _ _ _ _ E). done.
  - intros H. apply authenticate_None. by apply first_match_None.
Qed.

(** *** Assignments through [_current_user] *)

Lemma current_user_Some (self : BankService) (u : User) :
  current_user self = Some u <->
  exists i, _current_user self = Some i /\ _users self !! i = Some u.
Proof.
  unfold current_user. destruct (_current_user self) as [i|]; split.
  - intros H. by exists i.
  - by intros (j & [= <-] & H).
  - done.
  - by intros (j & H & _).
Qed.

Lemma update_current (f : User -> User) (self : BankService) :
  _current_user (update_current_user f self) = _current_user self.
Proof.
  unfold update_current_user. by destruct (_current_user self) eqn:E.
Qed.

Lemma update_length (f : User -> User) (self : BankService) :
  length (_users (update_current_user f self)) = length (_users self).
Proof.
  unfold update_current_user. destruct (_current_user self); [|done].
  simpl. apply length_alter.
Qed.

Lemma update_lookup_current (f : User -> User) (self : BankService) (i : nat) :
  _current_user self = Some i ->
  _users (update_current_user f self) !! i = f <$> _users self !! i.
Proof.
  intros H. unfold update_current_user. rewrite H. simpl.
  apply list_lookup_alter_eq.
Qed.

Lemma update_lookup_other (f : User -> User) (self : BankService) (j : nat) :
  _current_user self <> Some j ->
  _users (update_current_user f self) !! j = _users self !! j.
Proof.
  intros H. unfold update_current_user.
  destruct (_current_user self) as [i|]; [|done]. simpl.
  apply list_lookup_alter_ne. congruence.
Qed.

Lemma update_current_user_obj (f : User -> User) (self : BankService) (u : User) :
  current_user self = Some u ->
  current_user (update_current_user f self) = Some (f u).
Proof.
  intros H. apply current_user_Some in H as (i & Hi & Hu).
  apply current_user_Some. exists i. split.
  - by rewrite update_current.
  - rewrite (update_lookup_current _ _ _ Hi), Hu. done.
Qed.

(** *** The two outcomes of each mutating call *)

Lemma withdraw_cases (amount : Z) (self : BankService) :
  withdraw amount self = (false, self) \/
  exists u, current_user self = Some u /\ (0 < amount <= balance u)%Z /\
            withdraw amount self
            = (true, update_current_user (debit amount) self).
Proof.
  unfold withdraw. destruct (current_user self) as [u|]; [|by left].
  destruct (amount <=? 0)%Z eqn:E1; [by left|].
  destruct (balance u <? amount)%Z eqn:E2; [by left|]. simpl.
  right. exists u. repeat split; lia.
Qed.

Lemma withdraw_true (amount : Z) (self : BankService) (u : User) :
  current_user self = Some u ->
  (fst (withdraw amount self) = true <-> (0 < amount <= balance u)%Z).
Proof.
  intros H. unfold withdraw. rewrite H.
  destruct (amount <=? 0)%Z eqn:E1; simpl; [split; [done|lia]|].
  destruct (balance u <? amount)%Z eqn:E2; simpl; split; (done || lia).
Qed.

Lemma transfer_cases (amount : Z) (dest_card : str) (self : BankService) :
  transfer amount dest_card self = (false, self) \/
  exists u, current_user self = Some u /\ (0 < amount <= balance u)%Z /\
            Py.isdigit dest_card = true /\
            transfer amount dest_card self
            = (true, update_current_user (debit amount) self).
Proof.
  unfold transfer. destruct (current_user self) as [u|]; [|by left].
  destruct (amount <=? 0)%Z eqn:E1; [by left|].
  destruct (Py.isdigit dest_card) eqn:E3; [|by left].
  destruct (balance u <? amount)%Z eqn:E2; [by left|]. simpl.
  right. exists u. repeat split; lia.
Qed.

Lemma transfer_true (amount : Z) (dest_card : str) (self : BankService)
      (u : User) :
  current_user self = Some u ->
  (fst (transfer amount dest_card self) = true <->
   (0 < amount <= balance u)%Z /\ Py.isdigit dest_card = true).
Proof.
  intros H. unfold transfer. rewrite H.
  destruct (amount <=? 0)%Z eqn:E1; simpl; [split; [done|lia]|].
  destruct (Py.isdigit dest_card) eqn:E3; simpl; [|split; [done|by intros [_ ?]]].
  destruct (balance u <? amount)%Z eqn:E2; simpl; split; (done || lia).
Qed.

Lemma change_password_cases (cur new : str) (self : BankService) :
  change_password cur new self = (false, self) \/
  exists u, current_user self = Some u /\ password u = cur /\
            change_password cur new self
            = (true, update_current_user (fun u => set_password u new) self).
Proof.
  unfold change_password. destruct (current_user self) as [u|]; [|by left].
  destruct (Py.str_eq (password u) cur) eqn:E; simpl; [|by left].
  right. exists u. apply str_eq_true in E. done.
Qed.

(** [isdigit] spelled out: at least one character, and digits only. *)
Lemma isdigit_true (s : str) :
  Py.isdigit s = true <->
  s <> [] /\ Forall (fun c => Py.Py_UNICODE_ISDIGIT c = true) s.
Proof.
  destruct s as [|c r].
  - simpl. split; [done|]. by intros [? _].
  - unfold Py.isdigit. rewrite forallb_forall, Forall_forall.
    split.
    + intros H. split; [done|]. intros x Hx. apply H.
      by apply list_elem_of_In.
    + intros [_ H] x Hx. apply H. by apply list_elem_of_In.
Qed.

(** *** withdraw *)

(** One [withdraw] leaves every balance as it was or non-negative. *)
Lemma withdraw_balance_step (amount : Z) (self : BankService) (j : nat)
      (v : User) :
  _users (snd (withdraw amount self)) !! j = Some v ->
  exists v0, _users self !! j = Some v0 /\
             (balance v = balance v0 \/ (0 <= balance v)%Z).
Proof.
  destruct (withdraw_cases amount self) as [H | (u & Hu & Hamt & H)];
    rewrite H; simpl.
  - intros Hv. exists v. auto.
  - apply current_user_Some in Hu as (i & Hi & Hu).
    destruct (decide (i = j)) as [<-|Hne].
    + rewrite (update_lookup_current _ _ _ Hi), Hu. simpl.
      intros [= <-]. exists u. split; [done|]. right. simpl. lia.
    + rewrite update_lookup_other by congruence.
      intros Hv. exists v. auto.
Qed.

Lemma withdraw_all_balance (amounts : list Z) (self : BankService) (j : nat)
      (v : User) :
  _users (withdraw_all amounts self) !! j = Some v ->
  exists v0, _users self !! j = Some v0 /\
             (balance v = balance v0 \/ (0 <= balance v)%Z).
Proof.
  revert self. induction amounts as [|a rest IH]; intros self; simpl.
  - intros Hv. exists v. auto.
  - intros Hv. apply IH in Hv as (v1 & Hv1 & Hb1).
    apply withdraw_balance_step in Hv1 as (v0 & Hv0 & Hb0).
    exists v0. split; [done|]. destruct Hb1 as [->|]; auto.
Qed.

(** C1. On an authenticated session whose account has balance [B],
    [withdraw(amount)] returns [True] exactly when [0 < amount <= B]; on
    success the session's account has balance [B - amount] and is otherwise
    as before. After any sequence of [withdraw] calls every account's balance
    is either what it was at the start or non-negative, so a balance that
    was not negative never becomes negative. *)
Theorem withdraw_spec (self : BankService) (user : User) (amount : Z) :
  current_user self = Some user ->
  (fst (withdraw amount self) = true <-> (0 < amount <= balance user)%Z) /\
  (fst (withdraw amount self) = true ->
   current_user (snd (withdraw amount self))
   = Some (set_balance user (balance user - amount)) /\
   get_balance (snd (withdraw amount self)) = (balance user - amount)%Z) /\
  (forall amounts j v,
      _users (withdraw_all amounts self) !! j = Some v ->
      exists v0, _users self !! j = Some v0 /\
                 (balance v = balance v0 \/ (0 <= balance v)%Z) /\
                 ((0 <= balance v0)%Z -> (0 <= balance v)%Z)).
Proof.
  intros Hu. split; [by apply withdraw_true|]. split.
  - intros Ht.
    destruct (withdraw_cases amount self) as [H | (u & Hu' & Hamt & H)].
    + rewrite H in Ht. done.
    + rewrite H. simpl. unfold get_balance.
      rewrite (update_current_user_obj _ _ _ Hu). done.
  - intros amounts j v Hv.
    apply withdraw_all_balance in Hv as (v0 & Hv0 & Hb).
    exists v0. repeat split; [done | done |].
    intros H0. destruct Hb as [->|]; done.
Qed.

(** The second account of the scenario, with 500000, withdraws 500000. *)
Lemma withdraw_spec_witness :
  (fst (withdraw 500000 scenario_session) = true <->
   (0 < 500000 <= 500000)%Z) /\
  (fst (withdraw 500000 scenario_session) = true ->
   current_user (snd (withdraw 500000 scenario_session))
   = Some (set_balance (mkUser (Py.lit "2222") (Py.lit "pass2") 500000)
                       (500000 - 500000)) /\
   get_balance (snd (withdraw 500000 scenario_session))
   = (500000 - 500000)%Z) /\
  (forall amounts j v,
      _users (withdraw_all amounts scenario_session) !! j = Some v ->
      exists v0, _users scenario_session !! j = Some v0 /\
                 (balance v = balance v0 \/ (0 <= balance v)%Z) /\
                 ((0 <= balance v0)%Z -> (0 <= balance v)%Z)).
Proof.
  apply (withdraw_spec scenario_session
           (mkUser (Py.lit "2222") (Py.lit "pass2") 500000) 500000).
  reflexivity.
Defined.

(** *** transfer *)

(** What a successful debit of the session's account does to the state. *)
Lemma debit_effect (amount : Z) (self : BankService) (i : nat) (user : User) :
  _current_user self = Some i -> _users self !! i = Some user ->
  let self' := update_current_user (debit amount) self in
  _current_user self' = Some i /\
  length (_users self') = length (_users self) /\
  _users self' !! i = Some (set_balance user (balance user - amount)) /\
  (forall j, j <> i -> _users self' !! j = _users self !! j).
Proof.
  intros Hi Hu. simpl. repeat split.
  - by rewrite update_current.
  - apply update_length.
  - by rewrite (update_lookup_current _ _ _ Hi), Hu.
  - intros j Hj. apply update_lookup_other. congruence.
Qed.

(** C2, as the code has it. [transfer(amount, card)] returns [True] exactly
    when the session is authenticated, [0 < amount <= B] for the balance [B]
    of the session's account, and [card] has at least one character and
    digits only ([str.isdigit]). On success the session's account loses
    exactly [amount] and nothing else changes: the binding, the number of
    accounts, the account's other fields and every other account are as
    before. No account is looked up by [card] and none is credited. *)
Theorem transfer_spec (self : BankService) (amount : Z) (card : str) :
  (fst (transfer amount card self) = true <->
   exists user, current_user self = Some user /\
                (0 < amount <= balance user)%Z /\
                card <> [] /\
                Forall (fun c => Py.Py_UNICODE_ISDIGIT c = true) card) /\
  (fst (transfer amount card self) = true ->
   exists i user,
     _current_user self = Some i /\ _users self !! i = Some user /\
     _current_user (snd (transfer amount card self)) = Some i /\
     length (_users (snd (transfer amount card self)))
     = length (_users self) /\
     _users (snd (transfer amount card self)) !! i
     = Some (set_balance user (balance user - amount)) /\
     (forall j, j <> i ->
                _users (snd (transfer amount card self)) !! j
                = _users self !! j)).
Proof.
  split.
  - split.
    + intros Ht.
      destruct (transfer_cases amount card self) as [H | (u & Hu & Ha & Hd & _)].
      * rewrite H in Ht. done.
      * exists u. apply isdigit_true in Hd as [? ?]. done.
    + intros (u & Hu & Ha & Hne & Hd).
      apply (transfer_true _ _ _ _ Hu). split; [done|].
      by apply isdigit_true.
  - intros Ht.
    destruct (transfer_cases amount card self) as [H | (u & Hu & Ha & Hd & H)].
    + rewrite H in Ht. done.
    + rewrite H. simpl.
      apply current_user_Some in Hu as (i & Hi & Hu).
      exists i, u. split; [done|]. split; [done|].
      by apply debit_effect.
Qed.

(** C2, as stated, fails on the empty card: all of its (zero) characters are
    digits, the session is authenticated and the amount is covered, and the
    call returns [False]. *)
Lemma transfer_empty_card_counterexample :
  ~ (fst (transfer 100 [] scenario_session) = true <->
     exists user, current_user scenario_session = Some user /\
                  (0 < 100 <= balance user)%Z /\
                  Forall (fun c => Py.Py_UNICODE_ISDIGIT c = true) []).
Proof.
  intros [_ H].
  assert (Ht : fst (transfer 100 [] scenario_session) = true).
  { apply H. eexists. split; [reflexivity|]. split; [simpl; lia|].
    constructor. }
  vm_compute in Ht. discriminate.
Qed.

(** C10. On an authenticated session with balance [B] and
    [0 < amount <= B], a transfer to the empty card returns [False] and
    leaves the state, hence the balance, as it was, although the same amount
    could be withdrawn and although every character of the empty card is a
    digit. *)
Theorem transfer_empty_card_rejected (self : BankService) (user : User)
        (amount : Z) :
  current_user self = Some user ->
  (0 < amount <= balance user)%Z ->
  transfer amount [] self = (false, self) /\
  get_balance (snd (transfer amount [] self)) = balance user /\
  fst (withdraw amount self) = true /\
  Forall (fun c => Py.Py_UNICODE_ISDIGIT c = true) [].
Proof.
  intros Hu Ha.
  assert (H : transfer amount [] self = (false, self)).
  { unfold transfer. rewrite Hu. simpl.
    by rewrite orb_true_r. }
  rewrite H. simpl. repeat split.
  - unfold get_balance. by rewrite Hu.
  - by apply (withdraw_true _ _ _ Hu).
  - constructor.
Qed.

Lemma transfer_empty_card_rejected_witness :
  current_user scenario_session
  = Some (mkUser (Py.lit "2222") (Py.lit "pass2") 500000) /\
  (0 < 100 <= 500000)%Z /\
  transfer 100 [] scenario_session = (false, scenario_session).
Proof.
  split; [reflexivity|]. split; [lia|].
  apply (transfer_empty_card_rejected scenario_session
           (mkUser (Py.lit "2222") (Py.lit "pass2") 500000) 100).
  - reflexivity.
  - simpl. lia.
Defined.

(** *** Failure leaves no trace *)

(** C6. When [withdraw], [transfer] or [change_password] returns [False],
    the state after the call is the state before it: the list of accounts
    with every field of every account, and the session's binding. *)
Theorem failure_is_atomic (self : BankService) :
  (forall amount,
      fst (withdraw amount self) = false ->
      snd (withdraw amount self) = self) /\
  (forall amount card,
      fst (transfer amount card self) = false ->
      snd (transfer amount card self) = self) /\
  (forall cur new,
      fst (change_password cur new self) = false ->
      snd (change_password cur new self) = self).
Proof.
  repeat split.
  - intros amount Hf.
    destruct (withdraw_cases amount self) as [H | (u & _ & _ & H)];
      rewrite H in *; done.
  - intros amount card Hf.
    destruct (transfer_cases amount card self) as [H | (u & _ & _ & _ & H)];
      rewrite H in *; done.
  - intros cur new Hf.
    destruct (change_password_cases cur new self) as [H | (u & _ & _ & H)];
      rewrite H in *; done.
Qed.

(** *** Balances stay non-negative *)

Lemma debit_keeps_nonneg (amount : Z) (self : BankService) (u : User) :
  current_user self = Some u -> (amount <= balance u)%Z ->
  Forall (fun v => (0 <= balance v)%Z) (_users self) ->
  Forall (fun v => (0 <= balance v)%Z)
         (_users (update_current_user (debit amount) self)).
Proof.
  intros Hu Ha Hall. apply current_user_Some in Hu as (i & Hi & Hu).
  unfold update_current_user. rewrite Hi. simpl.
  apply Forall_alter; [done|].
  intros x Hx _. simpl. rewrite Hu in Hx. injection Hx as <-. lia.
Qed.

Lemma set_password_keeps_nonneg (p : str) (self : BankService) :
  Forall (fun v => (0 <= balance v)%Z) (_users self) ->
  Forall (fun v => (0 <= balance v)%Z)
         (_users (update_current_user (fun u => set_password u p) self)).
Proof.
  intros Hall. unfold update_current_user.
  destruct (_current_user self) as [i|]; [|done]. simpl.
  apply Forall_alter; [done|]. intros x _ Hx. done.
Qed.

Lemma run_keeps_nonneg (c : call) (self : BankService) :
  Forall (fun v => (0 <= balance v)%Z) (_users self) ->
  Forall (fun v => (0 <= balance v)%Z) (_users (snd (run c self))).
Proof.
  intros Hall. destruct c as [p | cur new | a | a card |]; simpl.
  - unfold authenticate.
    destruct (first_match p (_users self) 0) as [[i u]|]; done.
  - destruct (change_password_cases cur new self) as [H | (u & _ & _ & H)];
      rewrite H; simpl; [done|]. by apply set_password_keeps_nonneg.
  - destruct (withdraw_cases a self) as [H | (u & Hu & Ha & H)];
      rewrite H; simpl; [done|].
    apply (debit_keeps_nonneg _ _ u); [done | lia | done].
  - destruct (transfer_cases a card self) as [H | (u & Hu & Ha & _ & H)];
      rewrite H; simpl; [done|].
    apply (debit_keeps_nonneg _ _ u); [done | lia | done].
  - done.
Qed.

(** C3. From a state in which every account's balance is non-negative,
    every call (authenticate, change_password, withdraw, transfer,
    get_balance), and so every sequence of calls, leads to a state in which
    every account's balance is non-negative. A [withdraw] or [transfer] of
    more than the balance of the session's account, which would make it
    negative, returns [False] and leaves the state as it was. *)
Theorem balance_invariant (self : BankService) :
  Forall (fun v => (0 <= balance v)%Z) (_users self) ->
  (forall c, Forall (fun v => (0 <= balance v)%Z) (_users (snd (run c self)))) /\
  (forall cs, Forall (fun v => (0 <= balance v)%Z) (_users (run_all cs self))) /\
  (forall user amount card,
      current_user self = Some user ->
      (balance user - amount < 0)%Z ->
      withdraw amount self = (false, self) /\
      transfer amount card self = (false, self)).
Proof.
  intros Hall. split; [|split].
  - intros c. by apply run_keeps_nonneg.
  - intros cs. revert self Hall.
    induction cs as [|c rest IH]; intros self Hall; simpl; [done|].
    apply IH. by apply run_keeps_nonneg.
  - intros user amount card Hu Hneg.
    assert (Hlt : (balance user <? amount)%Z = true) by lia.
    unfold withdraw, transfer. rewrite Hu, Hlt.
    by rewrite !orb_true_r.
Qed.

(** The scenario: an overdraft of the second account is turned down, and
    whatever is called the balances stay non-negative. *)
Lemma balance_invariant_witness :
  Forall (fun v => (0 <= balance v)%Z) (_users scenario_session) /\
  Forall (fun v => (0 <= balance v)%Z)
         (_users (snd (run (Withdraw 500000) scenario_session))) /\
  withdraw 600000 scenario_session = (false, scenario_session).
Proof.
  assert (H0 : Forall (fun v => (0 <= balance v)%Z) (_users scenario_session)).
  { repeat constructor; simpl; lia. }
  destruct (balance_invariant scenario_session H0) as (H1 & _ & H3).
  split; [exact H0|]. split; [exact (H1 (Withdraw 500000))|].
  refine (proj1 (H3 (mkUser (Py.lit "2222") (Py.lit "pass2") 500000)
                    600000%Z [] _ _)).
  - reflexivity.
  - simpl. lia.
Defined.

(** *** What a call can change *)

(** C9. No call changes the shape of the list of accounts. After any call
    the number of accounts is the same, every account the session was not
    bound to when the call was made is the same at the same position, and the
    session's account keeps its card number; its password differs only
    after [change_password], and its balance only after [withdraw] or
    [transfer]. *)
Theorem run_frame (c : call) (self : BankService) :
  length (_users (snd (run c self))) = length (_users self) /\
  (forall j, _current_user self <> Some j ->
             _users (snd (run c self)) !! j = _users self !! j) /\
  (forall i u u',
      _current_user self = Some i ->
      _users self !! i = Some u ->
      _users (snd (run c self)) !! i = Some u' ->
      card_number u' = card_number u /\
      (password u' <> password u ->
       exists cur new, c = ChangePassword cur new) /\
      (balance u' <> balance u ->
       (exists a, c = Withdraw a) \/ (exists a card, c = Transfer a card))).
Proof.
  assert (Hdebit : forall a,
    length (_users (update_current_user (debit a) self)) = length (_users self) /\
    (forall j, _current_user self <> Some j ->
       _users (update_current_user (debit a) self) !! j = _users self !! j) /\
    (forall i u u', _current_user self = Some i -> _users self !! i = Some u ->
       _users (update_current_user (debit a) self) !! i = Some u' ->
       card_number u' = card_number u /\ password u' = password u)).
  { intros a. split; [apply update_length|]. split.
    - intros j Hj. by apply update_lookup_other.
    - intros i u u' Hi Hu. rewrite (update_lookup_current _ _ _ Hi), Hu.
      simpl. by intros [= <-]. }
  destruct c as [p | cur new | a | a card |]; simpl.
  - unfold authenticate.
    destruct (first_match p (_users self) 0) as [[k w]|]; simpl;
      (split; [done|]; split; [done|]);
      intros i u u' _ Hu Hu'; rewrite Hu in Hu'; injection Hu' as <-; done.
  - destruct (change_password_cases cur new self) as [H | (w & _ & _ & H)];
      rewrite H; simpl.
    + split; [done|]. split; [done|].
      intros i u u' _ Hu Hu'. rewrite Hu in Hu'. injection Hu' as <-. done.
    + split; [apply update_length|]. split.
      * intros j Hj. by apply update_lookup_other.
      * intros i u u' Hi Hu. rewrite (update_lookup_current _ _ _ Hi), Hu.
        simpl. intros [= <-]. simpl. split; [done|]. split; [eauto|done].
  - destruct (withdraw_cases a self) as [H | (w & _ & _ & H)];
      rewrite H; simpl.
    + split; [done|]. split; [done|].
      intros i u u' _ Hu Hu'. rewrite Hu in Hu'. injection Hu' as <-. done.
    + destruct (Hdebit a) as (Hl & Ho & Hc). split; [done|]. split; [done|].
      intros i u u' Hi Hu Hu'. destruct (Hc i u u' Hi Hu Hu') as [-> ->].
      split; [done|]. split; [done|]. eauto.
  - destruct (transfer_cases a card self) as [H | (w & _ & _ & _ & H)];
      rewrite H; simpl.
    + split; [done|]. split; [done|].
      intros i u u' _ Hu Hu'. rewrite Hu in Hu'. injection Hu' as <-. done.
    + destruct (Hdebit a) as (Hl & Ho & Hc). split; [done|]. split; [done|].
      intros i u u' Hi Hu Hu'. destruct (Hc i u u' Hi Hu Hu') as [-> ->].
      split; [done|]. split; [done|]. eauto.
  - split; [done|]. split; [done|].
    intros i u u' _ Hu Hu'. rewrite Hu in Hu'. injection Hu' as <-. done.
Qed.

(** *** change_password *)

(** C7, as the code has it. [change_password(cur, new)] returns [True]
    exactly when the session is authenticated and [cur] is the stored
    password of its account. On success the stored password is [new],
    whatever text that is, nothing else changes, and [authenticate(new)]
    succeeds. When [new] differs from [cur], [authenticate(cur)] no longer
    finds that account: it finds another account that has password [cur],
    or none at all when no other account has it. *)
Theorem change_password_spec (self : BankService) (cur new : str) :
  (fst (change_password cur new self) = true <->
   exists user, current_user self = Some user /\ password user = cur) /\
  (forall self',
      change_password cur new self = (true, self') ->
      exists i user,
        _current_user self = Some i /\ _users self !! i = Some user /\
        _current_user self' = Some i /\
        _users self' !! i = Some (set_password user new) /\
        (forall j, j <> i -> _users self' !! j = _users self !! j) /\
        is_Some (fst (authenticate new self')) /\
        (new <> cur ->
         (~ exists u, authenticate cur self'
                      = (Some u, mkBank (_users self') (Some i))) /\
         ((forall j v, j <> i -> _users self !! j = Some v ->
                       password v <> cur) ->
          authenticate cur self' = (None, self')))).
Proof.
  split.
  - split.
    + intros Ht.
      destruct (change_password_cases cur new self) as [H | (u & Hu & Hp & _)].
      * rewrite H in Ht. done.
      * by exists u.
    + intros (u & Hu & Hp). unfold change_password. rewrite Hu.
      apply str_eq_true in Hp. by rewrite Hp.
  - intros self' Hcp.
    destruct (change_password_cases cur new self) as [H | (u & Hu & Hp & H)];
      rewrite H in Hcp; [done|]. injection Hcp as <-.
    apply current_user_Some in Hu as (i & Hi & Hu).
    set (self' := update_current_user (fun u => set_password u new) self).
    assert (Hnew : _users self' !! i = Some (set_password u new)).
    { unfold self'. by rewrite (update_lookup_current _ _ _ Hi), Hu. }
    assert (Hother : forall j, j <> i -> _users self' !! j = _users self !! j).
    { intros j Hj. apply update_lookup_other. congruence. }
    exists i, u. split; [done|]. split; [done|].
    split; [unfold self'; by rewrite update_current|].
    split; [done|]. split; [done|]. split.
    + unfold authenticate.
      destruct (first_match_is_Some new (_users self') 0 (set_password u new))
        as [[k w] E]; [by eapply list_elem_of_lookup_2 | done |].
      by rewrite E.
    + intros Hne. split.
      * intros (w & Ha). unfold authenticate in Ha.
        destruct (first_match cur (_users self') 0) as [[k x]|] eqn:E; [|done].
        injection Ha as -> ->.
        apply first_match_Some in E as (j & -> & Hl & Hpw & _). simpl in *.
        rewrite Hnew in Hl. injection Hl as <-. simpl in Hpw. done.
      * intros Hno. apply authenticate_None. apply first_match_None.
        intros v Hv. apply list_elem_of_lookup in Hv as [j Hj].
        destruct (decide (j = i)) as [->|Hji].
        -- rewrite Hnew in Hj. injection Hj as <-. done.
        -- rewrite (Hother j Hji) in Hj. by apply (Hno j v).
Qed.

(** C7, as stated, fails when the new password is the old one: the second
    account of the scenario changes pass2 into pass2, no other account has
    that password, and [authenticate] with it still finds that account. *)
Lemma change_password_same_counterexample :
  ~ (forall self',
        change_password (Py.lit "pass2") (Py.lit "pass2") scenario_session
        = (true, self') ->
        is_Some (fst (authenticate (Py.lit "pass2") self')) /\
        ((exists j v, j <> 1 /\ _users self' !! j = Some v /\
                      password v = Py.lit "pass2") \/
         ~ exists u, authenticate (Py.lit "pass2") self'
                     = (Some u, mkBank (_users self') (Some 1)))).
Proof.
  intros H.
  destruct (H scenario_session) as [_ [(j & v & Hj & Hv & Hp) | Hn]].
  - vm_compute. reflexivity.
  - destruct j as [|[|j]]; [| done |].
    + injection Hv as <-. vm_compute in Hp. discriminate.
    + simpl in Hv. discriminate.
  - apply Hn. eexists. vm_compute. reflexivity.
Qed.

(** ** Properties of [User.load_users] and [User.save] *)

Lemma parse_line_Return (line : str) (u : User) :
  parse_line line = Return u <->
  exists card passwd bal z,
    Py.split Py.COMMA line = [card; passwd; bal] /\ Py.int bal = Some z /\
    u = mkUser card passwd z.
Proof.
  unfold parse_line. split.
  - destruct (Py.split Py.COMMA line) as [|c [|p [|b [|x r]]]]; try done.
    destruct (Py.int b) as [z|] eqn:E; [|done].
    intros [= <-]. by exists c, p, b, z.
  - intros (c & p & b & z & -> & -> & ->). done.
Qed.

(** A line makes [load_users] raise exactly when it has not three fields
    or its third field is no integer; what is raised is [ValueError]. *)
Lemma parse_line_Raise (line : str) (e : exn) :
  parse_line line = Raise e <->
  e = ValueError /\
  (length (Py.split Py.COMMA line) <> 3 \/
   exists card passwd bal,
     Py.split Py.COMMA line = [card; passwd; bal] /\ Py.int bal = None).
Proof.
  unfold parse_line. split.
  - destruct (Py.split Py.COMMA line) as [|c [|p [|b [|x r]]]];
      try (intros [= <-]; split; [done|]; left; simpl; lia).
    destruct (Py.int b) as [z|] eqn:E; [done|].
    intros [= <-]. split; [done|]. right. by exists c, p, b.
  - intros [-> [Hlen | (c & p & b & -> & ->)]]; [|done].
    destruct (Py.split Py.COMMA line) as [|c [|p [|b [|x r]]]]; done.
Qed.

(** The loop returns the users it was given followed by one user per line,
    in order, or raises what the first failing line raises. *)
Lemma load_loop_Return (ls : list str) (acc users : list User) :
  load_loop ls acc = Return users <->
  exists us, users = acc ++ us /\
             Forall2 (fun line u => parse_line line = Return u) ls us.
Proof.
  revert acc. induction ls as [|line rest IH]; intros acc; simpl.
  - split.
    + intros [= <-]. exists []. by rewrite app_nil_r.
    + intros (us & -> & H). apply Forall2_nil_inv_l in H as ->.
      by rewrite app_nil_r.
  - destruct (parse_line line) as [u|e] eqn:E.
    + rewrite IH. split.
      * intros (us & -> & H). exists (u :: us).
        rewrite <- app_assoc. split; [done|]. by constructor.
      * intros (us & -> & H).
        apply Forall2_cons_inv_l in H as (u' & us' & Hu & H & ->).
        rewrite E in Hu. injection Hu as <-.
        exists us'. by rewrite <- app_assoc.
    + split; [done|]. intros (us & -> & H).
      apply Forall2_cons_inv_l in H as (u' & us' & Hu & _).
      rewrite E in Hu. done.
Qed.

Lemma load_loop_Raise (ls : list str) (acc : list User) (e : exn) :
  load_loop ls acc = Raise e <->
  exists line, line ∈ ls /\ parse_line line = Raise e.
Proof.
  revert acc. induction ls as [|line rest IH]; intros acc; simpl.
  - split; [done|]. intros (l & Hl & _). by apply elem_of_nil in Hl.
  - destruct (parse_line line) as [u|e'] eqn:E.
    + rewrite IH. split.
      * intros (l & Hl & Hr). exists l. split; [by right|done].
      * intros (l & Hl & Hr). apply elem_of_cons in Hl as [->|Hl].
        -- rewrite E in Hr. done.
        -- by exists l.
    + split.
      * intros [= ->]. exists line. split; [by left|done].
      * intros (l & Hl & Hr).
        (* the first failing line decides, and every failure is ValueError *)
        apply parse_line_Raise in E as [-> _].
        apply parse_line_Raise in Hr as [-> _]. done.
Qed.

(** The errors of [load_users] with the limit on the number of digits off.
    It raises [FileNotFoundError] exactly when the file does not exist. On a
    file that exists it raises [ValueError] exactly when some line does not
    split on the comma into exactly three fields or has a third field that
    [int] rejects, and it raises nothing else. Otherwise it returns one user
    per line. *)
Lemma load_users_errors (fs : filesystem) (file_name : str) :
  (load_users fs file_name = Raise FileNotFoundError <->
   fs !! file_name = None) /\
  (forall text,
      fs !! file_name = Some text ->
      (load_users fs file_name = Raise ValueError <->
       exists line,
         line ∈ Py.lines (Py.universal_newlines text) /\
         (length (Py.split Py.COMMA line) <> 3 \/
          exists card passwd bal,
            Py.split Py.COMMA line = [card; passwd; bal] /\
            Py.int bal = None)) /\
      (load_users fs file_name = Raise ValueError \/
       exists users,
         load_users fs file_name = Return users /\
         length users = length (Py.lines (Py.universal_newlines text)))).
Proof.
  unfold load_users. split.
  - destruct (fs !! file_name) as [text|] eqn:E; [|done].
    split; [|done]. intros H.
    apply load_loop_Raise in H as (l & _ & H).
    apply parse_line_Raise in H as [H _]. done.
  - intros text ->. split.
    + rewrite load_loop_Raise. split.
      * intros (l & Hl & H). exists l. split; [done|].
        by apply parse_line_Raise in H as [_ H].
      * intros (l & Hl & H). exists l. split; [done|].
        by apply parse_line_Raise.
    + destruct (load_loop (Py.lines (Py.universal_newlines text)) [])
        as [users|e] eqn:E.
      * right. exists users. split; [done|].
        apply load_loop_Return in E as (us & -> & H). simpl.
        symmetry. by eapply Forall2_length.
      * left. apply load_loop_Raise in E as (l & _ & H).
        apply parse_line_Raise in H as [-> _]. done.
Qed.

(** C5, at the file [quote_file]. The file is well formed: its one line
    has three fields and an integer third field, and [load_users] returns
    its account. [save] writes the password in quotes with its quote
    doubled, [load_users] does not undo that, and the second load returns a
    different password: load, save, load does not give the first load's
    accounts. *)
Theorem load_save_load_quote :
  load_users {[ users_csv := quote_file ]} users_csv
  = Return [mkUser (Py.lit "1111") quote_password 100] /\
  load_users (save {[ users_csv := quote_file ]} users_csv
                   [mkUser (Py.lit "1111") quote_password 100])
             users_csv
  = Return [mkUser (Py.lit "1111") quote_password_reloaded 100] /\
  quote_password_reloaded <> quote_password /\
  ~ (forall fs file_name users,
        load_users fs file_name = Return users ->
        load_users (save fs file_name users) file_name = Return users).
Proof.
  assert (H1 : load_users {[ users_csv := quote_file ]} users_csv
               = Return [mkUser (Py.lit "1111") quote_password 100]).
  { unfold load_users. rewrite lookup_singleton_eq. vm_compute. reflexivity. }
  assert (H2 : load_users (save {[ users_csv := quote_file ]} users_csv
                             [mkUser (Py.lit "1111") quote_password 100])
                          users_csv
               = Return [mkUser (Py.lit "1111") quote_password_reloaded 100]).
  { unfold load_users, save. rewrite lookup_insert_eq. vm_compute.
    reflexivity. }
  split; [exact H1|]. split; [exact H2|]. split.
  - vm_compute. discriminate.
  - intros H. specialize (H _ _ _ H1). rewrite H2 in H.
    vm_compute in H. discriminate.
Qed.

(** *** [int(str(n))] *)

Lemma scan_digits_stop (acc : Z) (rest : str) :
  scan_stop rest -> Py.scan_digits false acc rest = Some (acc, rest).
Proof.
  destruct rest as [|c r]; simpl; [done|]. by intros [-> ->].
Qed.

Ltac scan_step k :=
  cbn [Py.uint_digits app Py.scan_digits];
  match goal with
  | |- context [Py.Py_ISDIGIT ?c] => change (Py.Py_ISDIGIT c) with true
  end;
  cbv iota;
  match goal with
  | |- context [Z.of_N (?c - Py.ZERO)] => change (Z.of_N (c - Py.ZERO)) with k
  end.

Lemma scan_uint_acc (u : Decimal.uint) (q : positive) (rest : str) :
  scan_stop rest ->
  Py.scan_digits false (Z.pos q) (Py.uint_digits u ++ rest)
  = Some (Z.pos (Pos.of_uint_acc u q), rest).
Proof.
  intros Hstop. revert q.
  induction u as [|u IH|u IH|u IH|u IH|u IH|u IH|u IH|u IH|u IH|u IH];
    intros q.
  - by apply scan_digits_stop.
  - scan_step 0%Z. replace (10 * Z.pos q + 0)%Z with (Z.pos (10 * q)) by lia.
    exact (IH (10 * q)%positive).
  - scan_step 1%Z. replace (10 * Z.pos q + 1)%Z with (Z.pos (1 + 10 * q)) by lia.
    exact (IH (1 + 10 * q)%positive).
  - scan_step 2%Z. replace (10 * Z.pos q + 2)%Z with (Z.pos (2 + 10 * q)) by lia.
    exact (IH (2 + 10 * q)%positive).
  - scan_step 3%Z. replace (10 * Z.pos q + 3)%Z with (Z.pos (3 + 10 * q)) by lia.
    exact (IH (3 + 10 * q)%positive).
  - scan_step 4%Z. replace (10 * Z.pos q + 4)%Z with (Z.pos (4 + 10 * q)) by lia.
    exact (IH (4 + 10 * q)%positive).
  - scan_step 5%Z. replace (10 * Z.pos q + 5)%Z with (Z.pos (5 + 10 * q)) by lia.
    exact (IH (5 + 10 * q)%positive).
  - scan_step 6%Z. replace (10 * Z.pos q + 6)%Z with (Z.pos (6 + 10 * q)) by lia.
    exact (IH (6 + 10 * q)%positive).
  - scan_step 7%Z. replace (10 * Z.pos q + 7)%Z with (Z.pos (7 + 10 * q)) by lia.
    exact (IH (7 + 10 * q)%positive).
  - scan_step 8%Z. replace (10 * Z.pos q + 8)%Z with (Z.pos (8 + 10 * q)) by lia.
    exact (IH (8 + 10 * q)%positive).
  - scan_step 9%Z. replace (10 * Z.pos q + 9)%Z with (Z.pos (9 + 10 * q)) by lia.
    exact (IH (9 + 10 * q)%positive).
Qed.

Lemma scan_uint (u : Decimal.uint) (rest : str) :
  scan_stop rest ->
  Py.scan_digits false 0 (Py.uint_digits u ++ rest)
  = Some (Z.of_N (Pos.of_uint u), rest).
Proof.
  intros Hstop.
  induction u as [|u IH|u IH|u IH|u IH|u IH|u IH|u IH|u IH|u IH|u IH].
  - by apply scan_digits_stop.
  - scan_step 0%Z. exact IH.
  - scan_step 1%Z. exact (scan_uint_acc u 1 rest Hstop).
  - scan_step 2%Z. exact (scan_uint_acc u 2 rest Hstop).
  - scan_step 3%Z. exact (scan_uint_acc u 3 rest Hstop).
  - scan_step 4%Z. exact (scan_uint_acc u 4 rest Hstop).
  - scan_step 5%Z. exact (scan_uint_acc u 5 rest Hstop).
  - scan_step 6%Z. exact (scan_uint_acc u 6 rest Hstop).
  - scan_step 7%Z. exact (scan_uint_acc u 7 rest Hstop).
  - scan_step 8%Z. exact (scan_uint_acc u 8 rest Hstop).
  - scan_step 9%Z. exact (scan_uint_acc u 9 rest Hstop).
Qed.

Lemma uint_digits_digit (u : Decimal.uint) :
  Forall (fun c => Py.Py_ISDIGIT c = true) (Py.uint_digits u).
Proof. induction u; simpl; constructor; done. Qed.

Lemma digit_bounds (c : codepoint) :
  Py.Py_ISDIGIT c = true <-> (48 <= c <= 57)%N.
Proof.
  unfold Py.Py_ISDIGIT, Py.ZERO, Py.NINE.
  rewrite andb_true_iff, !N.leb_le. done.
Qed.

Lemma transform_char_ascii (c : codepoint) : (c < 127)%N -> Py.transform_char c = c.
Proof.
  intros H. unfold Py.transform_char. apply N.ltb_lt in H. by rewrite H.
Qed.

Lemma map_transform_ascii (s : str) :
  Forall (fun c => (c < 127)%N) s -> map Py.transform_char s = s.
Proof.
  induction 1 as [|c s Hc _ IH]; simpl; [done|].
  rewrite transform_char_ascii by done. by f_equal.
Qed.

(** A text that starts with a digit, with or without a minus sign before
    it, goes to the scan as it is. *)
Lemma long_from_string_digit (d : codepoint) (r : str) :
  Py.Py_ISDIGIT d = true ->
  Py.long_from_string (d :: r)
  = match Py.scan_digits false 0 (d :: r) with
    | Some (n, rest) =>
        match Py.skip_spaces rest with [] => Some n | _ :: _ => None end
    | None => None
    end /\
  Py.long_from_string (Py.MINUS :: d :: r)
  = match Py.scan_digits false 0 (d :: r) with
    | Some (n, rest) =>
        match Py.skip_spaces rest with [] => Some (- n)%Z | _ :: _ => None end
    | None => None
    end.
Proof.
  intros Hd. pose proof (proj1 (digit_bounds d) Hd) as Hb.
  assert (Hsp : Py.Py_ISSPACE d = false).
  { unfold Py.Py_ISSPACE, Py.SPACE. apply orb_false_iff. split.
    - apply andb_false_iff. right. apply N.leb_gt. lia.
    - apply N.eqb_neq. lia. }
  assert (Hm : (d =? Py.MINUS)%N = false) by (apply N.eqb_neq; unfold Py.MINUS; lia).
  assert (Hp : (d =? Py.PLUS)%N = false) by (apply N.eqb_neq; unfold Py.PLUS; lia).
  unfold Py.long_from_string. split.
  - cbn [Py.skip_spaces]. rewrite Hsp, Hm, Hp, Hd. done.
  - cbn [Py.skip_spaces].
    change (Py.Py_ISSPACE Py.MINUS) with false. cbv iota.
    rewrite N.eqb_refl, Hd. done.
Qed.

Lemma long_from_uint (u : Decimal.uint) :
  u <> Nil ->
  Py.long_from_string (Py.uint_digits u ++ [Py.LF])
  = Some (Z.of_N (Pos.of_uint u)) /\
  Py.long_from_string (Py.MINUS :: Py.uint_digits u ++ [Py.LF])
  = Some (- Z.of_N (Pos.of_uint u))%Z.
Proof.
  intros Hu.
  assert (Hscan : Py.scan_digits false 0 (Py.uint_digits u ++ [Py.LF])
                  = Some (Z.of_N (Pos.of_uint u), [Py.LF])).
  { apply scan_uint. done. }
  pose proof (uint_digits_digit u) as Hall.
  destruct (Py.uint_digits u) as [|d r] eqn:E.
  - destruct u; done.
  - apply Forall_cons in Hall as [Hd _].
    destruct (long_from_string_digit d (r ++ [Py.LF]) Hd) as [H1 H2].
    change ((d :: r) ++ [Py.LF]) with (d :: r ++ [Py.LF]) in *.
    change (Py.MINUS :: (d :: r) ++ [Py.LF])
      with (Py.MINUS :: d :: r ++ [Py.LF]).
    rewrite H1, H2, Hscan. done.
Qed.

Lemma str_of_int_ascii (z : Z) :
  Forall (fun c => (c < 127)%N) (Py.str_of_int z).
Proof.
  assert (H : forall u, Forall (fun c => (c < 127)%N) (Py.uint_digits u)).
  { intros u. eapply Forall_impl; [apply uint_digits_digit|].
    intros c Hc. apply digit_bounds in Hc. lia. }
  unfold Py.str_of_int. destruct (Z.to_int z); [done|].
  constructor; [done|apply H].
Qed.

(** [int] reads back what [str] wrote, also with the end of the line
    after it. *)
Lemma int_str_of_int (z : Z) :
  Py.int (Py.str_of_int z ++ [Py.LF]) = Some z.
Proof.
  unfold Py.int. rewrite map_transform_ascii.
  2:{ apply Forall_app. split; [apply str_of_int_ascii|by repeat constructor]. }
  unfold Py.str_of_int. destruct z as [|p|p]; simpl.
  - vm_compute. reflexivity.
  - destruct (long_from_uint (Pos.to_uint p)) as [H _];
      [apply Unsigned.to_uint_nonnil|].
    rewrite H, Unsigned.of_to. done.
  - destruct (long_from_uint (Pos.to_uint p)) as [_ H];
      [apply Unsigned.to_uint_nonnil|].
    change ((Py.MINUS :: Py.uint_digits (Pos.to_uint p)) ++ [Py.LF])
      with (Py.MINUS :: Py.uint_digits (Pos.to_uint p) ++ [Py.LF]).
    rewrite H, Unsigned.of_to. done.
Qed.

(** *** Lines and fields *)

Lemma universal_newlines_crlf (a rest : str) :
  Py.CR ∉ a ->
  Py.universal_newlines (a ++ Py.CR :: Py.LF :: rest)
  = a ++ Py.LF :: Py.universal_newlines rest.
Proof.
  induction a as [|c a IH]; intros Ha.
  - reflexivity.
  - apply not_elem_of_cons in Ha as [Hc Ha].
    cbn [app Py.universal_newlines].
    destruct (N.eqb_spec c Py.CR) as [->|_]; [done|].
    by rewrite IH.
Qed.

Lemma universal_newlines_no_cr (s : str) :
  Py.CR ∉ Py.universal_newlines s.
Proof.
  assert (H : forall n s, length s <= n -> Py.CR ∉ Py.universal_newlines s).
  { clear s. induction n as [|n IH]; intros [|c r] Hlen; simpl in *;
      try apply not_elem_of_nil; try lia.
    destruct (N.eqb_spec c Py.CR) as [->|Hc].
    - apply not_elem_of_cons. split; [done|].
      destruct r as [|d r']; [apply not_elem_of_nil|].
      simpl in Hlen. destruct (d =? Py.LF)%N; apply IH; simpl; lia.
    - apply not_elem_of_cons. split; [congruence|]. apply IH. lia. }
  by apply (H (length s)).
Qed.

Lemma lines_lf (a rest : str) :
  Py.LF ∉ a ->
  Py.lines (a ++ Py.LF :: rest) = (a ++ [Py.LF]) :: Py.lines rest.
Proof.
  induction a as [|c a IH]; intros Ha.
  - reflexivity.
  - apply not_elem_of_cons in Ha as [Hc Ha].
    cbn [app Py.lines].
    destruct (N.eqb_spec c Py.LF) as [->|_]; [done|].
    by rewrite IH.
Qed.

(** In a line the end-of-line character can only be the last one, and the
    characters of a line are characters of the text. *)
Lemma lines_lf_last (s line pre post : str) :
  line ∈ Py.lines s -> line = pre ++ Py.LF :: post -> post = [].
Proof.
  revert line pre. induction s as [|c r IH]; intros line pre; simpl.
  - intros H. by apply elem_of_nil in H.
  - destruct (N.eqb_spec c Py.LF) as [->|Hc].
    + intros H. apply elem_of_cons in H as [->|H]; [|by eapply IH].
      destruct pre as [|x [|y pre]]; intros [= ]; done.
    + destruct (Py.lines r) as [|l ls] eqn:E.
      * intros H. apply list_elem_of_singleton in H as ->.
        destruct pre as [|x [|y pre]]; intros [= ]; done.
      * intros H. apply elem_of_cons in H as [->|H].
        -- destruct pre as [|x pre]; intros [= ]; [done|].
           apply (IH l pre); [by left|done].
        -- apply (IH line pre). by right.
Qed.

Lemma lines_chars (s line : str) (c : codepoint) :
  line ∈ Py.lines s -> c ∈ line -> c ∈ s.
Proof.
  revert line. induction s as [|x r IH]; intros line; simpl.
  - intros H. by apply elem_of_nil in H.
  - destruct (x =? Py.LF)%N.
    + intros H Hc. apply elem_of_cons in H as [->|H].
      * apply list_elem_of_singleton in Hc as ->. by left.
      * right. by eapply IH.
    + destruct (Py.lines r) as [|l ls] eqn:E.
      * intros H Hc. apply list_elem_of_singleton in H as ->.
        apply list_elem_of_singleton in Hc as ->. by left.
      * intros H Hc. apply elem_of_cons in H as [->|H].
        -- apply elem_of_cons in Hc as [->|Hc]; [by left|].
           right. apply (IH l); [by left|done].
        -- right. apply (IH line); [by right|done].
Qed.

Lemma split_sep (sep : codepoint) (a rest : str) :
  sep ∉ a -> Py.split sep (a ++ sep :: rest) = a :: Py.split sep rest.
Proof.
  induction a as [|c a IH]; intros Ha.
  - simpl. by rewrite N.eqb_refl.
  - apply not_elem_of_cons in Ha as [Hc Ha].
    cbn [app Py.split].
    destruct (N.eqb_spec c sep) as [->|_]; [done|].
    by rewrite IH.
Qed.

Lemma split_none (sep : codepoint) (a : str) :
  sep ∉ a -> Py.split sep a = [a].
Proof.
  induction a as [|c a IH]; intros Ha; [done|].
  apply not_elem_of_cons in Ha as [Hc Ha]. simpl.
  destruct (N.eqb_spec c sep) as [->|_]; [done|].
  by rewrite IH.
Qed.

(** The first field has no separator in it, and the other fields are the
    fields of what follows the first separator. *)
Lemma split_cons_inv (sep : codepoint) (s f : str) (fs : list str) :
  Py.split sep s = f :: fs ->
  (sep ∉ f) /\
  ((fs = [] /\ s = f) \/
   exists r, s = f ++ sep :: r /\ Py.split sep r = fs).
Proof.
  revert f fs. induction s as [|c r IH]; intros f fs; simpl.
  - intros [= <- <-]. split; [apply not_elem_of_nil|]. by left.
  - destruct (N.eqb_spec c sep) as [->|Hc].
    + intros [= <- <-]. split; [apply not_elem_of_nil|].
      right. by exists r.
    + destruct (Py.split sep r) as [|g gs] eqn:E.
      * intros [= <- <-]. split.
        -- apply not_elem_of_cons. split; [congruence|apply not_elem_of_nil].
        -- left. split; [done|]. destruct r; [done|].
           simpl in E. destruct (_ =? _)%N; [done|].
           by destruct (Py.split sep r).
      * intros [= <- <-]. destruct (IH g gs eq_refl) as [Hg Hs]. split.
        -- apply not_elem_of_cons. split; [congruence|done].
        -- destruct Hs as [[-> ->] | (r' & -> & Hr')]; [by left|].
           right. by exists r'.
Qed.

Lemma split_three (sep : codepoint) (s a b c : str) :
  Py.split sep s = [a; b; c] ->
  s = a ++ sep :: b ++ sep :: c /\ (sep ∉ a) /\ (sep ∉ b) /\ (sep ∉ c).
Proof.
  intros H.
  apply split_cons_inv in H as [Ha [[? _] | (r1 & -> & H)]]; [done|].
  apply split_cons_inv in H as [Hb [[? _] | (r2 & -> & H)]]; [done|].
  apply split_cons_inv in H as [Hc [[_ ->] | (r3 & _ & H)]]; [done|].
  by destruct r3; simpl in H; repeat case_match.
Qed.

(** *** Load, save, load *)

Lemma csv_field_plain (f : str) : plain f -> Py.csv_field f = f.
Proof.
  intros H. unfold Py.csv_field.
  assert (He : existsb Py.csv_special f = false).
  { induction H as [|c f Hc _ IH]; simpl; [done|]. by rewrite Hc, IH. }
  rewrite He. clear He.
  induction H as [|c f Hc _ IH]; simpl; [done|].
  unfold Py.csv_special in Hc.
  destruct (c =? Py.DQUOTE)%N eqn:E.
  - by rewrite orb_true_r in Hc.
  - simpl. by rewrite IH.
Qed.

Lemma plain_not_elem (f : str) :
  plain f ->
  (Py.COMMA ∉ f) /\ (Py.CR ∉ f) /\ (Py.LF ∉ f).
Proof.
  intros H. repeat split; intros Hin;
    apply (proj1 (Forall_forall _ _) H) in Hin; vm_compute in Hin; done.
Qed.

Lemma str_of_int_plain (z : Z) : plain (Py.str_of_int z).
Proof.
  assert (H : forall u, plain (Py.uint_digits u)).
  { intros u. eapply Forall_impl; [apply uint_digits_digit|].
    intros c Hc. apply digit_bounds in Hc. unfold Py.csv_special.
    repeat (apply orb_false_iff; split); apply N.eqb_neq;
      unfold Py.COMMA, Py.DQUOTE, Py.CR, Py.LF; lia. }
  unfold Py.str_of_int. destruct (Z.to_int z); [done|].
  constructor; [done|apply H].
Qed.

(** The row of a user whose card number and password are plain is the
    three fields with commas between them, and reads back as that user. *)
Lemma writerow_plain (user : User) :
  plain (card_number user) -> plain (password user) ->
  Py.writerow [card_number user; password user; Py.str_of_int (balance user)]
  = (card_number user ++ Py.COMMA :: password user ++ Py.COMMA ::
       Py.str_of_int (balance user)) ++ [Py.CR; Py.LF].
Proof.
  intros Hc Hp. unfold Py.writerow, Py.csv_join.
  rewrite !csv_field_plain by (done || apply str_of_int_plain).
  destruct (card_number user); done.
Qed.

Lemma parse_line_plain (user : User) :
  plain (card_number user) -> plain (password user) ->
  parse_line ((card_number user ++ Py.COMMA :: password user ++ Py.COMMA ::
                 Py.str_of_int (balance user)) ++ [Py.LF])
  = Return user.
Proof.
  intros Hc Hp.
  apply plain_not_elem in Hc as (Hc & _ & _).
  apply plain_not_elem in Hp as (Hp & _ & _).
  destruct (plain_not_elem _ (str_of_int_plain (balance user))) as (Hb & _ & _).
  unfold parse_line.
  rewrite <- !app_assoc. cbn [app]. rewrite <- app_assoc. cbn [app].
  rewrite (split_sep _ _ _ Hc), (split_sep _ _ _ Hp), split_none.
  - rewrite int_str_of_int. by destruct user.
  - apply not_elem_of_app. split; [done|].
    apply not_elem_of_cons. split; [done|apply not_elem_of_nil].
Qed.

Lemma load_rows (users acc : list User) :
  Forall (fun u => plain (card_number u) /\ plain (password u)) users ->
  load_loop (Py.lines (Py.universal_newlines (rows users))) acc
  = Return (acc ++ users).
Proof.
  intros H. revert acc.
  induction H as [|u us [Hc Hp] _ IH]; intros acc.
  - simpl. by rewrite app_nil_r.
  - unfold rows. cbn [map concat]. fold (rows us).
    rewrite (writerow_plain u Hc Hp).
    set (line := card_number u ++ Py.COMMA :: password u ++ Py.COMMA ::
                   Py.str_of_int (balance u)).
    destruct (plain_not_elem _ Hc) as (_ & Hc1 & Hc2).
    destruct (plain_not_elem _ Hp) as (_ & Hp1 & Hp2).
    destruct (plain_not_elem _ (str_of_int_plain (balance u)))
      as (_ & Hb1 & Hb2).
    assert (Hcr : Py.CR ∉ line).
    { unfold line. rewrite not_elem_of_app, not_elem_of_cons,
        not_elem_of_app, not_elem_of_cons. done. }
    assert (Hlf : Py.LF ∉ line).
    { unfold line. rewrite not_elem_of_app, not_elem_of_cons,
        not_elem_of_app, not_elem_of_cons. done. }
    rewrite <- app_assoc. cbn [app].
    rewrite (universal_newlines_crlf _ _ Hcr), (lines_lf _ _ Hlf).
    cbn [load_loop]. unfold line. rewrite (parse_line_plain u Hc Hp).
    rewrite IH, <- app_assoc. done.
Qed.

(** What [load_users] returns has no comma and no end of line in a card
    number or a password. *)
Lemma loaded_fields (text line : str) (u : User) :
  line ∈ Py.lines (Py.universal_newlines text) ->
  parse_line line = Return u ->
  forall c, c ∈ card_number u \/ c ∈ password u ->
            c <> Py.COMMA /\ c <> Py.CR /\ c <> Py.LF.
Proof.
  intros Hline Hparse c Hc.
  apply parse_line_Return in Hparse as (card & pw & bal & z & Hs & _ & ->).
  apply split_three in Hs as (Hl & Hcard & Hpw & _). simpl in Hc.
  assert (Hin : c ∈ line).
  { rewrite Hl. destruct Hc as [Hc|Hc].
    - apply elem_of_app. by left.
    - apply elem_of_app. right. right. apply elem_of_app. by left. }
  repeat split.
  - intros ->. by destruct Hc.
  - intros ->. apply (universal_newlines_no_cr text).
    by apply (lines_chars _ line).
  - intros ->. destruct Hc as [Hc|Hc];
      apply list_elem_of_split in Hc as (l1 & l2 & ->).
    + rewrite <- app_assoc in Hl. cbn [app] in Hl.
      by pose proof (lines_lf_last _ _ _ _ Hline Hl) as Hnil;
        destruct l2; discriminate Hnil.
    + assert (Hl' : line = (card ++ Py.COMMA :: l1) ++ Py.LF ::
                             (l2 ++ Py.COMMA :: bal)).
      { rewrite Hl, <- !app_assoc. done. }
      by pose proof (lines_lf_last _ _ _ _ Hline Hl') as Hnil;
        destruct l2; discriminate Hnil.
Qed.

(** Load, save, load gives the accounts of the first load whenever no card
    number and no password of the file holds a double quote. *)
Lemma load_save_load_without_quotes (fs : filesystem)
      (file_name : str) (users : list User) :
  load_users fs file_name = Return users ->
  Forall (fun u => (Py.DQUOTE ∉ card_number u) /\ (Py.DQUOTE ∉ password u))
         users ->
  load_users (save fs file_name users) file_name = Return users.
Proof.
  intros Hload Hq. unfold load_users in Hload.
  destruct (fs !! file_name) as [text|] eqn:E; [|done].
  apply load_loop_Return in Hload as (us & -> & H). simpl in *.
  unfold load_users, save. rewrite lookup_insert_eq.
  rewrite load_rows; [done|].
  apply Forall_forall. intros u Hu.
  apply list_elem_of_lookup in Hu as [i Hi].
  destruct (Forall2_lookup_r _ _ _ _ _ H Hi) as (line & Hline & Hparse).
  apply list_elem_of_lookup_2 in Hline.
  pose proof (loaded_fields text line u Hline Hparse) as Hf.
  apply (proj1 (Forall_lookup _ _) Hq) in Hi as [Hqc Hqp].
  assert (Hplain : forall f, (forall c, c ∈ f -> c ∈ card_number u \/ c ∈ password u) ->
                             Py.DQUOTE ∉ f -> plain f).
  { intros f Hsub Hnq. apply Forall_forall. intros c Hc.
    destruct (Hf c (Hsub c Hc)) as (H1 & H2 & H3).
    unfold Py.csv_special.
    repeat (apply orb_false_iff; split); apply N.eqb_neq; try done.
    intros ->. done. }
  split; apply Hplain; auto.
Qed.

(** The scenario file loads, holds no double quote, and comes back as it
    was after [save]. *)
Lemma load_save_load_without_quotes_witness :
  load_users {[ users_csv := scenario_file ]} users_csv
  = Return scenario_users /\
  load_users (save {[ users_csv := scenario_file ]} users_csv scenario_users)
             users_csv
  = Return scenario_users.
Proof.
  assert (H : load_users {[ users_csv := scenario_file ]} users_csv
              = Return scenario_users).
  { unfold load_users. rewrite lookup_singleton_eq. vm_compute. reflexivity. }
  split; [exact H|].
  apply (load_save_load_without_quotes _ _ _ H).
  repeat constructor; apply (bool_decide_unpack _); vm_compute; exact I.
Defined.

(** ** The session's reference *)

(** From [BankService(users)] on, whatever is called, a session that is
    bound is bound to an account of the list: [_current_user] never
    dangles, and [get_balance] of a bound session is that account's
    balance. *)
Lemma run_keeps_bound (c : call) (self : BankService) :
  (forall i, _current_user self = Some i -> i < length (_users self)) ->
  forall i, _current_user (snd (run c self)) = Some i ->
            i < length (_users (snd (run c self))).
Proof.
  intros Hb. destruct c as [p | cur new | a | a card |]; simpl.
  - unfold authenticate.
    destruct (first_match p (_users self) 0) as [[k w]|] eqn:E; simpl;
      [|done].
    intros i [= <-].
    apply first_match_Some in E as (j & -> & Hl & _).
    by apply lookup_lt_Some in Hl.
  - destruct (change_password_cases cur new self) as [H | (u & _ & _ & H)];
      rewrite H; simpl; [done|].
    intros i. rewrite update_current, update_length. apply Hb.
  - destruct (withdraw_cases a self) as [H | (u & _ & _ & H)];
      rewrite H; simpl; [done|].
    intros i. rewrite update_current, update_length. apply Hb.
  - destruct (transfer_cases a card self) as [H | (u & _ & _ & _ & H)];
      rewrite H; simpl; [done|].
    intros i. rewrite update_current, update_length. apply Hb.
  - done.
Qed.

Theorem session_reference_valid (users : list User) (cs : list call) :
  forall i, _current_user (run_all cs (__init__ users)) = Some i ->
            exists u, _users (run_all cs (__init__ users)) !! i = Some u /\
                      current_user (run_all cs (__init__ users)) = Some u /\
                      get_balance (run_all cs (__init__ users)) = balance u.
Proof.
  assert (H : forall self,
             (forall i, _current_user self = Some i -> i < length (_users self)) ->
             forall i, _current_user (run_all cs self) = Some i ->
                       i < length (_users (run_all cs self))).
  { induction cs as [|c rest IH]; intros self Hb; simpl; [done|].
    apply IH. by apply run_keeps_bound. }
  intros i Hi.
  destruct (lookup_lt_is_Some_2 _ _ (H (__init__ users) ltac:(done) i Hi))
    as [u Hu].
  exists u. split; [done|].
  assert (Hc : current_user (run_all cs (__init__ users)) = Some u).
  { apply current_user_Some. by exists i. }
  split; [done|]. unfold get_balance. by rewrite Hc.
Qed.

(** [get_balance] is 0 while no session is bound, whatever the accounts
    hold, and the balance of the session's account otherwise. *)
Theorem get_balance_spec (self : BankService) :
  (_current_user self = None -> get_balance self = 0%Z) /\
  (forall user, current_user self = Some user ->
                get_balance self = balance user) /\
  get_balance (__init__ (_users self)) = 0%Z.
Proof.
  unfold get_balance, current_user. repeat split.
  - by intros ->.
  - by intros user ->.
Qed.

(** ** The scenarios of the specification *)

(** The file of two accounts is loaded; [authenticate("pass2")] returns the
    second account; [withdraw(600000)] fails and the balance stays 500000;
    [withdraw(500000)] succeeds and the balance is 0; [withdraw(1)] then
    fails. *)
Theorem scenario_withdraw :
  load_users {[ users_csv := scenario_file ]} users_csv
  = Return scenario_users /\
  authenticate (Py.lit "pass2") (__init__ scenario_users)
  = (Some (mkUser (Py.lit "2222") (Py.lit "pass2") 500000), scenario_session) /\
  withdraw 600000 scenario_session = (false, scenario_session) /\
  get_balance scenario_session = 500000%Z /\
  fst (withdraw 500000 scenario_session) = true /\
  get_balance (snd (withdraw 500000 scenario_session)) = 0%Z /\
  fst (withdraw 1 (snd (withdraw 500000 scenario_session))) = false.
Proof.
  split.
  - unfold load_users. rewrite lookup_singleton_eq. vm_compute. reflexivity.
  - repeat split; vm_compute; reflexivity.
Qed.

(** After [authenticate("pass1")], [transfer(100, "1234")] succeeds and the
    balance goes down by 100 while the other account keeps its balance;
    [transfer(100, "12a4")] and [transfer(-5, "1234")] fail and leave the
    state as it was. *)
Theorem scenario_transfer :
  fst (authenticate (Py.lit "pass1") (__init__ scenario_users))
  = Some (mkUser (Py.lit "1111") (Py.lit "pass1") 1000000) /\
  fst (transfer 100 (Py.lit "1234") (mkBank scenario_users (Some 0))) = true /\
  map balance (_users (snd (transfer 100 (Py.lit "1234")
                                     (mkBank scenario_users (Some 0)))))
  = [999900; 500000]%Z /\
  transfer 100 (Py.lit "12a4") (mkBank scenario_users (Some 0))
  = (false, mkBank scenario_users (Some 0)) /\
  transfer (-5) (Py.lit "1234") (mkBank scenario_users (Some 0))
  = (false, mkBank scenario_users (Some 0)).
Proof. repeat split; vm_compute; reflexivity. Qed.

(** [str.isdigit] takes more than the ten ASCII digits: a card made of a
    superscript two or of Arabic-Indic digits is accepted, one with a letter,
    a space or a sign is not. *)
Theorem isdigit_examples :
  Py.isdigit (Py.lit "1234") = true /\
  Py.isdigit [0xB2%N] = true /\
  Py.Py_UNICODE_TODECIMAL 0xB2%N = None /\
  Py.isdigit [0x663%N; 0x664%N] = true /\
  Py.isdigit (Py.lit "12a4") = false /\
  Py.isdigit (Py.lit " 1") = false /\
  Py.isdigit (Py.lit "-1") = false /\
  Py.isdigit [] = false /\
  fst (transfer 100 [0xB2%N] scenario_session) = true.
Proof. repeat split; vm_compute; reflexivity. Qed.

(** After [authenticate("pass2")] and [withdraw(100)] on the accounts of the
    scenario the session is bound to the second account, with 499900. *)
Lemma session_reference_valid_witness :
  exists u,
    _users (run_all [Authenticate (Py.lit "pass2"); Withdraw 100]
                    (__init__ scenario_users)) !! 1 = Some u /\
    current_user (run_all [Authenticate (Py.lit "pass2"); Withdraw 100]
                          (__init__ scenario_users)) = Some u /\
    get_balance (run_all [Authenticate (Py.lit "pass2"); Withdraw 100]
                         (__init__ scenario_users)) = balance u.
Proof.
  apply (session_reference_valid scenario_users
           [Authenticate (Py.lit "pass2"); Withdraw 100] 1).
  vm_compute. reflexivity.
Defined.

(** ** How the calls of [BankService] compose *)

Lemma run_state (c : call) (self : BankService) :
  snd (run c self)
  = match c with
    | Authenticate p => snd (authenticate p self)
    | ChangePassword cur new => snd (change_password cur new self)
    | Withdraw a => snd (withdraw a self)
    | Transfer a card => snd (transfer a card self)
    | GetBalance => self
    end.
Proof.
  destruct c as [p | cur new | a | a card |]; simpl; [| | | |done].
  - by destruct (authenticate p self).
  - by destruct (change_password cur new self).
  - by destruct (withdraw a self).
  - by destruct (transfer a card self).
Qed.

(** Only [authenticate] touches the binding of the session, and it only
    binds: no call sets [_current_user] back to [None], so a session that is
    bound stays bound whatever is called afterwards. *)
Theorem session_never_unbound (self : BankService) :
  (forall c,
      _current_user (snd (run c self)) = _current_user self \/
      exists p i, c = Authenticate p /\
                  _current_user (snd (run c self)) = Some i) /\
  (forall cs,
      is_Some (_current_user self) ->
      is_Some (_current_user (run_all cs self))).
Proof.
  assert (Hstep : forall s c,
    _current_user (snd (run c s)) = _current_user s \/
    exists p i, c = Authenticate p /\ _current_user (snd (run c s)) = Some i).
  { intros s [p | cur new | a | a card |]; simpl.
    - unfold authenticate.
      destruct (first_match p (_users s) 0) as [[i u]|]; simpl; [|by left].
      right. by exists p, i.
    - left.
      destruct (change_password_cases cur new s) as [H | (u & _ & _ & H)];
        rewrite H; simpl; [done|apply update_current].
    - left.
      destruct (withdraw_cases a s) as [H | (u & _ & _ & H)];
        rewrite H; simpl; [done|apply update_current].
    - left.
      destruct (transfer_cases a card s) as [H | (u & _ & _ & _ & H)];
        rewrite H; simpl; [done|apply update_current].
    - by left. }
  split; [apply Hstep|].
  intros cs. revert self. induction cs as [|c rest IH]; intros self Hb; simpl.
  - done.
  - apply IH. destruct (Hstep self c) as [-> | (p & i & _ & ->)]; done.
Qed.

(** [transfer] to a card that passes [isdigit] is [withdraw]: the same
    result and the same state, whatever the card is; to any other card it
    fails and changes nothing. *)
Theorem transfer_is_withdraw (amount : Z) (dest_card : str)
        (self : BankService) :
  (Py.isdigit dest_card = true ->
   transfer amount dest_card self = withdraw amount self) /\
  (Py.isdigit dest_card = false ->
   transfer amount dest_card self = (false, self)).
Proof.
  unfold transfer, withdraw. split; intros ->; simpl.
  - by rewrite orb_false_r.
  - destruct (current_user self); [|done]. by rewrite orb_true_r.
Qed.

Lemma total_balance_alter (f : User -> User) (users : list User) (i : nat)
      (u : User) :
  users !! i = Some u ->
  foldr (fun u acc => (balance u + acc)%Z) 0%Z (alter f i users)
  = (foldr (fun u acc => (balance u + acc)%Z) 0%Z users
     - balance u + balance (f u))%Z.
Proof.
  revert i. induction users as [|x rest IH]; intros [|i] H; try done.
  - injection H as ->. simpl. lia.
  - change (alter f (S i) (x :: rest)) with (x :: alter f i rest).
    cbn [foldr]. rewrite (IH i H). lia.
Qed.

Lemma total_balance_debit (amount : Z) (self : BankService) (u : User) :
  current_user self = Some u ->
  total_balance (update_current_user (debit amount) self)
  = (total_balance self - amount)%Z.
Proof.
  intros Hu. apply current_user_Some in Hu as (i & Hi & Hu).
  unfold total_balance, update_current_user. rewrite Hi. simpl.
  rewrite (total_balance_alter _ _ _ _ Hu). simpl. lia.
Qed.

(** No call creates money. A successful [withdraw] or [transfer] lowers the
    sum of all balances by exactly the amount, so a transfer credits no
    account; every other call, and every failed one, leaves the sum as it
    was. *)
Theorem total_balance_spec (self : BankService) :
  (forall amount,
      fst (withdraw amount self) = true ->
      total_balance (snd (withdraw amount self))
      = (total_balance self - amount)%Z) /\
  (forall amount card,
      fst (transfer amount card self) = true ->
      total_balance (snd (transfer amount card self))
      = (total_balance self - amount)%Z) /\
  (forall p, total_balance (snd (authenticate p self)) = total_balance self) /\
  (forall cur new,
      total_balance (snd (change_password cur new self))
      = total_balance self) /\
  (forall cs, (total_balance (run_all cs self) <= total_balance self)%Z).
Proof.
  assert (Hw : forall s a,
    (fst (withdraw a s) = true ->
     total_balance (snd (withdraw a s)) = (total_balance s - a)%Z) /\
    (total_balance (snd (withdraw a s)) <= total_balance s)%Z).
  { intros s a.
    destruct (withdraw_cases a s) as [H | (u & Hu & Ha & H)];
      rewrite H; simpl; [split; [done|lia]|].
    rewrite (total_balance_debit _ _ _ Hu). split; [done|lia]. }
  assert (Ht : forall s a card,
    (fst (transfer a card s) = true ->
     total_balance (snd (transfer a card s)) = (total_balance s - a)%Z) /\
    (total_balance (snd (transfer a card s)) <= total_balance s)%Z).
  { intros s a card.
    destruct (transfer_cases a card s) as [H | (u & Hu & Ha & _ & H)];
      rewrite H; simpl; [split; [done|lia]|].
    rewrite (total_balance_debit _ _ _ Hu). split; [done|lia]. }
  assert (Ha : forall s p, total_balance (snd (authenticate p s))
                           = total_balance s).
  { intros s p. unfold authenticate.
    by destruct (first_match p (_users s) 0) as [[i u]|]. }
  assert (Hc : forall s cur new,
    total_balance (snd (change_password cur new s)) = total_balance s).
  { intros s cur new.
    destruct (change_password_cases cur new s) as [H | (u & Hu & _ & H)];
      rewrite H; simpl; [done|].
    apply current_user_Some in Hu as (i & Hi & Hu).
    unfold total_balance, update_current_user. rewrite Hi. simpl.
    rewrite (total_balance_alter _ _ _ _ Hu). simpl. lia. }
  split; [intros a; apply Hw|]. split; [intros a card; apply Ht|].
  split; [apply Ha|]. split; [apply Hc|].
  intros cs. revert self. induction cs as [|c rest IH]; intros self; simpl.
  - lia.
  - etrans; [apply IH|]. rewrite run_state.
    destruct c as [p | cur new | a | a card |].
    + rewrite Ha. lia.
    + rewrite Hc. lia.
    + apply Hw.
    + apply Ht.
    + lia.
Qed.

Lemma update_update (f g : User -> User) (self : BankService) :
  update_current_user f (update_current_user g self)
  = update_current_user (f ∘ g) self.
Proof.
  unfold update_current_user.
  destruct (_current_user self) as [i|] eqn:E; simpl; [|by rewrite E].
  by rewrite list_alter_alter_eq.
Qed.

Lemma update_ext (f g : User -> User) (self : BankService) :
  (forall u, current_user self = Some u -> f u = g u) ->
  update_current_user f self = update_current_user g self.
Proof.
  intros H. unfold update_current_user, current_user in *.
  destruct (_current_user self) as [i|]; [|done].
  f_equal. by apply list_alter_ext.
Qed.

Lemma update_id (f : User -> User) (self : BankService) :
  (forall u, current_user self = Some u -> f u = u) ->
  update_current_user f self = self.
Proof.
  intros H. rewrite (update_ext f id self H).
  unfold update_current_user. destruct self as [users [i|]]; simpl; [|done].
  f_equal. by apply list_alter_id.
Qed.

(** Two withdrawals in a row both succeed exactly when the withdrawal of
    their sum succeeds, and then they leave the same state as that single
    withdrawal. *)
Theorem withdraw_compose (self : BankService) (a b : Z) :
  (0 < a)%Z -> (0 < b)%Z ->
  (fst (withdraw a self) = true /\
   fst (withdraw b (snd (withdraw a self))) = true
   <-> fst (withdraw (a + b) self) = true) /\
  (fst (withdraw (a + b) self) = true ->
   snd (withdraw b (snd (withdraw a self))) = snd (withdraw (a + b) self)).
Proof.
  intros Ha Hb.
  destruct (current_user self) as [u|] eqn:Hu.
  2:{ unfold withdraw. rewrite Hu. simpl. split; [|done].
      split; [by intros [? _]|done]. }
  assert (Hstep : fst (withdraw a self) = true ->
                  snd (withdraw a self) = update_current_user (debit a) self /\
                  current_user (snd (withdraw a self)) = Some (debit a u)).
  { intros Ht.
    destruct (withdraw_cases a self) as [H | (u' & _ & _ & H)];
      rewrite H in *; [done|]. simpl. split; [done|].
    by apply update_current_user_obj. }
  assert (Hsum : forall x, debit b (debit a x) = debit (a + b) x).
  { intros x. unfold debit, set_balance. simpl. f_equal. lia. }
  split.
  - rewrite (withdraw_true _ _ _ Hu), (withdraw_true (a + b) _ _ Hu). split.
    + intros [H1 H2].
      destruct (Hstep (proj2 (withdraw_true _ _ _ Hu) H1)) as [_ Hu1].
      apply (withdraw_true _ _ _ Hu1) in H2. simpl in H2. lia.
    + intros H. assert (H1 : (0 < a <= balance u)%Z) by lia.
      split; [done|].
      destruct (Hstep (proj2 (withdraw_true _ _ _ Hu) H1)) as [_ Hu1].
      apply (withdraw_true _ _ _ Hu1). simpl. lia.
  - intros Ht. apply (withdraw_true _ _ _ Hu) in Ht.
    assert (H1 : fst (withdraw a self) = true)
      by (apply (withdraw_true _ _ _ Hu); lia).
    destruct (Hstep H1) as [Hs1 Hu1].
    assert (H2 : fst (withdraw b (snd (withdraw a self))) = true)
      by (apply (withdraw_true _ _ _ Hu1); simpl; lia).
    destruct (withdraw_cases b (snd (withdraw a self)))
      as [H | (u' & _ & _ & H)]; rewrite H in *; [done|].
    destruct (withdraw_cases (a + b) self) as [H' | (u'' & _ & _ & H')].
    { assert (Hf : fst (withdraw (a + b) self) = true)
        by (apply (withdraw_true _ _ _ Hu); lia).
      rewrite H' in Hf. done. }
    rewrite H'. simpl. rewrite Hs1, update_update.
    apply update_ext. intros x _. apply Hsum.
Qed.

(** From 500000, 200000 and then 300000 is the withdrawal of 500000. *)
Lemma withdraw_compose_witness :
  ((0 < 200000)%Z /\ (0 < 300000)%Z) /\
  snd (withdraw 300000 (snd (withdraw 200000 scenario_session)))
  = snd (withdraw (200000 + 300000) scenario_session).
Proof.
  split; [lia|].
  apply (withdraw_compose scenario_session 200000 300000); [lia | lia |].
  vm_compute. reflexivity.
Defined.

(** A password change can be taken back: after a successful
    [change_password(cur, new)], [change_password(new, cur)] succeeds and the
    state is again what it was before the two calls. *)
Theorem change_password_undo (self : BankService) (cur new : str) :
  fst (change_password cur new self) = true ->
  change_password new cur (snd (change_password cur new self)) = (true, self).
Proof.
  intros Ht.
  destruct (change_password_cases cur new self) as [H | (u & Hu & Hp & H)];
    rewrite H in *; [done|]. simpl.
  pose proof (update_current_user_obj (fun x => set_password x new) _ _ Hu)
    as Hu1.
  unfold change_password. rewrite Hu1. simpl. rewrite str_eq_refl. simpl.
  f_equal. rewrite update_update. apply update_id.
  intros x Hx. rewrite Hu in Hx. injection Hx as <-.
  destruct u as [c p bal]. simpl in *. by subst.
Qed.

Lemma change_password_undo_witness :
  fst (change_password (Py.lit "pass2") (Py.lit "0000") scenario_session)
  = true /\
  change_password (Py.lit "0000") (Py.lit "pass2")
    (snd (change_password (Py.lit "pass2") (Py.lit "0000") scenario_session))
  = (true, scenario_session).
Proof.
  assert (H : fst (change_password (Py.lit "pass2") (Py.lit "0000")
                                   scenario_session) = true)
    by (vm_compute; reflexivity).
  split; [exact H|].
  exact (change_password_undo scenario_session _ _ H).
Defined.

(** [authenticate] does not look at the session it replaces: its result is
    the same on a session bound to any account as on a fresh
    [BankService(users)], and a second [authenticate] with the same password
    changes nothing more. *)
Theorem authenticate_rebinds (self : BankService) (p : str) :
  fst (authenticate p self) = fst (authenticate p (__init__ (_users self))) /\
  (is_Some (fst (authenticate p self)) ->
   snd (authenticate p self) = snd (authenticate p (__init__ (_users self)))) /\
  authenticate p (snd (authenticate p self)) = authenticate p self.
Proof.
  unfold authenticate, __init__. simpl.
  destruct (first_match p (_users self) 0) as [[i u]|] eqn:E; simpl.
  - rewrite E. done.
  - rewrite E. split; [done|]. split; [|done]. by intros [? ?].
Qed.

(** ** What [load_users] makes of what [save] wrote *)

Lemma csv_body_elem (f : str) (c : codepoint) :
  c ∈ flat_map (fun c => if (c =? Py.DQUOTE)%N then [Py.DQUOTE; Py.DQUOTE]
                         else [c]) f ->
  c ∈ f \/ c = Py.DQUOTE.
Proof.
  induction f as [|x f IH]; simpl.
  - intros H. by apply elem_of_nil in H.
  - intros H. apply elem_of_app in H as [H|H].
    + destruct (N.eqb_spec x Py.DQUOTE) as [->|_].
      * right. apply elem_of_cons in H as [->|H]; [done|].
        by apply list_elem_of_singleton in H.
      * left. apply list_elem_of_singleton in H as ->. by left.
    + destruct (IH H) as [?|?]; [left; by right|by right].
Qed.

Lemma csv_body_keeps (f : str) (c : codepoint) :
  c ∈ f ->
  c ∈ flat_map (fun c => if (c =? Py.DQUOTE)%N then [Py.DQUOTE; Py.DQUOTE]
                         else [c]) f.
Proof.
  induction f as [|x f IH]; simpl.
  - intros H. by apply elem_of_nil in H.
  - intros H. apply elem_of_app. apply elem_of_cons in H as [->|H].
    + left. destruct (x =? Py.DQUOTE)%N eqn:E; [|by left].
      apply N.eqb_eq in E as ->. by left.
    + right. by apply IH.
Qed.

Lemma csv_body_length (f : str) :
  length f <= length (flat_map (fun c => if (c =? Py.DQUOTE)%N
                                         then [Py.DQUOTE; Py.DQUOTE]
                                         else [c]) f).
Proof.
  induction f as [|x f IH]; simpl; [lia|].
  rewrite length_app. destruct (x =? Py.DQUOTE)%N; simpl; lia.
Qed.

(** The writer adds quotes and nothing else. *)
Lemma csv_field_elem (f : str) (c : codepoint) :
  c ∈ Py.csv_field f -> c ∈ f \/ c = Py.DQUOTE.
Proof.
  unfold Py.csv_field. destruct (existsb Py.csv_special f).
  - intros H. apply elem_of_cons in H as [->|H]; [by right|].
    apply elem_of_app in H as [H|H]; [by apply csv_body_elem|].
    apply list_elem_of_singleton in H. by right.
  - apply csv_body_elem.
Qed.

Lemma csv_field_keeps (f : str) (c : codepoint) :
  c ∈ f -> c ∈ Py.csv_field f.
Proof.
  intros H. unfold Py.csv_field. destruct (existsb Py.csv_special f).
  - right. apply elem_of_app. left. by apply csv_body_keeps.
  - by apply csv_body_keeps.
Qed.

(** The writer leaves a field as it is exactly when the field holds none
    of its special characters. *)
Lemma csv_field_fixed (f : str) : Py.csv_field f = f <-> plain f.
Proof.
  split; [|apply csv_field_plain].
  intros H. unfold plain. apply Forall_forall. intros c Hc.
  destruct (Py.csv_special c) eqn:E; [|done]. exfalso.
  assert (He : existsb Py.csv_special f = true).
  { apply existsb_exists. exists c. split; [by apply list_elem_of_In|done]. }
  unfold Py.csv_field in H. rewrite He in H.
  apply (f_equal length) in H. simpl in H. rewrite length_app in H. simpl in H.
  pose proof (csv_body_length f). lia.
Qed.

Lemma writerow_three (a b c : str) :
  Py.writerow [a; b; c]
  = (Py.csv_field a ++ Py.COMMA :: Py.csv_field b ++ Py.COMMA ::
       Py.csv_field c) ++ [Py.CR; Py.LF].
Proof. unfold Py.writerow, Py.csv_join. by destruct a. Qed.

Lemma str_of_int_one_line (z : Z) : one_line (Py.str_of_int z).
Proof.
  destruct (plain_not_elem _ (str_of_int_plain z)) as (_ & ? & ?). done.
Qed.

Lemma csv_field_one_line (f : str) : one_line f -> one_line (Py.csv_field f).
Proof.
  intros [Hcr Hlf]. split; intros H;
    apply csv_field_elem in H as [H|H]; done.
Qed.

(** What [save] writes, read line by line: one line per user, provided no
    card number and no password holds an end of line. *)
Lemma lines_rows (users : list User) :
  Forall (fun u => one_line (card_number u) /\ one_line (password u)) users ->
  Py.lines (Py.universal_newlines (rows users))
  = map (fun u => (Py.csv_field (card_number u) ++ Py.COMMA ::
                     Py.csv_field (password u) ++ Py.COMMA ::
                     Py.csv_field (Py.str_of_int (balance u))) ++ [Py.LF])
        users.
Proof.
  induction 1 as [|u us [Hc Hp] _ IH]; [done|].
  unfold rows. cbn [map concat]. fold (rows us).
  rewrite writerow_three.
  apply csv_field_one_line in Hc as [Hc1 Hc2].
  apply csv_field_one_line in Hp as [Hp1 Hp2].
  destruct (csv_field_one_line _ (str_of_int_one_line (balance u)))
    as [Hb1 Hb2].
  rewrite <- app_assoc. cbn [app].
  rewrite universal_newlines_crlf, lines_lf, IH; [done| |].
  - rewrite not_elem_of_app, not_elem_of_cons, not_elem_of_app,
      not_elem_of_cons. done.
  - rewrite not_elem_of_app, not_elem_of_cons, not_elem_of_app,
      not_elem_of_cons. done.
Qed.

Lemma parse_line_row (u : User) :
  Py.COMMA ∉ card_number u -> Py.COMMA ∉ password u ->
  parse_line ((Py.csv_field (card_number u) ++ Py.COMMA ::
                 Py.csv_field (password u) ++ Py.COMMA ::
                 Py.csv_field (Py.str_of_int (balance u))) ++ [Py.LF])
  = Return (reloaded u).
Proof.
  intros Hc Hp.
  assert (Hc' : Py.COMMA ∉ Py.csv_field (card_number u)).
  { intros H. apply csv_field_elem in H as [H|H]; done. }
  assert (Hp' : Py.COMMA ∉ Py.csv_field (password u)).
  { intros H. apply csv_field_elem in H as [H|H]; done. }
  rewrite (csv_field_plain _ (str_of_int_plain _)).
  destruct (plain_not_elem _ (str_of_int_plain (balance u))) as (Hb & _ & _).
  unfold parse_line.
  rewrite <- !app_assoc. cbn [app]. rewrite <- app_assoc. cbn [app].
  rewrite (split_sep _ _ _ Hc'), (split_sep _ _ _ Hp'), split_none.
  - by rewrite int_str_of_int.
  - apply not_elem_of_app. split; [done|].
    apply not_elem_of_cons. split; [done|apply not_elem_of_nil].
Qed.

Lemma load_after_save (fs : filesystem) (file_name : str)
      (users : list User) :
  Forall (fun u => forall c, c ∈ card_number u \/ c ∈ password u ->
                             c <> Py.COMMA /\ c <> Py.CR /\ c <> Py.LF)
         users ->
  load_users (save fs file_name users) file_name
  = Return (map reloaded users).
Proof.
  intros Hall. unfold load_users, save. rewrite lookup_insert_eq.
  rewrite lines_rows.
  2:{ eapply Forall_impl; [exact Hall|]. intros u Hu.
      repeat split; intros Hin; [destruct (Hu Py.CR) as (_ & ? & _)
                                |destruct (Hu Py.LF) as (_ & _ & ?)
                                |destruct (Hu Py.CR) as (_ & ? & _)
                                |destruct (Hu Py.LF) as (_ & _ & ?)]; auto. }
  apply load_loop_Return. exists (map reloaded users). split; [done|].
  apply Forall2_fmap. apply Forall_Forall2_diag.
  eapply Forall_impl; [exact Hall|]. intros u Hu.
  apply parse_line_row; intros Hin;
    destruct (Hu Py.COMMA) as (? & _ & _); auto.
Qed.

(** For accounts whose card numbers and passwords hold no comma and no end
    of line, [load_users] after [save] returns every account with the
    balance it had and with the card number and the password as the writer
    quoted them. It returns the accounts that were saved exactly when none
    of these fields holds a double quote. *)
Theorem save_load_spec (fs : filesystem) (file_name : str)
        (users : list User) :
  Forall (fun u => forall c, c ∈ card_number u \/ c ∈ password u ->
                             c <> Py.COMMA /\ c <> Py.CR /\ c <> Py.LF)
         users ->
  load_users (save fs file_name users) file_name
  = Return (map reloaded users) /\
  (load_users (save fs file_name users) file_name = Return users <->
   Forall (fun u => (Py.DQUOTE ∉ card_number u) /\ (Py.DQUOTE ∉ password u))
          users).
Proof.
  intros Hall.
  pose proof (load_after_save fs file_name users Hall) as Hload.
  split; [exact Hload|]. rewrite Hload.
  assert (Hfix : forall u, u ∈ users ->
            (reloaded u = u <->
             (Py.DQUOTE ∉ card_number u) /\ (Py.DQUOTE ∉ password u))).
  { intros u Hu. pose proof (proj1 (Forall_forall _ _) Hall u Hu) as Hclean.
    assert (Hpl : forall f, (forall c, c ∈ f -> c ∈ card_number u \/ c ∈ password u) ->
                            (plain f <-> Py.DQUOTE ∉ f)).
    { intros f Hsub. split.
      - intros Hf Hin. apply (proj1 (Forall_forall _ _) Hf) in Hin.
        vm_compute in Hin. done.
      - intros Hnq. apply Forall_forall. intros c Hc.
        destruct (Hclean c (Hsub c Hc)) as (H1 & H2 & H3).
        unfold Py.csv_special.
        repeat (apply orb_false_iff; split); apply N.eqb_neq; try done.
        by intros ->. }
    rewrite <- (Hpl (card_number u)), <- (Hpl (password u)) by auto.
    rewrite <- !csv_field_fixed. unfold reloaded. destruct u as [c p b].
    simpl. split; [by intros [= -> ->]|by intros [-> ->]]. }
  split.
  - intros [= Heq]. apply Forall_forall. intros u Hu. apply Hfix; [done|].
    apply list_elem_of_lookup in Hu as [i Hi].
    assert (H : map reloaded users !! i = Some (reloaded u))
      by (by rewrite list_lookup_fmap, Hi).
    rewrite Heq, Hi in H. by injection H.
  - intros Hq. f_equal. rewrite <- (map_id users) at 2.
    apply map_ext_in. intros u Hu. apply list_elem_of_In in Hu.
    apply Hfix; [done|]. by apply (proj1 (Forall_forall _ _) Hq).
Qed.

Lemma save_load_spec_witness :
  Forall (fun u => forall c, c ∈ card_number u \/ c ∈ password u ->
                             c <> Py.COMMA /\ c <> Py.CR /\ c <> Py.LF)
         scenario_users /\
  load_users (save ∅ users_csv scenario_users) users_csv
  = Return (map reloaded scenario_users).
Proof.
  assert (H : Forall (fun u => forall c, c ∈ card_number u \/ c ∈ password u ->
                             c <> Py.COMMA /\ c <> Py.CR /\ c <> Py.LF)
                     scenario_users).
  { repeat constructor; intros ->; destruct H as [H|H]; revert H;
      apply (bool_decide_unpack _); vm_compute; exact I. }
  split; [exact H|].
  exact (proj1 (save_load_spec ∅ users_csv scenario_users H)).
Defined.

Lemma split_nonempty (sep : codepoint) (s : str) :
  1 <= length (Py.split sep s).
Proof.
  induction s as [|c r IH]; simpl; [lia|].
  destruct (c =? sep)%N; simpl; [lia|].
  destruct (Py.split sep r); simpl in *; lia.
Qed.

(** Every separator adds a field. *)
Lemma split_length_app (sep : codepoint) (a b : str) :
  length (Py.split sep (a ++ sep :: b))
  = length (Py.split sep a) + length (Py.split sep b).
Proof.
  induction a as [|c a IH]; simpl.
  - by rewrite N.eqb_refl.
  - destruct (c =? sep)%N; simpl; [by rewrite IH|].
    pose proof (split_nonempty sep (a ++ sep :: b)).
    pose proof (split_nonempty sep a).
    destruct (Py.split sep (a ++ sep :: b)), (Py.split sep a);
      simpl in *; lia.
Qed.

Lemma split_length_elem (sep : codepoint) (s : str) :
  sep ∈ s -> 2 <= length (Py.split sep s).
Proof.
  intros H. apply list_elem_of_split in H as (l1 & l2 & ->).
  rewrite split_length_app.
  pose proof (split_nonempty sep l1). pose proof (split_nonempty sep l2). lia.
Qed.

Lemma load_after_save_comma (fs : filesystem) (file_name : str)
        (users : list User) (u : User) :
  u ∈ users ->
  Py.COMMA ∈ card_number u \/ Py.COMMA ∈ password u ->
  Forall (fun v => one_line (card_number v) /\ one_line (password v)) users ->
  load_users (save fs file_name users) file_name = Raise ValueError.
Proof.
  intros Hu Hcomma Hall.
  unfold load_users, save. rewrite lookup_insert_eq, (lines_rows _ Hall).
  apply load_loop_Raise.
  eexists. split; [apply list_elem_of_fmap; exists u; split; [reflexivity|done]|].
  apply parse_line_Raise. split; [done|]. left.
  rewrite <- !app_assoc. cbn [app].
  rewrite split_length_app. rewrite <- app_assoc. cbn [app].
  rewrite split_length_app.
  pose proof (split_nonempty Py.COMMA (Py.csv_field (card_number u))).
  pose proof (split_nonempty Py.COMMA (Py.csv_field (password u))).
  pose proof (split_nonempty Py.COMMA
                (Py.csv_field (Py.str_of_int (balance u)) ++ [Py.LF])).
  destruct Hcomma as [Hc|Hc]; apply csv_field_keeps in Hc;
    apply split_length_elem in Hc; lia.
Qed.

(** A comma in a card number or in a password makes the file that [save]
    writes unreadable: the field is written in quotes with its comma, the
    line has more than three fields for [split], and [load_users] raises
    [ValueError]. *)
Theorem save_load_comma (fs : filesystem) (file_name : str)
        (users : list User) (u : User) :
  u ∈ users ->
  Py.COMMA ∈ card_number u \/ Py.COMMA ∈ password u ->
  Forall (fun v => one_line (card_number v) /\ one_line (password v)) users ->
  load_users (save fs file_name users) file_name = Raise ValueError.
Proof. apply load_after_save_comma. Qed.

(** The second account of the scenario changes its password to one with a
    comma; the accounts are saved; the file no longer loads. *)
Lemma save_load_comma_witness :
  fst (change_password (Py.lit "pass2") (Py.lit "a,b") scenario_session)
  = true /\
  load_users
    (save ∅ users_csv
          (_users (snd (change_password (Py.lit "pass2") (Py.lit "a,b")
                                        scenario_session))))
    users_csv
  = Raise ValueError.
Proof.
  split; [vm_compute; reflexivity|].
  apply (save_load_comma ∅ users_csv _
           (mkUser (Py.lit "2222") (Py.lit "a,b") 500000)).
  - apply list_elem_of_lookup. exists 1. vm_compute. reflexivity.
  - right. apply (bool_decide_unpack _). vm_compute. exact I.
  - repeat constructor; apply (bool_decide_unpack _); vm_compute; exact I.
Defined.

(** *** Empty lines *)

Lemma universal_newlines_app (x r : str) :
  last x <> Some Py.CR ->
  Py.universal_newlines (x ++ r)
  = Py.universal_newlines x ++ Py.universal_newlines r.
Proof.
  assert (H : forall n x, length x <= n -> last x <> Some Py.CR ->
                          Py.universal_newlines (x ++ r)
                          = Py.universal_newlines x ++ Py.universal_newlines r).
  { clear x. induction n as [|n IH]; intros [|c x] Hlen Hlast;
      simpl in Hlen; try done; try lia.
    cbn [app Py.universal_newlines].
    destruct (N.eqb_spec c Py.CR) as [->|Hc].
    - destruct x as [|d x]; [done|]. cbn [app].
      destruct (d =? Py.LF)%N.
      + simpl in Hlen. rewrite IH; [done|lia|].
        destruct x; [done|]. by rewrite !last_cons_cons in Hlast.
      + change (d :: x ++ r) with ((d :: x) ++ r).
        rewrite IH; [done|lia|]. by rewrite last_cons_cons in Hlast.
    - cbn [app]. f_equal. apply IH; [lia|].
      destruct x; [done|]. by rewrite last_cons_cons in Hlast. }
  by apply (H (length x)).
Qed.

Lemma universal_newlines_ends_lf (x : str) :
  exists y, Py.universal_newlines (x ++ [Py.LF]) = y ++ [Py.LF].
Proof.
  assert (H : forall n x, length x <= n ->
                          exists y, Py.universal_newlines (x ++ [Py.LF])
                                    = y ++ [Py.LF]).
  { clear x. induction n as [|n IH]; intros [|c x] Hlen; simpl in Hlen;
      try lia; try (by exists []).
    cbn [app Py.universal_newlines].
    destruct (N.eqb_spec c Py.CR) as [->|Hc].
    - destruct x as [|d x]; [by exists []|]. cbn [app].
      destruct (d =? Py.LF)%N.
      + simpl in Hlen. destruct (IH x) as [y ->]; [lia|].
        by exists (Py.LF :: y).
      + change (d :: x ++ [Py.LF]) with ((d :: x) ++ [Py.LF]).
        destruct (IH (d :: x)) as [y ->]; [lia|]. by exists (Py.LF :: y).
    - destruct (IH x) as [y ->]; [lia|]. by exists (c :: y). }
  by apply (H (length x)).
Qed.

Lemma lines_app_lf (y z : str) :
  Py.lines ((y ++ [Py.LF]) ++ z) = Py.lines (y ++ [Py.LF]) ++ Py.lines z.
Proof.
  induction y as [|c y IH]; [done|].
  cbn [app Py.lines]. destruct (c =? Py.LF)%N.
  - rewrite IH. done.
  - rewrite IH. destruct (Py.lines (y ++ [Py.LF])) eqn:E; [|done].
    exfalso. destruct y; simpl in E; repeat case_match; done.
Qed.

(** An empty line anywhere in the accounts file, also as its first or its
    last line, makes [load_users] raise [ValueError]: the line has one
    field. *)
Theorem load_users_empty_line (fs : filesystem) (file_name text : str) :
  fs !! file_name = Some text ->
  ([Py.LF] ∈ Py.lines (Py.universal_newlines text) ->
   load_users fs file_name = Raise ValueError) /\
  (forall a b,
      text = a ++ Py.LF :: b -> a = [] \/ last a = Some Py.LF ->
      load_users fs file_name = Raise ValueError).
Proof.
  intros Hfs.
  assert (Hgen : [Py.LF] ∈ Py.lines (Py.universal_newlines text) ->
                 load_users fs file_name = Raise ValueError).
  { intros Hin. unfold load_users. rewrite Hfs. apply load_loop_Raise.
    exists [Py.LF]. split; [done|]. vm_compute. reflexivity. }
  split; [exact Hgen|].
  intros a b -> Ha. apply Hgen. destruct Ha as [->|Ha].
  - simpl. left.
  - apply last_Some in Ha as [a' ->].
    rewrite universal_newlines_app by (by rewrite last_snoc).
    destruct (universal_newlines_ends_lf a') as [y ->].
    change (Py.universal_newlines (Py.LF :: b))
      with (Py.LF :: Py.universal_newlines b).
    rewrite lines_app_lf. apply elem_of_app. right. left.
Qed.

(** The scenario file with an empty line at its end. *)
Lemma load_users_empty_line_witness :
  ({[ users_csv := scenario_file ++ [Py.LF] ]} : gmap (list N) (list N))
    !! users_csv = Some (scenario_file ++ [Py.LF]) /\
  load_users {[ users_csv := scenario_file ++ [Py.LF] ]} users_csv
  = Raise ValueError.
Proof.
  assert (H : ({[ users_csv := scenario_file ++ [Py.LF] ]}
               : gmap (list N) (list N)) !! users_csv
              = Some (scenario_file ++ [Py.LF]))
    by apply lookup_singleton_eq.
  split; [exact H|].
  apply (proj2 (load_users_empty_line _ _ _ H) scenario_file []).
  - reflexivity.
  - right. vm_compute. reflexivity.
Defined.

(** ** The language manager *)

Lemma dict_get_is_Some {V : Type} (d : list (str * V)) (key : str) :
  is_Some (Py.dict_get d key) <-> key ∈ map fst d.
Proof.
  induction d as [|[k v] d IH]; simpl.
  - split; [by intros [? ?]|]. intros H. by apply elem_of_nil in H.
  - destruct (Py.str_eq k key) eqn:E.
    + apply str_eq_true in E as ->. split; [left|done].
    + apply str_eq_false in E. rewrite IH. split; [by right|].
      intros H. apply elem_of_cons in H as [->|H]; done.
Qed.

Lemma translations_lookup (lang : LanguageManager.t) :
  LanguageManager.current_language lang = LanguageManager.PERSIAN \/
  LanguageManager.current_language lang = LanguageManager.ENGLISH ->
  exists table,
    Py.dict_get LanguageManager._translations
                (LanguageManager.current_language lang) = Some table.
Proof. intros [-> | ->]; eexists; reflexivity. Qed.

Lemma get_text_valid (key : str) (lang : LanguageManager.t) :
  LanguageManager.current_language lang = LanguageManager.PERSIAN \/
  LanguageManager.current_language lang = LanguageManager.ENGLISH ->
  exists text, LanguageManager.get_text key lang = Some text.
Proof.
  intros H. apply translations_lookup in H as [table H].
  unfold LanguageManager.get_text. rewrite H. eauto.
Qed.

Lemma show_error_valid (key : str) (lang : LanguageManager.t) :
  LanguageManager.current_language lang = LanguageManager.PERSIAN \/
  LanguageManager.current_language lang = LanguageManager.ENGLISH ->
  exists text, LanguageManager.get_text key lang = Some text /\
               show_error key lang = Done [show_message (Py.lit "Error") text].
Proof.
  intros H. destruct (get_text_valid key lang H) as [text Ht].
  exists text. unfold show_error. by rewrite Ht.
Qed.

Lemma set_language_valid (language : str) (lang : LanguageManager.t) :
  LanguageManager.current_language lang = LanguageManager.PERSIAN \/
  LanguageManager.current_language lang = LanguageManager.ENGLISH ->
  LanguageManager.current_language (LanguageManager.set_language language lang)
  = LanguageManager.PERSIAN \/
  LanguageManager.current_language (LanguageManager.set_language language lang)
  = LanguageManager.ENGLISH.
Proof.
  intros H. unfold LanguageManager.set_language.
  destruct (Py.str_eq language LanguageManager.PERSIAN) eqn:E1; simpl.
  - left. by apply str_eq_true.
  - destruct (Py.str_eq language LanguageManager.ENGLISH) eqn:E2; simpl.
    + right. by apply str_eq_true.
    + done.
Qed.

(** [set_language] takes the two language codes and ignores any other
    text, so after any sequence of [set_language] calls on a new
    [LanguageManager] the language is one of the two and [get_text] raises
    nothing. [get_text] returns the key itself for a key without a
    translation; the two tables translate the same keys, so that happens in
    one language exactly when it happens in the other. With a language that
    has no table, which only a direct assignment to [current_language] can
    bring about, [get_text] raises [KeyError]. *)
Theorem language_manager_spec :
  (forall language lang,
      language <> LanguageManager.PERSIAN ->
      language <> LanguageManager.ENGLISH ->
      LanguageManager.set_language language lang = lang) /\
  (forall languages key,
      is_Some (LanguageManager.get_text key
                 (foldl (fun lang l => LanguageManager.set_language l lang)
                        LanguageManager.__init__ languages))) /\
  (forall lang key,
      LanguageManager.current_language lang = LanguageManager.PERSIAN \/
      LanguageManager.current_language lang = LanguageManager.ENGLISH ->
      key ∉ map fst LanguageManager.translations_en ->
      LanguageManager.get_text key lang = Some key) /\
  (forall key,
      is_Some (Py.dict_get LanguageManager.translations_fa key) <->
      is_Some (Py.dict_get LanguageManager.translations_en key)) /\
  (forall lang key,
      LanguageManager.current_language lang <> LanguageManager.PERSIAN ->
      LanguageManager.current_language lang <> LanguageManager.ENGLISH ->
      LanguageManager.get_text key lang = None).
Proof.
  assert (Hkeys : map fst LanguageManager.translations_fa
                  = map fst LanguageManager.translations_en)
    by (vm_compute; reflexivity).
  split; [|split; [|split; [|split]]].
  - intros language lang H1 H2. unfold LanguageManager.set_language.
    apply str_eq_false in H1, H2. by rewrite H1, H2.
  - intros languages key.
    assert (Hv : forall ls lang,
      LanguageManager.current_language lang = LanguageManager.PERSIAN \/
      LanguageManager.current_language lang = LanguageManager.ENGLISH ->
      LanguageManager.current_language
        (foldl (fun lang l => LanguageManager.set_language l lang) lang ls)
      = LanguageManager.PERSIAN \/
      LanguageManager.current_language
        (foldl (fun lang l => LanguageManager.set_language l lang) lang ls)
      = LanguageManager.ENGLISH).
    { induction ls as [|l ls IH]; intros lang H; simpl; [done|].
      apply IH. by apply set_language_valid. }
    destruct (get_text_valid key _ (Hv languages LanguageManager.__init__
                                       (or_introl eq_refl))) as [text ->].
    done.
  - intros lang key Hlang Hkey. unfold LanguageManager.get_text.
    assert (Hen : Py.dict_get LanguageManager.translations_en key = None).
    { apply eq_None_not_Some. by rewrite dict_get_is_Some. }
    assert (Hfa : Py.dict_get LanguageManager.translations_fa key = None).
    { apply eq_None_not_Some. by rewrite dict_get_is_Some, Hkeys. }
    destruct Hlang as [-> | ->].
    + change (Py.dict_get LanguageManager._translations LanguageManager.PERSIAN)
        with (Some LanguageManager.translations_fa). cbv iota beta.
      by rewrite Hfa.
    + change (Py.dict_get LanguageManager._translations LanguageManager.ENGLISH)
        with (Some LanguageManager.translations_en). cbv iota beta.
      by rewrite Hen.
  - intros key. by rewrite !dict_get_is_Some, Hkeys.
  - intros lang key H1 H2. unfold LanguageManager.get_text.
    unfold LanguageManager._translations. simpl.
    apply not_eq_sym in H1, H2. apply str_eq_false in H1, H2.
    by rewrite H1, H2.
Qed.

(** ** The pages *)

Lemma int_str_bare (z : Z) : Py.int (Py.str_of_int z) = Some z.
Proof.
  unfold Py.int. rewrite map_transform_ascii by apply str_of_int_ascii.
  unfold Py.str_of_int.
  assert (H : forall p,
    Py.long_from_string (Py.uint_digits (Pos.to_uint p)) = Some (Z.pos p) /\
    Py.long_from_string (Py.MINUS :: Py.uint_digits (Pos.to_uint p))
    = Some (Z.neg p)).
  { intros p.
    pose proof (Unsigned.to_uint_nonnil p) as Hnil.
    pose proof (uint_digits_digit (Pos.to_uint p)) as Hall.
    pose proof (scan_uint (Pos.to_uint p) [] I) as Hscan.
    rewrite app_nil_r in Hscan.
    destruct (Py.uint_digits (Pos.to_uint p)) as [|d r] eqn:E.
    { by destruct (Pos.to_uint p). }
    apply Forall_cons in Hall as [Hd _].
    destruct (long_from_string_digit d r Hd) as [-> ->].
    rewrite Hscan, Unsigned.of_to. done. }
  destruct z as [|p|p]; simpl.
  - vm_compute. reflexivity.
  - apply H.
  - apply H.
Qed.

Lemma replace_group_thousands (digits : str) :
  Py.COMMA ∉ digits ->
  Py.replace Py.COMMA [] (Py.group_thousands digits) = digits.
Proof.
  unfold Py.replace. induction digits as [|d r IH]; intros H; [done|].
  apply not_elem_of_cons in H as [Hd Hr].
  cbn [Py.group_thousands flat_map].
  destruct (N.eqb_spec d Py.COMMA) as [->|_]; [done|].
  cbn [app]. f_equal.
  destruct (negb (length r =? 0)%nat && (length r mod 3 =? 0)%nat).
  - cbn [flat_map]. rewrite N.eqb_refl. by apply IH.
  - by apply IH.
Qed.

Lemma format_comma_replace (n : Z) :
  Py.replace Py.COMMA [] (Py.format_comma n) = Py.str_of_int n.
Proof.
  unfold Py.format_comma, Py.str_of_int.
  assert (Hd : forall u, Py.COMMA ∉ Py.uint_digits u).
  { intros u Hin.
    apply (proj1 (Forall_forall _ _) (uint_digits_digit u)) in Hin.
    vm_compute in Hin. done. }
  destruct (Z.to_int n) as [u|u].
  - by apply replace_group_thousands.
  - change (Py.replace Py.COMMA [] (Py.MINUS :: Py.group_thousands
                                                  (Py.uint_digits u)))
      with (Py.MINUS :: Py.replace Py.COMMA []
                          (Py.group_thousands (Py.uint_digits u))).
    f_equal. by apply replace_group_thousands.
Qed.

Lemma format_comma_int (n : Z) :
  Py.int (Py.replace Py.COMMA [] (Py.format_comma n)) = Some n.
Proof. rewrite format_comma_replace. apply int_str_bare. Qed.

Lemma withdraw_and_report_spec (amount : Z) (amount_str : str)
      (lang : LanguageManager.t) (bank : BankService) :
  LanguageManager.current_language lang = LanguageManager.PERSIAN \/
  LanguageManager.current_language lang = LanguageManager.ENGLISH ->
  (fst (withdraw amount bank) = true /\
   WithdrawPage.withdraw_and_report amount amount_str lang bank
   = Done ([operation_completed
              (WithdrawPage.message lang amount_str
                 (get_balance (snd (withdraw amount bank))))],
           snd (withdraw amount bank))) \/
  (fst (withdraw amount bank) = false /\
   exists text,
     LanguageManager.get_text (Py.lit "insufficient_balance") lang
     = Some text /\
     WithdrawPage.withdraw_and_report amount amount_str lang bank
     = Done ([show_message (Py.lit "Error") text], bank)).
Proof.
  intros Hlang. unfold WithdrawPage.withdraw_and_report.
  destruct (withdraw_cases amount bank) as [H | (u & _ & _ & H)]; rewrite H.
  - right. split; [done|].
    destruct (show_error_valid (Py.lit "insufficient_balance") lang Hlang)
      as (text & Ht & ->). by exists text.
  - left. done.
Qed.

(** With one of the two languages set, on an authenticated session, the
    withdraw page treats a positive amount [n], chosen by its label or
    entered in the dialog, in one of two ways. If the balance covers it, the
    amount is withdrawn and the message emitted states the label and the new
    balance. If it does not, the text of [insufficient_balance] is shown and
    the bank is as before. Nothing is raised, and a cancelled dialog does
    nothing. *)
Theorem withdraw_page_spec (lang : LanguageManager.t) (bank : BankService)
        (user : User) (n : Z) :
  LanguageManager.current_language lang = LanguageManager.PERSIAN \/
  LanguageManager.current_language lang = LanguageManager.ENGLISH ->
  current_user bank = Some user ->
  (0 < n)%Z ->
  WithdrawPage.request_custom_amount (n, true) lang bank
  = WithdrawPage.process_withdrawal (Py.format_comma n) lang bank /\
  WithdrawPage.request_custom_amount (n, false) lang bank = Done ([], bank) /\
  ((n <= balance user)%Z ->
   WithdrawPage.process_withdrawal (Py.format_comma n) lang bank
   = Done ([operation_completed
              (WithdrawPage.message lang (Py.format_comma n)
                                    (balance user - n))],
           snd (withdraw n bank))) /\
  ((balance user < n)%Z ->
   exists text,
     LanguageManager.get_text (Py.lit "insufficient_balance") lang
     = Some text /\
     WithdrawPage.process_withdrawal (Py.format_comma n) lang bank
     = Done ([show_message (Py.lit "Error") text], bank)).
Proof.
  intros Hlang Hu Hn.
  assert (Hint : Py.int (Py.replace Py.COMMA [] (Py.format_comma n)) = Some n)
    by apply format_comma_int.
  assert (Hp : WithdrawPage.process_withdrawal (Py.format_comma n) lang bank
               = WithdrawPage.withdraw_and_report n (Py.format_comma n)
                                                  lang bank).
  { unfold WithdrawPage.process_withdrawal. by rewrite Hint. }
  assert (Hr : forall ok,
    WithdrawPage.request_custom_amount (n, ok) lang bank
    = if ok then WithdrawPage.withdraw_and_report n (Py.format_comma n)
                                                  lang bank
      else Done ([], bank)).
  { intros ok. unfold WithdrawPage.request_custom_amount.
    destruct (get_text_valid (Py.lit "custom_amount") lang Hlang) as [t1 ->].
    destruct (get_text_valid (Py.lit "enter_amount") lang Hlang) as [t2 ->].
    done. }
  split; [by rewrite Hr, Hp|]. split; [by rewrite Hr|].
  rewrite Hp.
  destruct (withdraw_and_report_spec n (Py.format_comma n) lang bank Hlang)
    as [[Ht ->] | [Hf (text & Htext & ->)]].
  - apply (withdraw_true _ _ _ Hu) in Ht as Ha. split.
    + intros _. do 3 f_equal.
      destruct (withdraw_cases n bank) as [H | (u & _ & _ & H)];
        rewrite H in *; [done|]. simpl. unfold get_balance.
      by rewrite (update_current_user_obj _ _ _ Hu).
    + lia.
  - split.
    + intros Hle.
      assert (Ht : fst (withdraw n bank) = true)
        by (apply (withdraw_true _ _ _ Hu); lia).
      congruence.
    + intros _. by exists text.
Qed.

Lemma withdraw_page_spec_witness :
  WithdrawPage.process_withdrawal (Py.lit "500,000") LanguageManager.__init__
                                  scenario_session
  = Done ([operation_completed
             (WithdrawPage.message LanguageManager.__init__
                                   (Py.lit "500,000") (500000 - 500000))],
          snd (withdraw 500000 scenario_session)).
Proof.
  refine (proj1 (proj2 (proj2
    (withdraw_page_spec LanguageManager.__init__ scenario_session
       (mkUser (Py.lit "2222") (Py.lit "pass2") 500000) 500000 _ _ _))) _).
  - left. reflexivity.
  - reflexivity.
  - lia.
  - simpl. lia.
Defined.

(** With one of the two languages set, the login page emits
    [login_success] exactly when some account has the password of the input
    field, and the session is then bound to the first such account; otherwise
    it shows the text of [wrong_password] and the bank, with the session it
    had, is as before. The input field is cleared in both cases. *)
Theorem login_page_spec (self : LoginPage.t) (lang : LanguageManager.t)
        (bank : BankService) :
  LanguageManager.current_language lang = LanguageManager.PERSIAN \/
  LanguageManager.current_language lang = LanguageManager.ENGLISH ->
  ((exists v, v ∈ _users bank /\
              password v = LoginPage.password_input self) ->
   exists i user,
     first_match (LoginPage.password_input self) (_users bank) 0
     = Some (i, user) /\
     LoginPage.authenticate self lang bank
     = Done ([operation_completed (Py.lit "login_success")], LoginPage.mk [],
             mkBank (_users bank) (Some i))) /\
  ((forall v, v ∈ _users bank ->
              password v <> LoginPage.password_input self) ->
   exists text,
     LanguageManager.get_text (Py.lit "wrong_password") lang = Some text /\
     LoginPage.authenticate self lang bank
     = Done ([show_message (Py.lit "Error") text], LoginPage.mk [], bank)).
Proof.
  intros Hlang. unfold LoginPage.authenticate, authenticate. split.
  - intros (v & Hv & Hp).
    destruct (first_match_is_Some _ _ 0 v Hv Hp) as [[i u] E].
    exists i, u. by rewrite E.
  - intros Hno. apply first_match_None with (k := 0) in Hno. rewrite Hno.
    destruct (show_error_valid (Py.lit "wrong_password") lang Hlang)
      as (text & Ht & ->). by exists text.
Qed.

Lemma login_page_spec_witness :
  exists text,
    LanguageManager.get_text (Py.lit "wrong_password") LanguageManager.__init__
    = Some text /\
    LoginPage.authenticate (LoginPage.mk (Py.lit "PASS1"))
                           LanguageManager.__init__ scenario_session
    = Done ([show_message (Py.lit "Error") text], LoginPage.mk [],
            scenario_session).
Proof.
  refine (proj2 (login_page_spec (LoginPage.mk (Py.lit "PASS1"))
                   LanguageManager.__init__ scenario_session _) _).
  - left. reflexivity.
  - intros v Hv.
    repeat (apply elem_of_cons in Hv as [->|Hv]; [vm_compute; discriminate|]).
    by apply elem_of_nil in Hv.
Defined.

(** ** The application *)

(** Handling a signal never changes the bank: the accounts and the session
    are as before, so leaving through [exit] does not unbind the session.
    The accounts file is written by one signal only, [exit] from the result
    page; [exit] from the menu shows the language page and saves nothing.
    [exit] from the result page does save: it raises nothing, shows the
    language page, and [users.csv] then holds the rows of the accounts of
    the bank, whatever it held before, every other file being as it was. *)
Theorem dispatch_spec (sender : ATMApp.page) (s : ATMApp.signal)
        (fs fs' : filesystem) (self self' : ATMApp.t) :
  ATMApp.dispatch sender s fs self = Done (fs', self') ->
  ATMApp.bank self' = ATMApp.bank self /\
  (fs' = fs \/
   (sender = ATMApp.result_page /\ s = ATMApp.completed (Py.lit "exit") /\
    fs' = save fs users_csv (_users (ATMApp.bank self)) /\
    ATMApp.current_widget self' = ATMApp.language_page)) /\
  ATMApp.dispatch ATMApp.menu_page (ATMApp.completed (Py.lit "exit")) fs self
  = Done (fs, ATMApp.show ATMApp.language_page self) /\
  (exists fs_saved,
      ATMApp.dispatch ATMApp.result_page (ATMApp.completed (Py.lit "exit"))
                      fs self
      = Done (fs_saved, ATMApp.show ATMApp.language_page self) /\
      fs_saved !! users_csv = Some (rows (_users (ATMApp.bank self))) /\
      forall name, name <> users_csv -> fs_saved !! name = fs !! name) /\
  (sender = ATMApp.result_page -> s = ATMApp.completed (Py.lit "exit") ->
   fs' !! users_csv = Some (rows (_users (ATMApp.bank self))) /\
   self' = ATMApp.show ATMApp.language_page self).
Proof.
  intros H. split; [|split; [|split; [reflexivity|split]]].
  3:{ exists (save fs users_csv (_users (ATMApp.bank self))).
      split; [reflexivity|]. unfold save. split.
      - apply lookup_insert_eq.
      - intros name Hname. by apply lookup_insert_ne. }
  3:{ intros -> ->.
      change (Done (save fs users_csv (_users (ATMApp.bank self)),
                    ATMApp.show ATMApp.language_page self)
              = Done (fs', self')) in H.
      injection H as <- <-. split; [apply lookup_insert_eq|done]. }
  - destruct sender, s as [payload|]; simpl in H;
      try (injection H as <- <-; reflexivity).
    + unfold ATMApp.handle_language, ATMApp.create_pages in H. simpl in H.
      destruct (BalancePage.update_balance _ _); [|done].
      by injection H as <- <-.
    + unfold ATMApp.handle_menu_selection in H.
      repeat (case_match; try done); try (injection H as <- <-; reflexivity);
        simplify_eq; reflexivity.
    + unfold ATMApp.handle_result_action in H.
      repeat case_match; injection H as <- <-; reflexivity.
  - destruct sender, s as [payload|]; simpl in H;
      try (injection H as <- <-; by left).
    + destruct (ATMApp.handle_language payload self); [|done].
      injection H as <- <-. by left.
    + destruct (ATMApp.handle_menu_selection payload self); [|done].
      injection H as <- <-. by left.
    + unfold ATMApp.handle_result_action in H.
      destruct (Py.str_eq payload (Py.lit "new_operation")) eqn:E1.
      { injection H as <- <-. by left. }
      destruct (Py.str_eq payload (Py.lit "exit")) eqn:E2.
      * injection H as <- <-. right. apply str_eq_true in E2 as ->. done.
      * injection H as <- <-. by left.
Qed.

Lemma dispatch_spec_witness :
  ATMApp.dispatch ATMApp.result_page (ATMApp.completed (Py.lit "exit")) ∅
    (ATMApp.mk scenario_session LanguageManager.__init__ ATMApp.result_page
               [] [])
  = Done (save ∅ users_csv scenario_users,
          ATMApp.mk scenario_session LanguageManager.__init__
                    ATMApp.language_page [] []) /\
  ATMApp.bank (ATMApp.mk scenario_session LanguageManager.__init__
                         ATMApp.language_page [] [])
  = scenario_session.
Proof.
  assert (H : ATMApp.dispatch ATMApp.result_page
                (ATMApp.completed (Py.lit "exit")) ∅
                (ATMApp.mk scenario_session LanguageManager.__init__
                           ATMApp.result_page [] [])
              = Done (save ∅ users_csv scenario_users,
                      ATMApp.mk scenario_session LanguageManager.__init__
                                ATMApp.language_page [] []))
    by reflexivity.
  split; [exact H|].
  exact (proj1 (dispatch_spec _ _ _ _ _ _ H)).
Defined.

Lemma app_init_loaded (fs : filesystem) (users : list User) :
  load_users fs users_csv = Return users ->
  exists label,
    ATMApp.__init__ fs
    = Done (ATMApp.mk (__init__ users) LanguageManager.__init__
                      ATMApp.language_page label []).
Proof.
  intros H. unfold ATMApp.__init__. rewrite H.
  destruct (get_text_valid (Py.lit "your_balance") LanguageManager.__init__
              (or_introl eq_refl)) as [text Ht].
  unfold ATMApp.create_pages, BalancePage.update_balance.
  cbn [ATMApp.lang ATMApp.bank]. rewrite Ht.
  cbn [ATMApp.lang ATMApp.bank ATMApp.balance_label ATMApp.result_label].
  eauto.
Qed.

(** What a restart finds after [exit] on the result page. If no card
    number and no password holds a comma or an end of line, the application
    starts with the accounts as they were in memory, their card numbers and
    passwords as the writer quoted them, with no session, in Persian, on the
    language page. If one of them holds a comma (and none an end of line),
    the application does not start: [load_users] raises [ValueError]. Without
    the file it does not start either. *)
Theorem exit_then_restart (fs : filesystem) (self : ATMApp.t) :
  (Forall (fun u => forall c, c ∈ card_number u \/ c ∈ password u ->
                              c <> Py.COMMA /\ c <> Py.CR /\ c <> Py.LF)
          (_users (ATMApp.bank self)) ->
   exists label,
     ATMApp.__init__
       (fst (ATMApp.handle_result_action (Py.lit "exit") fs self))
     = Done (ATMApp.mk (__init__ (map reloaded (_users (ATMApp.bank self))))
                       LanguageManager.__init__ ATMApp.language_page
                       label [])) /\
  (forall u,
      u ∈ _users (ATMApp.bank self) ->
      Py.COMMA ∈ card_number u \/ Py.COMMA ∈ password u ->
      Forall (fun v => one_line (card_number v) /\ one_line (password v))
             (_users (ATMApp.bank self)) ->
      ATMApp.__init__
        (fst (ATMApp.handle_result_action (Py.lit "exit") fs self))
      = Raised (Exn ValueError)) /\
  (fs !! users_csv = None ->
   ATMApp.__init__ fs = Raised (Exn FileNotFoundError)).
Proof.
  assert (Hfs : fst (ATMApp.handle_result_action (Py.lit "exit") fs self)
                = save fs users_csv (_users (ATMApp.bank self)))
    by reflexivity.
  rewrite Hfs. split; [|split].
  - intros Hall. apply app_init_loaded. by apply load_after_save.
  - intros u Hu Hc Hall. unfold ATMApp.__init__.
    by rewrite (load_after_save_comma _ _ _ u Hu Hc Hall).
  - intros Hnone. unfold ATMApp.__init__, load_users. by rewrite Hnone.
Qed.

(** With one of the two languages set, the change-password page changes
    the password exactly when a session is bound and the first field holds
    the stored password of its account: the new password is then whatever
    the second field holds, the text of [password_changed] is emitted and
    both fields are cleared. Otherwise the text of [password_change_failed]
    is shown, and the bank and the fields are as before. *)
Theorem change_password_page_spec (self : ChangePasswordPage.t)
        (lang : LanguageManager.t) (bank : BankService) :
  LanguageManager.current_language lang = LanguageManager.PERSIAN \/
  LanguageManager.current_language lang = LanguageManager.ENGLISH ->
  (forall user,
      current_user bank = Some user ->
      password user = ChangePasswordPage.current_pass_input self ->
      exists text bank',
        LanguageManager.get_text (Py.lit "password_changed") lang
        = Some text /\
        ChangePasswordPage.change_password self lang bank
        = Done ([operation_completed text], ChangePasswordPage.mk [] [],
                bank') /\
        current_user bank'
        = Some (set_password user (ChangePasswordPage.new_pass_input self))) /\
  ((forall user, current_user bank = Some user ->
                 password user <> ChangePasswordPage.current_pass_input self) ->
   exists text,
     LanguageManager.get_text (Py.lit "password_change_failed") lang
     = Some text /\
     ChangePasswordPage.change_password self lang bank
     = Done ([show_message (Py.lit "Error") text], self, bank)).
Proof.
  intros Hlang. unfold ChangePasswordPage.change_password. split.
  - intros user Hu Hp.
    destruct (get_text_valid (Py.lit "password_changed") lang Hlang)
      as [text Ht].
    destruct (change_password_cases
                (ChangePasswordPage.current_pass_input self)
                (ChangePasswordPage.new_pass_input self) bank)
      as [H | (u & _ & _ & H)].
    + exfalso. unfold change_password in H. rewrite Hu in H.
      apply str_eq_true in Hp. rewrite Hp in H. done.
    + rewrite H, Ht. eexists _, _. split; [done|]. split; [done|].
      exact (update_current_user_obj
               (fun x => set_password x (ChangePasswordPage.new_pass_input self))
               bank user Hu).
  - intros Hno.
    assert (H : change_password (ChangePasswordPage.current_pass_input self)
                  (ChangePasswordPage.new_pass_input self) bank
                = (false, bank)).
    { destruct (change_password_cases
                  (ChangePasswordPage.current_pass_input self)
                  (ChangePasswordPage.new_pass_input self) bank)
        as [H | (u & Hu & Hp & _)]; [done|]. by destruct (Hno u Hu). }
    rewrite H.
    destruct (show_error_valid (Py.lit "password_change_failed") lang Hlang)
      as (text & Ht & ->). by exists text.
Qed.

Lemma change_password_page_spec_witness :
  exists text,
    LanguageManager.get_text (Py.lit "password_change_failed")
                             LanguageManager.__init__ = Some text /\
    ChangePasswordPage.change_password
      (ChangePasswordPage.mk (Py.lit "wrong") (Py.lit "0000"))
      LanguageManager.__init__ scenario_session
    = Done ([show_message (Py.lit "Error") text],
            ChangePasswordPage.mk (Py.lit "wrong") (Py.lit "0000"),
            scenario_session).
Proof.
  refine (proj2 (change_password_page_spec
                   (ChangePasswordPage.mk (Py.lit "wrong") (Py.lit "0000"))
                   LanguageManager.__init__ scenario_session _) _).
  - left. reflexivity.
  - intros user [= <-]. vm_compute. discriminate.
Defined.

(** [handle_language] assigns the language it is given without the check
    of [set_language]. With one of the two language codes it shows the login
    page in that language and leaves the bank as it was; with any other text
    the pages cannot be made and [KeyError] is raised. The two buttons of the
    language page give the two codes. *)
Theorem handle_language_spec (language : str) (self : ATMApp.t) :
  (language = LanguageManager.PERSIAN \/ language = LanguageManager.ENGLISH ->
   exists label,
     ATMApp.handle_language language self
     = Done (ATMApp.mk (ATMApp.bank self) (LanguageManager.mk language)
                       ATMApp.login_page label []) /\
     LanguageSelectionPage.select_language language (ATMApp.lang self)
     = ([operation_completed language], LanguageManager.mk language)) /\
  (language <> LanguageManager.PERSIAN ->
   language <> LanguageManager.ENGLISH ->
   ATMApp.handle_language language self = Raised KeyError /\
   LanguageSelectionPage.select_language language (ATMApp.lang self)
   = ([operation_completed language], ATMApp.lang self)).
Proof.
  unfold ATMApp.handle_language, ATMApp.create_pages,
    BalancePage.update_balance, LanguageSelectionPage.select_language,
    LanguageManager.set_language.
  cbn [ATMApp.lang ATMApp.bank]. split.
  - intros Hl.
    destruct (get_text_valid (Py.lit "your_balance")
                (LanguageManager.mk language) Hl) as [text ->].
    eexists. split; [reflexivity|].
    destruct Hl as [-> | ->]; reflexivity.
  - intros H1 H2.
    assert (Hnone : LanguageManager.get_text (Py.lit "your_balance")
                      (LanguageManager.mk language) = None).
    { unfold LanguageManager.get_text, LanguageManager._translations. simpl.
      pose proof H1 as H1'. pose proof H2 as H2'.
      apply not_eq_sym in H1', H2'. apply str_eq_false in H1', H2'.
      by rewrite H1', H2'. }
    rewrite Hnone. apply str_eq_false in H1, H2. by rewrite H1, H2.
Qed.

(** ** The limit on the number of digits *)

Lemma exceeds_limit_true (max_str_digits digits : nat) :
  Py.exceeds_limit max_str_digits digits = true <->
  640 < digits /\ 0 < max_str_digits < digits.
Proof.
  unfold Py.exceeds_limit, Py._PY_LONG_MAX_STR_DIGITS_THRESHOLD.
  rewrite !andb_true_iff, !Nat.ltb_lt. lia.
Qed.

Lemma exceeds_limit_off (digits : nat) : Py.exceeds_limit 0 digits = false.
Proof. unfold Py.exceeds_limit. simpl. by rewrite andb_false_r. Qed.

(** [int] under the limit rejects what [int] rejects and the texts of too
    many digits, and otherwise returns what [int] returns. *)
Lemma int_limit_None (max_str_digits : nat) (s : str) :
  Py.int_limit max_str_digits s = None <->
  Py.int s = None \/
  Py.exceeds_limit max_str_digits (Py.int_digits s) = true.
Proof.
  unfold Py.int_limit. destruct (Py.int s) as [n|].
  - destruct (Py.exceeds_limit _ _).
    + split; [by right|done].
    + split; [done|]. by intros [?|?].
  - split; [by left|done].
Qed.

Lemma int_limit_Some (max_str_digits : nat) (s : str) (n : Z) :
  Py.int_limit max_str_digits s = Some n <->
  Py.int s = Some n /\
  Py.exceeds_limit max_str_digits (Py.int_digits s) = false.
Proof.
  unfold Py.int_limit. destruct (Py.int s) as [m|].
  - destruct (Py.exceeds_limit _ _).
    + split; [done|]. by intros [_ ?].
    + split.
      * intros H. by injection H as ->.
      * intros [H _]. by injection H as ->.
  - split; [done|]. by intros [? _].
Qed.

(** *** [load_users] under the limit *)

Lemma parse_line_limit_Raise (max_str_digits : nat) (line : str) (e : exn) :
  parse_line_limit max_str_digits line = Raise e <->
  e = ValueError /\
  (length (Py.split Py.COMMA line) <> 3 \/
   exists card passwd bal,
     Py.split Py.COMMA line = [card; passwd; bal] /\
     Py.int_limit max_str_digits bal = None).
Proof.
  unfold parse_line_limit. split.
  - destruct (Py.split Py.COMMA line) as [|c [|p [|b [|x r]]]];
      try (intros [= <-]; split; [done|]; left; simpl; lia).
    destruct (Py.int_limit max_str_digits b) as [z|] eqn:E; [done|].
    intros [= <-]. split; [done|]. right. by exists c, p, b.
  - intros [-> [Hlen | (c & p & b & -> & ->)]]; [|done].
    destruct (Py.split Py.COMMA line) as [|c [|p [|b [|x r]]]]; done.
Qed.

Lemma parse_line_limit_Return (max_str_digits : nat) (line : str) (u : User) :
  parse_line_limit max_str_digits line = Return u <->
  parse_line line = Return u /\
  forall card passwd bal,
    Py.split Py.COMMA line = [card; passwd; bal] ->
    Py.exceeds_limit max_str_digits (Py.int_digits bal) = false.
Proof.
  unfold parse_line_limit, parse_line.
  destruct (Py.split Py.COMMA line) as [|c [|p [|b [|x r]]]];
    try (split; [done|by intros [? _]]).
  destruct (Py.int_limit max_str_digits b) as [z|] eqn:E.
  - apply int_limit_Some in E as [-> He]. split.
    + intros [= <-]. split; [done|]. by intros ? ? ? [= _ _ <-].
    + by intros [[= <-] _].
  - apply int_limit_None in E as [-> | He]; [split; [done|by intros [? _]]|].
    split; [done|]. intros [_ H]. rewrite (H c p b eq_refl) in He. done.
Qed.

Lemma load_loop_limit_Raise (max_str_digits : nat) (ls : list str)
      (acc : list User) (e : exn) :
  load_loop_limit max_str_digits ls acc = Raise e <->
  exists line, line ∈ ls /\ parse_line_limit max_str_digits line = Raise e.
Proof.
  revert acc. induction ls as [|line rest IH]; intros acc; simpl.
  - split; [done|]. intros (l & Hl & _). by apply elem_of_nil in Hl.
  - destruct (parse_line_limit max_str_digits line) as [u|e'] eqn:E.
    + rewrite IH. split.
      * intros (l & Hl & Hr). exists l. split; [by right|done].
      * intros (l & Hl & Hr). apply elem_of_cons in Hl as [->|Hl].
        -- rewrite E in Hr. done.
        -- by exists l.
    + split.
      * intros [= ->]. exists line. split; [by left|done].
      * intros (l & Hl & Hr).
        apply parse_line_limit_Raise in E as [-> _].
        apply parse_line_limit_Raise in Hr as [-> _]. done.
Qed.

Lemma load_loop_limit_Return (max_str_digits : nat) (ls : list str)
      (acc users : list User) :
  load_loop_limit max_str_digits ls acc = Return users <->
  exists us, users = acc ++ us /\
             Forall2 (fun line u => parse_line_limit max_str_digits line
                                    = Return u) ls us.
Proof.
  revert acc. induction ls as [|line rest IH]; intros acc; simpl.
  - split.
    + intros [= <-]. exists []. by rewrite app_nil_r.
    + intros (us & -> & H). apply Forall2_nil_inv_l in H as ->.
      by rewrite app_nil_r.
  - destruct (parse_line_limit max_str_digits line) as [u|e] eqn:E.
    + rewrite IH. split.
      * intros (us & -> & H). exists (u :: us).
        rewrite <- app_assoc. split; [done|]. by constructor.
      * intros (us & -> & H).
        apply Forall2_cons_inv_l in H as (u' & us' & Hu & H & ->).
        rewrite E in Hu. injection Hu as <-.
        exists us'. by rewrite <- app_assoc.
    + split; [done|]. intros (us & -> & H).
      apply Forall2_cons_inv_l in H as (u' & us' & Hu & _).
      rewrite E in Hu. done.
Qed.

(** C8, as the code has it. [load_users] raises [FileNotFoundError] exactly
    when the file does not exist. On a file that exists it raises
    [ValueError] exactly when some line does not split on the comma into
    exactly three fields, or has a third field that is not an integer for
    [int], or has a third field of more digits than the limit of the
    interpreter allows (more than 640 and more than the setting, when the
    setting is not 0); it raises nothing else. Otherwise it returns one user
    per line; a call that raises returns no list at all. *)
Theorem load_users_limit_errors (max_str_digits : nat) (fs : filesystem)
        (file_name : str) :
  (load_users_limit max_str_digits fs file_name = Raise FileNotFoundError <->
   fs !! file_name = None) /\
  (forall text,
      fs !! file_name = Some text ->
      (load_users_limit max_str_digits fs file_name = Raise ValueError <->
       exists line,
         line ∈ Py.lines (Py.universal_newlines text) /\
         (length (Py.split Py.COMMA line) <> 3 \/
          exists card passwd bal,
            Py.split Py.COMMA line = [card; passwd; bal] /\
            (Py.int bal = None \/
             640 < Py.int_digits bal /\
             0 < max_str_digits < Py.int_digits bal))) /\
      (load_users_limit max_str_digits fs file_name = Raise ValueError \/
       exists users,
         load_users_limit max_str_digits fs file_name = Return users /\
         length users = length (Py.lines (Py.universal_newlines text)))).
Proof.
  unfold load_users_limit. split.
  - destruct (fs !! file_name) as [text|] eqn:E; [|done].
    split; [|done]. intros H.
    apply load_loop_limit_Raise in H as (l & _ & H).
    apply parse_line_limit_Raise in H as [H _]. done.
  - intros text ->. split.
    + rewrite load_loop_limit_Raise. split.
      * intros (l & Hl & H). exists l. split; [done|].
        apply parse_line_limit_Raise in H as [_ [H | (c & p & b & Hs & H)]];
          [by left|]. right. exists c, p, b. split; [done|].
        apply int_limit_None in H as [H|H]; [by left|].
        right. by apply exceeds_limit_true.
      * intros (l & Hl & H). exists l. split; [done|].
        apply parse_line_limit_Raise. split; [done|].
        destruct H as [H | (c & p & b & Hs & H)]; [by left|].
        right. exists c, p, b. split; [done|].
        apply int_limit_None. destruct H as [H|H]; [by left|].
        right. by apply exceeds_limit_true.
    + destruct (load_loop_limit max_str_digits
                  (Py.lines (Py.universal_newlines text)) [])
        as [users|e] eqn:E.
      * right. exists users. split; [done|].
        apply load_loop_limit_Return in E as (us & -> & H). simpl.
        symmetry. by eapply Forall2_length.
      * left. apply load_loop_limit_Raise in E as (l & _ & H).
        apply parse_line_limit_Raise in H as [-> _]. done.
Qed.

Lemma third_field (a b c a' b' c' : str) :
  [a; b; c] = [a'; b'; c'] -> c = c'.
Proof. by intros [= _ _ ->]. Qed.

Lemma long_balance_lines :
  Py.lines (Py.universal_newlines long_balance_file) = [long_balance_file].
Proof. vm_compute. reflexivity. Qed.

Lemma long_balance_split :
  Py.split Py.COMMA long_balance_file
  = [Py.lit "1111"; Py.lit "pass1"; long_balance ++ [Py.LF]].
Proof. vm_compute. reflexivity. Qed.

Lemma long_balance_int : Py.int (long_balance ++ [Py.LF]) <> None.
Proof. vm_compute. discriminate. Qed.

Lemma long_balance_digits :
  Py.exceeds_limit Py.default_max_str_digits
                   (Py.int_digits (long_balance ++ [Py.LF])) = true.
Proof. vm_compute. reflexivity. Qed.

(** C8, as stated, fails on a balance of 4301 digits under the limit the
    interpreter starts with: the one line of [long_balance_file] has three
    fields and its third field is an integer for [int], and [load_users]
    raises [ValueError]. *)
Lemma load_users_long_balance_counterexample :
  ~ (load_users_limit Py.default_max_str_digits
                      {[ users_csv := long_balance_file ]} users_csv
     = Raise ValueError <->
     exists line,
       line ∈ Py.lines (Py.universal_newlines long_balance_file) /\
       (length (Py.split Py.COMMA line) <> 3 \/
        exists card passwd bal,
          Py.split Py.COMMA line = [card; passwd; bal] /\
          Py.int bal = None)).
Proof.
  intros [H _].
  assert (Hload : load_users_limit Py.default_max_str_digits
                    {[ users_csv := long_balance_file ]} users_csv
                  = Raise ValueError).
  { unfold load_users_limit. rewrite lookup_singleton_eq.
    apply load_loop_limit_Raise. exists long_balance_file.
    rewrite long_balance_lines. split; [apply list_elem_of_here|].
    apply parse_line_limit_Raise. split; [reflexivity|]. right.
    exists (Py.lit "1111"), (Py.lit "pass1"), (long_balance ++ [Py.LF]).
    split; [apply long_balance_split|].
    apply int_limit_None. right. apply long_balance_digits. }
  destruct (H Hload) as (line & Hin & Hbad).
  rewrite long_balance_lines in Hin.
  apply list_elem_of_singleton in Hin. subst line.
  rewrite long_balance_split in Hbad.
  destruct Hbad as [Hlen | (c & p & b & Hs & Hint)].
  - apply Hlen. reflexivity.
  - apply third_field in Hs. subst b. exact (long_balance_int Hint).
Qed.
(** *** The number of digits of an integer *)

Lemma of_uint_acc_bounds (u : Decimal.uint) (q : positive) :
  (Z.pos q * 10 ^ Z.of_nat (length (Py.uint_digits u))
   <= Z.pos (Pos.of_uint_acc u q)
   < (Z.pos q + 1) * 10 ^ Z.of_nat (length (Py.uint_digits u)))%Z.
Proof.
  revert q.
  induction u as [|u IH|u IH|u IH|u IH|u IH|u IH|u IH|u IH|u IH|u IH];
    intros q; [simpl; lia|..];
    cbn [Py.uint_digits length Pos.of_uint_acc];
    rewrite Nat2Z.inj_succ, Z.pow_succ_r by lia;
    match goal with
    | |- context [Pos.of_uint_acc u ?q'] => specialize (IH q')
    end;
    assert (0 < 10 ^ Z.of_nat (length (Py.uint_digits u)))%Z
      by (apply Z.pow_pos_nonneg; lia);
    nia.
Qed.

Lemma of_uint_upper (u : Decimal.uint) :
  (Z.of_N (Pos.of_uint u) < 10 ^ Z.of_nat (length (Py.uint_digits u)))%Z.
Proof.
  induction u as [|u IH|u|u|u|u|u|u|u|u|u];
    cbn [Py.uint_digits length Pos.of_uint]; [simpl; lia|..];
    rewrite Nat2Z.inj_succ, Z.pow_succ_r by lia;
    assert (0 < 10 ^ Z.of_nat (length (Py.uint_digits u)))%Z
      by (apply Z.pow_pos_nonneg; lia);
    [lia|..];
    match goal with
    | |- context [Pos.of_uint_acc u ?q'] =>
        pose proof (of_uint_acc_bounds u q')
    end;
    cbn [Z.of_N]; nia.
Qed.

Lemma to_uint_head (p : positive) (u : Decimal.uint) :
  Pos.to_uint p <> D0 u.
Proof.
  intros H.
  pose proof (Unsigned.to_of (Pos.to_uint p)) as Hn.
  rewrite Unsigned.of_to in Hn. change (N.to_uint (N.pos p)) with (Pos.to_uint p) in Hn.
  unfold unorm in Hn.
  destruct (nzhead (Pos.to_uint p)) eqn:E;
    try (rewrite H in Hn; rewrite <- Hn in E; by apply DecimalFacts.nzhead_nonzero in E).
  by apply (Unsigned.to_uint_nonzero p).
Qed.

(** An integer of [n] digits lies between the powers of ten. *)
Lemma digits_pos_bounds (p : positive) :
  (1 <= length (Py.uint_digits (Pos.to_uint p)))%nat /\
  (10 ^ (Z.of_nat (length (Py.uint_digits (Pos.to_uint p))) - 1)
   <= Z.pos p
   < 10 ^ Z.of_nat (length (Py.uint_digits (Pos.to_uint p))))%Z.
Proof.
  pose proof (Unsigned.of_to p) as Hp.
  pose proof (of_uint_upper (Pos.to_uint p)) as Hup.
  pose proof (to_uint_head p) as Hhead.
  pose proof (Unsigned.to_uint_nonnil p) as Hnil.
  rewrite Hp in Hup. cbn [Z.of_N] in Hup.
  destruct (Pos.to_uint p) as [|u|u|u|u|u|u|u|u|u|u] eqn:E;
    [done|by destruct (Hhead u)|..];
    (split; [simpl; lia|]); (split; [|exact Hup]);
    cbn [Py.uint_digits length Pos.of_uint] in Hp |- *;
    injection Hp as Hp;
    match type of Hp with
    | Pos.of_uint_acc u ?q' = _ => pose proof (of_uint_acc_bounds u q') as Hb
    end;
    rewrite Hp in Hb;
    replace (Z.of_nat (S (length (Py.uint_digits u))) - 1)%Z
      with (Z.of_nat (length (Py.uint_digits u))) by lia;
    assert (0 < 10 ^ Z.of_nat (length (Py.uint_digits u)))%Z
      by (apply Z.pow_pos_nonneg; lia);
    nia.
Qed.

Lemma digits_of_int_pos (p : positive) :
  Py.digits_of_int (Z.pos p) = length (Py.uint_digits (Pos.to_uint p)) /\
  Py.digits_of_int (Z.neg p) = length (Py.uint_digits (Pos.to_uint p)).
Proof. done. Qed.

Lemma digits_of_int_opp (n : Z) :
  Py.digits_of_int (- n) = Py.digits_of_int n.
Proof. by destruct n. Qed.

Lemma digits_of_int_positive (n : Z) : (1 <= Py.digits_of_int n)%nat.
Proof.
  destruct n as [|p|p]; [vm_compute; lia|..];
    rewrite (proj1 (digits_of_int_pos p)) || rewrite (proj2 (digits_of_int_pos p));
    apply digits_pos_bounds.
Qed.

(** An integer below the [k]th power of ten has at most [k] digits. *)
Lemma digits_of_int_bound (n : Z) (k : nat) :
  (1 <= k)%nat -> (Z.abs n < 10 ^ Z.of_nat k)%Z ->
  (Py.digits_of_int n <= k)%nat.
Proof.
  intros Hk Hn.
  assert (H : forall p, (Z.pos p < 10 ^ Z.of_nat k)%Z ->
                        (length (Py.uint_digits (Pos.to_uint p)) <= k)%nat).
  { intros p Hp. destruct (digits_pos_bounds p) as [H1 [H2 _]].
    assert (Hlt : (10 ^ (Z.of_nat (length (Py.uint_digits (Pos.to_uint p))) - 1)
                   < 10 ^ Z.of_nat k)%Z) by lia.
    apply Z.pow_lt_mono_r_iff in Hlt; lia. }
  destruct n as [|p|p]; [vm_compute; lia|..]; apply H; exact Hn.
Qed.

(** A smaller integer has no more digits. *)
Lemma digits_of_int_mono (a b : Z) :
  (Z.abs a <= Z.abs b)%Z -> (Py.digits_of_int a <= Py.digits_of_int b)%nat.
Proof.
  intros Hab.
  destruct (Z.eq_dec b 0%Z) as [->|Hb].
  { assert (a = 0%Z) as -> by lia. done. }
  apply digits_of_int_bound; [apply digits_of_int_positive|].
  assert (H : forall p, (Z.pos p < 10 ^ Z.of_nat (length (Py.uint_digits (Pos.to_uint p))))%Z)
    by (intros p; apply digits_pos_bounds).
  destruct b as [|p|p]; [done|..].
  - rewrite (proj1 (digits_of_int_pos p)). specialize (H p). lia.
  - rewrite (proj2 (digits_of_int_pos p)). specialize (H p). lia.
Qed.

(** *** The digits [int] counts *)

Lemma digit_value (c : codepoint) :
  Py.Py_ISDIGIT c = true -> (0 <= Z.of_N (c - Py.ZERO) <= 9)%Z.
Proof. intros H. apply digit_bounds in H. unfold Py.ZERO. lia. Qed.

(** The value of the scan is below the power of ten of the digits it
    counted. *)
Lemma scan_digits_bound (s : str) (prev : bool) (acc : Z) (k : nat)
      (z : Z) (rest : str) :
  Py.scan_digits prev acc s = Some (z, rest) ->
  (0 <= acc < 10 ^ Z.of_nat k)%Z ->
  (0 <= z < 10 ^ Z.of_nat (k + Py.run_digits s))%Z.
Proof.
  revert prev acc k.
  induction s as [|c r IH]; intros prev acc k; cbn [Py.scan_digits Py.run_digits].
  - destruct prev; [done|]. intros [= <- <-]. by rewrite Nat.add_0_r.
  - destruct (Py.Py_ISDIGIT c) eqn:Hd.
    + intros H Hacc. apply digit_value in Hd.
      replace (k + S (Py.run_digits r))%nat with (S k + Py.run_digits r)%nat
        by lia.
      apply (IH _ _ _ H).
      rewrite Nat2Z.inj_succ, Z.pow_succ_r by lia. lia.
    + destruct (c =? Py.UNDERSCORE)%N.
      * destruct prev; [done|]. intros H Hacc. by apply (IH _ _ _ H).
      * destruct prev; [done|]. intros [= <- <-]. by rewrite Nat.add_0_r.
Qed.

(** The integer [int] returns has no more digits than [int] counted in its
    text. *)
Lemma int_digits_bound (s : str) (z : Z) :
  Py.int s = Some z -> (Py.digits_of_int z <= Py.int_digits s)%nat.
Proof.
  unfold Py.int, Py.long_from_string, Py.int_digits.
  set (s1 := Py.skip_spaces (map Py.transform_char s)).
  assert (H : forall negative s2,
    match s2 with
    | c :: _ =>
        if Py.Py_ISDIGIT c then
          match Py.scan_digits false 0 s2 with
          | Some (n, rest) =>
              match Py.skip_spaces rest with
              | [] => Some (if negative : bool then - n else n)%Z
              | _ :: _ => None
              end
          | None => None
          end
        else None
    | [] => None
    end = Some z ->
    (Py.digits_of_int z <= Py.run_digits s2)%nat).
  { intros negative s2 H. destruct s2 as [|c r]; [done|].
    destruct (Py.Py_ISDIGIT c) eqn:Hd; [|done].
    destruct (Py.scan_digits false 0 (c :: r)) as [[n rest]|] eqn:Hs; [|done].
    destruct (Py.skip_spaces rest); [|done]. injection H as <-.
    apply (scan_digits_bound _ _ _ 0) in Hs; [|simpl; lia].
    rewrite Nat.add_0_l in Hs.
    assert (Hn : (Py.digits_of_int n <= Py.run_digits (c :: r))%nat).
    { apply digits_of_int_bound; [|lia].
      cbn [Py.run_digits]. rewrite Hd. lia. }
    destruct negative; [by rewrite digits_of_int_opp|done]. }
  destruct s1 as [|c r]; [done|].
  destruct (c =? Py.MINUS)%N; [exact (H true r)|].
  destruct (c =? Py.PLUS)%N; [exact (H false r)|exact (H false (c :: r))].
Qed.

Lemma exceeds_limit_mono (max_str_digits d d' : nat) :
  (d <= d')%nat ->
  Py.exceeds_limit max_str_digits d' = false ->
  Py.exceeds_limit max_str_digits d = false.
Proof.
  intros Hd H. apply not_true_iff_false. apply not_true_iff_false in H.
  rewrite exceeds_limit_true in *. lia.
Qed.

(** What [int] returned under the limit, [str] and [{...:,}] write under
    the same limit. *)
Lemma int_limit_writable (max_str_digits : nat) (s : str) (n : Z) :
  Py.int_limit max_str_digits s = Some n ->
  Py.exceeds_limit max_str_digits (Py.digits_of_int n) = false.
Proof.
  intros H. apply int_limit_Some in H as [Hi He].
  apply (exceeds_limit_mono _ _ _ (int_digits_bound _ _ Hi) He).
Qed.

Lemma run_digits_uint (u : Decimal.uint) (rest : str) :
  scan_stop rest ->
  Py.run_digits (Py.uint_digits u ++ rest) = length (Py.uint_digits u).
Proof.
  intros Hstop. induction u; cbn [Py.uint_digits app length Py.run_digits];
    try (change (Py.Py_ISDIGIT _) with true; cbv iota; by rewrite IHu).
  destruct rest as [|c r]; [done|]. destruct Hstop as [H1 H2].
  cbn [Py.run_digits]. by rewrite H1, H2.
Qed.

(** [int] counts in the text of [str(n)] the digits of [n]. *)
Lemma int_digits_str_of_int (n : Z) (rest : str) :
  scan_stop rest -> Forall (fun c => (c < 127)%N) rest ->
  Py.int_digits (Py.str_of_int n ++ rest) = Py.digits_of_int n.
Proof.
  intros Hstop Hascii. unfold Py.int_digits.
  rewrite map_transform_ascii
    by (apply Forall_app; split; [apply str_of_int_ascii|done]).
  assert (H : forall u, u <> Nil ->
    Py.skip_spaces (Py.uint_digits u ++ rest) = Py.uint_digits u ++ rest /\
    exists d r, Py.uint_digits u = d :: r /\ (d =? Py.MINUS)%N = false /\
                (d =? Py.PLUS)%N = false).
  { intros u Hu. pose proof (uint_digits_digit u) as Hall.
    destruct (Py.uint_digits u) as [|d r] eqn:E; [by destruct u|].
    apply Forall_cons in Hall as [Hd _].
    pose proof (proj1 (digit_bounds d) Hd) as Hb. split.
    - cbn [app Py.skip_spaces].
      assert (Hsp : Py.Py_ISSPACE d = false).
      { unfold Py.Py_ISSPACE, Py.SPACE. apply orb_false_iff. split.
        - apply andb_false_iff. right. apply N.leb_gt. lia.
        - apply N.eqb_neq. lia. }
      by rewrite Hsp.
    - exists d, r. split; [done|].
      split; apply N.eqb_neq; unfold Py.MINUS, Py.PLUS; lia. }
  assert (Hp : forall p (u := Pos.to_uint p),
    match Py.skip_spaces (Py.uint_digits u ++ rest) with
    | c :: r => if (c =? Py.MINUS)%N then Py.run_digits r
                else if (c =? Py.PLUS)%N then Py.run_digits r
                else Py.run_digits (c :: r)
    | [] => 0%nat
    end = length (Py.uint_digits u)).
  { intros p u. destruct (H u (Unsigned.to_uint_nonnil p))
      as (-> & d & r & E & Hm & Hpl).
    rewrite <- (run_digits_uint u rest Hstop). rewrite E.
    cbn [app]. by rewrite Hm, Hpl. }
  unfold Py.str_of_int, Py.digits_of_int. destruct n as [|p|p].
  - change (Z.to_int 0) with (Decimal.Pos (D0 Nil)).
    exact (run_digits_uint (D0 Nil) rest Hstop).
  - exact (Hp p).
  - cbn [Z.to_int Z.opp Pos.to_int]. 
    change (Py.skip_spaces ((Py.MINUS :: Py.uint_digits (Pos.to_uint p)) ++ rest))
      with (Py.MINUS :: Py.uint_digits (Pos.to_uint p) ++ rest).
    exact (run_digits_uint (Pos.to_uint p) rest Hstop).
Qed.

(** *** The conversions under the limit *)

Lemma int_limit_off (s : str) : Py.int_limit 0 s = Py.int s.
Proof.
  unfold Py.int_limit. rewrite exceeds_limit_off. by destruct (Py.int s).
Qed.

Lemma str_limit_Some (max_str_digits : nat) (n : Z) (t : str) :
  Py.str_limit max_str_digits n = Some t <->
  t = Py.str_of_int n /\
  Py.exceeds_limit max_str_digits (Py.digits_of_int n) = false.
Proof.
  unfold Py.str_limit. destruct (Py.exceeds_limit _ _).
  - split; [done|]. by intros [_ ?].
  - split.
    + intros H. by injection H as <-.
    + by intros [-> _].
Qed.

Lemma format_comma_limit_Some (max_str_digits : nat) (n : Z) (t : str) :
  Py.format_comma_limit max_str_digits n = Some t <->
  t = Py.format_comma n /\
  Py.exceeds_limit max_str_digits (Py.digits_of_int n) = false.
Proof.
  unfold Py.format_comma_limit. destruct (Py.exceeds_limit _ _).
  - split; [done|]. by intros [_ ?].
  - split.
    + intros H. by injection H as <-.
    + by intros [-> _].
Qed.

Lemma format_comma_limit_None (max_str_digits : nat) (n : Z) :
  Py.format_comma_limit max_str_digits n = None <->
  Py.exceeds_limit max_str_digits (Py.digits_of_int n) = true.
Proof.
  unfold Py.format_comma_limit. by destruct (Py.exceeds_limit _ _).
Qed.

(** Under the limit [int] reads the text of [str(n)] exactly when [str]
    writes [n] under it. *)
Lemma int_limit_str_of_int (max_str_digits : nat) (n : Z) (rest : str) :
  rest = [] \/ rest = [Py.LF] ->
  Py.exceeds_limit max_str_digits (Py.digits_of_int n) = false ->
  Py.int_limit max_str_digits (Py.str_of_int n ++ rest) = Some n.
Proof.
  intros Hrest He. apply int_limit_Some. split.
  - destruct Hrest as [-> | ->].
    + rewrite app_nil_r. apply int_str_bare.
    + apply int_str_of_int.
  - rewrite int_digits_str_of_int; [done|..].
    + by destruct Hrest as [-> | ->].
    + destruct Hrest as [-> | ->]; [done|]. by repeat constructor.
Qed.

(** [str(n)] raises exactly when [n] has more digits than the limit allows:
    more than 640 and more than the setting, when the setting is not 0. What
    [str] writes for an integer under the limit, [int] reads back as that
    integer under the same limit, with or without the end of the line after
    it, as it is in the balance field that [load_users] reads back. And what
    [int] returned under the limit, as [load_users] does for a balance and
    the transfer page for an amount, [str] writes under the same limit. *)
Theorem int_of_str_limit (max_str_digits : nat) (n : Z) :
  (Py.str_limit max_str_digits n = None <->
   640 < Py.digits_of_int n /\ 0 < max_str_digits < Py.digits_of_int n) /\
  (forall t,
      Py.str_limit max_str_digits n = Some t ->
      Py.int_limit max_str_digits t = Some n /\
      Py.int_limit max_str_digits (t ++ [Py.LF]) = Some n) /\
  (forall s,
      Py.int_limit max_str_digits s = Some n ->
      Py.str_limit max_str_digits n = Some (Py.str_of_int n)) /\
  Py.str_limit 0 n = Some (Py.str_of_int n).
Proof.
  split; [|split; [|split]].
  - rewrite <- exceeds_limit_true. unfold Py.str_limit.
    by destruct (Py.exceeds_limit _ _).
  - intros t Ht. apply str_limit_Some in Ht as [-> He]. split.
    + rewrite <- (app_nil_r (Py.str_of_int n)).
      apply int_limit_str_of_int; [by left|done].
    + apply int_limit_str_of_int; [by right|done].
  - intros s Hs. apply str_limit_Some. split; [done|].
    by apply (int_limit_writable _ s).
  - unfold Py.str_limit. by rewrite exceeds_limit_off.
Qed.

(** [{n:,}] raises exactly when [n] has more digits than the limit allows.
    Taking the commas out of the text it makes of [n] under the limit gives
    the text of [str(n)], which [int] reads back as [n] under the same
    limit: this is how the withdraw page reads a label. The four labels of
    the page are such texts, and they are made under every setting of the
    limit. *)
Theorem format_comma_parse (max_str_digits : nat) (n : Z) :
  (Py.format_comma_limit max_str_digits n = None <->
   640 < Py.digits_of_int n /\ 0 < max_str_digits < Py.digits_of_int n) /\
  (forall t,
      Py.format_comma_limit max_str_digits n = Some t ->
      Py.replace Py.COMMA [] t = Py.str_of_int n /\
      Py.int_limit max_str_digits (Py.replace Py.COMMA [] t) = Some n) /\
  WithdrawPage.amounts
  = map Py.format_comma [500000; 1000000; 1500000; 2000000]%Z /\
  map (Py.format_comma_limit max_str_digits)
      [500000; 1000000; 1500000; 2000000]%Z
  = map Some WithdrawPage.amounts.
Proof.
  split; [|split; [|split]].
  - rewrite <- exceeds_limit_true. apply format_comma_limit_None.
  - intros t Ht. apply format_comma_limit_Some in Ht as [-> He].
    rewrite format_comma_replace. split; [done|].
    rewrite <- (app_nil_r (Py.str_of_int n)).
    apply int_limit_str_of_int; [by left|done].
  - vm_compute. reflexivity.
  - assert (H : forall m, (Py.digits_of_int m <= 640)%nat ->
                Py.format_comma_limit max_str_digits m
                = Some (Py.format_comma m)).
    { intros m Hm. apply format_comma_limit_Some. split; [done|].
      apply not_true_iff_false. rewrite exceeds_limit_true. lia. }
    cbn [map]. rewrite !H by (vm_compute; lia). vm_compute. reflexivity.
Qed.

(** *** [load_users] under the limit and with the limit off *)

Lemma load_users_limit_off (fs : filesystem) (file_name : str) :
  load_users_limit 0 fs file_name = load_users fs file_name.
Proof.
  unfold load_users_limit, load_users. destruct (fs !! file_name) as [text|];
    [|done].
  generalize (@nil User) as acc.
  induction (Py.lines (Py.universal_newlines text)) as [|line rest IH];
    intros acc; [done|]. cbn [load_loop_limit load_loop].
  assert (H : parse_line_limit 0 line = parse_line line).
  { unfold parse_line_limit, parse_line.
    destruct (Py.split Py.COMMA line) as [|c [|p [|b [|x r]]]]; try done.
    by rewrite int_limit_off. }
  rewrite H. destruct (parse_line line); [apply IH|done].
Qed.

(** What [load_users] returns under a limit it returns with the limit off,
    and every balance it returns [str] writes under the same limit. *)
Lemma load_users_limit_Return (max_str_digits : nat) (fs : filesystem)
      (file_name : str) (users : list User) :
  load_users_limit max_str_digits fs file_name = Return users ->
  load_users fs file_name = Return users /\
  Forall (fun u => Py.exceeds_limit max_str_digits
                     (Py.digits_of_int (balance u)) = false) users.
Proof.
  unfold load_users_limit, load_users. destruct (fs !! file_name) as [text|];
    [|done].
  intros H. apply load_loop_limit_Return in H as (us & -> & H).
  cbn [app]. split.
  - apply load_loop_Return. exists us. split; [done|].
    eapply Forall2_impl; [exact H|]. intros line u Hu.
    by apply parse_line_limit_Return in Hu as [Hu _].
  - clear -H. induction H as [|line u ls us Hu _ IH]; constructor; [|done].
    unfold parse_line_limit in Hu.
    destruct (Py.split Py.COMMA line) as [|c [|p [|b [|x r]]]]; try done.
    destruct (Py.int_limit max_str_digits b) as [z|] eqn:E; [|done].
    injection Hu as <-. by apply (int_limit_writable _ b).
Qed.

(** *** The transfer page *)

(** With one of the two languages set, the transfer page raises nothing,
    whatever the two input fields hold and whatever the limit on the number
    of digits [max_str_digits] is, and what it shows is decided as follows.
    The amount field is read by [int]: if that fails, because the text is
    not an integer or has more digits than the limit allows, or if the
    amount is not positive, the text of [invalid_amount] is shown; otherwise,
    if the card field does not pass [isdigit], [invalid_card]; otherwise, if
    no session is bound or the balance is less than the amount,
    [insufficient_balance]. In these cases the bank and the input fields are
    as before. In the remaining case the amount is taken from the session's
    account. If the new balance can be written under the limit, as it can
    when the balance before could, both fields are cleared and the message
    emitted states the amount, the card and the new balance. If it cannot,
    the text of [invalid_amount] is shown and the fields are as before,
    although the amount was taken. *)
Theorem transfer_page_spec (max_str_digits : nat) (self : TransferPage.t)
        (lang : LanguageManager.t) (bank : BankService) :
  LanguageManager.current_language lang = LanguageManager.PERSIAN \/
  LanguageManager.current_language lang = LanguageManager.ENGLISH ->
  let shows key bank' :=
    exists text,
      LanguageManager.get_text key lang = Some text /\
      TransferPage.process_transfer max_str_digits self lang bank
      = Done ([show_message (Py.lit "Error") text], self, bank') in
  (Py.int (TransferPage.amount_input self) = None \/
   (640 < Py.int_digits (TransferPage.amount_input self) /\
    0 < max_str_digits < Py.int_digits (TransferPage.amount_input self)) ->
   shows (Py.lit "invalid_amount") bank) /\
  (forall amount,
      Py.int (TransferPage.amount_input self) = Some amount ->
      ~ (640 < Py.int_digits (TransferPage.amount_input self) /\
         0 < max_str_digits < Py.int_digits (TransferPage.amount_input self)) ->
      ((amount <= 0)%Z -> shows (Py.lit "invalid_amount") bank) /\
      ((0 < amount)%Z -> Py.isdigit (TransferPage.card_input self) = false ->
       shows (Py.lit "invalid_card") bank) /\
      ((0 < amount)%Z -> Py.isdigit (TransferPage.card_input self) = true ->
       (forall user, current_user bank = Some user ->
                     (balance user < amount)%Z) ->
       shows (Py.lit "insufficient_balance") bank) /\
      (forall user,
          (0 < amount)%Z -> Py.isdigit (TransferPage.card_input self) = true ->
          current_user bank = Some user -> (amount <= balance user)%Z ->
          (Py.exceeds_limit max_str_digits
             (Py.digits_of_int (balance user - amount)) = false ->
           TransferPage.process_transfer max_str_digits self lang bank
           = Done ([operation_completed
                      (TransferPage.message lang (Py.format_comma amount)
                         (TransferPage.card_input self)
                         (Py.format_comma (balance user - amount)))],
                   TransferPage.mk [] [],
                   snd (withdraw amount bank))) /\
          (Py.exceeds_limit max_str_digits
             (Py.digits_of_int (balance user - amount)) = true ->
           shows (Py.lit "invalid_amount") (snd (withdraw amount bank))) /\
          (Py.exceeds_limit max_str_digits
             (Py.digits_of_int (balance user)) = false ->
           Py.exceeds_limit max_str_digits
             (Py.digits_of_int (balance user - amount)) = false))).
Proof.
  intros Hlang shows. subst shows. cbv beta.
  assert (Hshow : forall key, exists text,
    LanguageManager.get_text key lang = Some text /\
    show_error key lang = Done [show_message (Py.lit "Error") text]).
  { intros key. by apply show_error_valid. }
  split.
  - intros Hint.
    assert (Hnone : Py.int_limit max_str_digits (TransferPage.amount_input self)
                    = None).
    { apply int_limit_None. destruct Hint as [H|H]; [by left|].
      right. by apply exceeds_limit_true. }
    unfold TransferPage.process_transfer. rewrite Hnone.
    destruct (Hshow (Py.lit "invalid_amount")) as (text & Ht & ->).
    by exists text.
  - intros amount Hint0 Hlim.
    assert (Hint : Py.int_limit max_str_digits (TransferPage.amount_input self)
                   = Some amount).
    { apply int_limit_Some. split; [done|].
      apply not_true_iff_false. by rewrite exceeds_limit_true. }
    assert (Hfail : forall key,
      transfer amount (TransferPage.card_input self) bank = (false, bank) ->
      (if (amount <=? 0)%Z then Py.lit "invalid_amount"
       else if negb (Py.isdigit (TransferPage.card_input self))
            then Py.lit "invalid_card"
            else Py.lit "insufficient_balance") = key ->
      exists text,
        LanguageManager.get_text key lang = Some text /\
        TransferPage.process_transfer max_str_digits self lang bank
        = Done ([show_message (Py.lit "Error") text], self, bank)).
    { intros key Hf Hkey. unfold TransferPage.process_transfer.
      rewrite Hint, Hf. cbv iota beta zeta. rewrite Hkey.
      destruct (Hshow key) as (text & Ht & ->). by exists text. }
    split; [|split; [|split]].
    + intros Ha. apply Hfail.
      * unfold transfer. destruct (current_user bank); [|done].
        assert (H : (amount <=? 0)%Z = true) by lia. by rewrite H.
      * assert (H : (amount <=? 0)%Z = true) by lia. by rewrite H.
    + intros Ha Hd. apply Hfail.
      * unfold transfer. destruct (current_user bank); [|done].
        rewrite Hd. by rewrite orb_true_r.
      * assert (H : (amount <=? 0)%Z = false) by lia. by rewrite H, Hd.
    + intros Ha Hd Hb. apply Hfail.
      * unfold transfer. destruct (current_user bank) as [u|] eqn:Hu; [|done].
        specialize (Hb u eq_refl).
        assert (H : (balance u <? amount)%Z = true) by lia.
        rewrite H. by rewrite !orb_true_r.
      * assert (H : (amount <=? 0)%Z = false) by lia. by rewrite H, Hd.
    + intros user Ha Hd Hu Hle.
      assert (Ht : transfer amount (TransferPage.card_input self) bank
                   = (true, update_current_user (debit amount) bank)).
      { destruct (transfer_cases amount (TransferPage.card_input self) bank)
          as [H | (u & _ & _ & _ & H)]; [|done].
        assert (Hs : fst (transfer amount (TransferPage.card_input self) bank)
                     = true) by (by apply (transfer_true _ _ _ _ Hu)).
        rewrite H in Hs. done. }
      assert (Hw : withdraw amount bank
                   = (true, update_current_user (debit amount) bank)).
      { destruct (withdraw_cases amount bank) as [H | (u & _ & _ & H)]; [|done].
        assert (Hs : fst (withdraw amount bank) = true)
          by (by apply (withdraw_true _ _ _ Hu)).
        rewrite H in Hs. done. }
      assert (Hbal : get_balance (update_current_user (debit amount) bank)
                     = (balance user - amount)%Z).
      { unfold get_balance. by rewrite (update_current_user_obj _ _ _ Hu). }
      assert (Hamount : Py.format_comma_limit max_str_digits amount
                        = Some (Py.format_comma amount)).
      { apply format_comma_limit_Some. split; [done|].
        by apply (int_limit_writable _ (TransferPage.amount_input self)). }
      unfold TransferPage.process_transfer.
      rewrite Hint, Ht, Hw. cbv iota beta zeta. rewrite Hamount, Hbal.
      cbn [snd]. split; [|split].
      * intros He.
        assert (Hnew : Py.format_comma_limit max_str_digits
                         (balance user - amount)
                       = Some (Py.format_comma (balance user - amount)))
          by (by apply format_comma_limit_Some).
        by rewrite Hnew.
      * intros He. apply format_comma_limit_None in He. rewrite He.
        destruct (Hshow (Py.lit "invalid_amount")) as (text & Htext & ->).
        by exists text.
      * apply exceeds_limit_mono. apply digits_of_int_mono. lia.
Qed.

Lemma transfer_page_spec_witness :
  exists text,
    LanguageManager.get_text (Py.lit "invalid_amount") LanguageManager.__init__
    = Some text /\
    TransferPage.process_transfer Py.default_max_str_digits
      (TransferPage.mk long_balance (Py.lit "1234"))
      LanguageManager.__init__ scenario_session
    = Done ([show_message (Py.lit "Error") text],
            TransferPage.mk long_balance (Py.lit "1234"),
            scenario_session).
Proof.
  refine (proj1 (transfer_page_spec Py.default_max_str_digits
                   (TransferPage.mk long_balance (Py.lit "1234"))
                   LanguageManager.__init__ scenario_session _) _).
  - left. reflexivity.
  - right. vm_compute. lia.
Defined.

(** *** The balances the program holds *)

Lemma run_keeps_writable (max_str_digits : nat) (c : call)
      (self : BankService) :
  Forall (fun v => Py.exceeds_limit max_str_digits
                     (Py.digits_of_int (balance v)) = false) (_users self) ->
  Forall (fun v => Py.exceeds_limit max_str_digits
                     (Py.digits_of_int (balance v)) = false)
         (_users (snd (run c self))).
Proof.
  intros Hall.
  assert (Hdebit : forall a u,
    current_user self = Some u -> (0 < a <= balance u)%Z ->
    Forall (fun v => Py.exceeds_limit max_str_digits
                       (Py.digits_of_int (balance v)) = false)
           (_users (update_current_user (debit a) self))).
  { intros a u Hu Ha. apply current_user_Some in Hu as (i & Hi & Hu).
    unfold update_current_user. rewrite Hi. simpl.
    apply Forall_alter; [done|].
    intros x Hx Hw. simpl. rewrite Hu in Hx. injection Hx as <-.
    assert (Hle : (Z.abs (balance u - a) <= Z.abs (balance u))%Z) by lia.
    exact (exceeds_limit_mono _ _ _ (digits_of_int_mono _ _ Hle) Hw). }
  destruct c as [p | cur new | a | a card |]; simpl.
  - unfold authenticate.
    destruct (first_match p (_users self) 0) as [[i u]|]; done.
  - destruct (change_password_cases cur new self) as [H | (u & _ & _ & H)];
      rewrite H; simpl; [done|].
    unfold update_current_user. destruct (_current_user self); [|done].
    simpl. apply Forall_alter; [done|]. by intros x _ Hx.
  - destruct (withdraw_cases a self) as [H | (u & Hu & Ha & H)];
      rewrite H; simpl; [done|]. by apply (Hdebit a u).
  - destruct (transfer_cases a card self) as [H | (u & Hu & Ha & _ & H)];
      rewrite H; simpl; [done|]. by apply (Hdebit a u).
  - done.
Qed.

(** The balances of a file that [load_users] read under the limit stay
    within the limit whatever is called afterwards: [str], which [save]
    calls on every balance, and [{...:,}], which the pages call on the
    balance of the session, raise on none of them. The same file is read
    to the same accounts with the limit off. *)
Theorem loaded_balances_writable (max_str_digits : nat) (fs : filesystem)
        (file_name : str) (users : list User) (cs : list call) :
  load_users_limit max_str_digits fs file_name = Return users ->
  load_users fs file_name = Return users /\
  Forall (fun v =>
            Py.str_limit max_str_digits (balance v)
            = Some (Py.str_of_int (balance v)) /\
            Py.format_comma_limit max_str_digits (balance v)
            = Some (Py.format_comma (balance v)))
         (_users (run_all cs (__init__ users))).
Proof.
  intros H. apply load_users_limit_Return in H as [Hload Hall].
  split; [done|].
  assert (Hrun : Forall (fun v => Py.exceeds_limit max_str_digits
                                    (Py.digits_of_int (balance v)) = false)
                        (_users (run_all cs (__init__ users)))).
  { change users with (_users (__init__ users)) in Hall.
    revert Hall. generalize (__init__ users) as self.
    induction cs as [|c rest IH]; intros self Hall; simpl; [done|].
    apply IH. by apply run_keeps_writable. }
  eapply Forall_impl; [exact Hrun|]. intros v Hv. split.
  - by apply str_limit_Some.
  - by apply format_comma_limit_Some.
Qed.

Lemma loaded_balances_writable_witness :
  load_users_limit Py.default_max_str_digits
                   {[ users_csv := scenario_file ]} users_csv
  = Return scenario_users /\
  Forall (fun v =>
            Py.str_limit Py.default_max_str_digits (balance v)
            = Some (Py.str_of_int (balance v)) /\
            Py.format_comma_limit Py.default_max_str_digits (balance v)
            = Some (Py.format_comma (balance v)))
         (_users (run_all [Authenticate (Py.lit "pass2"); Withdraw 500000]
                          (__init__ scenario_users))).
Proof.
  assert (H : load_users_limit Py.default_max_str_digits
                {[ users_csv := scenario_file ]} users_csv
              = Return scenario_users).
  { unfold load_users_limit. rewrite lookup_singleton_eq.
    vm_compute. reflexivity. }
  split; [exact H|].
  exact (proj2 (loaded_balances_writable _ _ _ _ _ H)).
Defined.
